(** * pfm-ml: transaction features, synthetic data, ranking and artifacts

    A shallow embedding of the Python sources of the repository
    (settings.py, utils/amount.py, utils/date_and_time.py, ml/data.py,
    ml/features.py, ml/io.py, predict.py, app/main.py) followed by the
    properties of the feature-and-inference contract.

    Conventions of the embedding.
    - Python [int] is [Z]; Python [float] is the rational it denotes, [Q]
      (every finite double is a rational, comparisons agree); the rounding
      error of float arithmetic is not modelled.
    - Python [str] is [string], the text in its UTF-8 bytes; [dict] with
      string keys is [gmap string _]; [list] is [list].
    - A raised exception is the [Raise] case of [result]; code that draws
      from the module-level [random] generator runs in the monad [M], which
      threads the generator's state and keeps it when an exception leaves.
    - The library calls ([random], [pd.to_datetime], [argsort],
      [str.lower]) are not part of the repository: each is a class that
      states what the code relies on, and the code is embedded over any
      member of the class.  A concrete member is given beside each class
      for the places where a statement is evaluated on an input.  Files
      are a store from paths to what [pickle.load] finds there. *)

From Stdlib Require Import Ascii String ZArith QArith Qround Lia Lqa.
From stdpp Require Import base option list sorting gmap strings pretty.

Set Default Proof Using "Type".

(* ===================================================================== *)
(** * Part I. The embedding                                              *)
(* ===================================================================== *)

(** ** Python values shared by all modules *)

Module py.

(** The exceptions the modelled code can raise. *)
Inductive exn : Type :=
| KeyError (key : string)
| IndexError
| ValueError (msg : string)
| OverflowError
| AttributeError (attr : string)
| FileNotFoundError (path : string)
| UnpicklingError (msg : string)
| EOFError
| NotFittedError
| TypeError
| DateParseError (text : string)
| HTTPException (status_code : Z) (detail : string).

Inductive result (A : Type) : Type :=
| Ok (a : A)
| Raise (e : exn).
Arguments Ok {A} a.
Arguments Raise {A} e.

#[global] Instance exn_eq_dec : EqDecision exn.
Proof. solve_decision. Defined.

#[global] Instance result_eq_dec {A} `{EqDecision A} : EqDecision (result A).
Proof. solve_decision. Defined.

Definition rbind {A B} (r : result A) (f : A → result B) : result B :=
  match r with
  | Ok a => f a
  | Raise e => Raise e
  end.

#[global] Instance result_ret : MRet result := λ A a, Ok a.
#[global] Instance result_bind : MBind result := λ A B f r, rbind r f.

(** A loop applying a fallible function to each element: the first
    exception leaves the loop. *)
Fixpoint rmap {A B} (f : A → result B) (xs : list A) : result (list B) :=
  match xs with
  | [] => Ok []
  | x :: xs' =>
      y ← f x; ys ← rmap f xs'; Ok (y :: ys)
  end.

(** Lowering the letters A to Z; every other byte is kept. *)
Definition lower_ascii (c : ascii) : ascii :=
  let n := nat_of_ascii c in
  if (65 <=? n)%nat && (n <=? 90)%nat then ascii_of_nat (n + 32) else c.

Fixpoint lower_ascii_text (s : string) : string :=
  match s with
  | EmptyString => EmptyString
  | String c s' => String (lower_ascii c) (lower_ascii_text s')
  end.

(** Text without a byte above 127, that is, without a non-ASCII
    character in its UTF-8 form. *)
Definition is_ascii (s : string) : bool :=
  forallb (λ c, (nat_of_ascii c <? 128)%nat) (list_ascii_of_string s).

(** [str.lower] (and [Series.str.lower], which applies it to each cell)
    follows the Unicode case mapping, which belongs to the Python runtime
    and not to the repository.  The class takes any [lower] that does on
    ASCII text what [str.lower] does there: it lowers A to Z and keeps the
    rest.  Nothing is assumed about text with other characters. *)
Class Casing : Type := {
  lower : string → string;
  lower_on_ascii s : is_ascii s = true → lower s = lower_ascii_text s
}.

(** The member that lowers A to Z in every text; it is [str.lower] on
    ASCII text, where the statements are evaluated. *)
Definition ascii_casing : Casing :=
  {| lower := lower_ascii_text; lower_on_ascii := λ _ _, eq_refl |}.

(** [str(i)] for an [int]. *)
Definition str_of_int (i : Z) : string := pretty i.

(** [seq[:k]] for a list: a negative [k] counts from the end. *)
Definition slice_to {A} (k : Z) (l : list A) : list A :=
  if (0 <=? k)%Z then take (Z.to_nat k) l
  else take (Z.to_nat (Z.of_nat (length l) + k)) l.

(** [round(x, ndigits)] with [ndigits >= 0]: to the nearest multiple of
    [10^-ndigits], ties to the even one. *)
Definition round_half_even (q : Q) : Z :=
  let f := Qfloor q in
  match (q - inject_Z f) ?= (1 # 2) with
  | Lt => f
  | Gt => (f + 1)%Z
  | Eq => if Z.even f then f else (f + 1)%Z
  end%Q.

Definition round (x : Q) (ndigits : Z) : Q :=
  let scale := (10 ^ ndigits)%Z in
  Qmake (round_half_even (x * inject_Z scale)) (Z.to_pos scale).

End py.

(** ** datetime: the calendar arithmetic of [datetime] and [pd.Timestamp] *)

Module datetime.

Record t : Type := mk {
  year : Z; month : Z; day : Z;
  hour : Z; minute : Z; second : Z
}.

#[global] Instance eq_dec : EqDecision t.
Proof. solve_decision. Defined.

(** Days since 1970-01-01 in the proleptic Gregorian calendar. *)
Definition days_from_civil (y m d : Z) : Z :=
  let y' := if (m <=? 2)%Z then (y - 1)%Z else y in
  let era := (y' / 400)%Z in
  let yoe := (y' - era * 400)%Z in
  let mp := ((m + 9) mod 12)%Z in
  let doy := ((153 * mp + 2) / 5 + d - 1)%Z in
  let doe := (yoe * 365 + yoe / 4 - yoe / 100 + doy)%Z in
  (era * 146097 + doe - 719468)%Z.

Definition civil_from_days (z : Z) : Z * Z * Z :=
  let z' := (z + 719468)%Z in
  let era := (z' / 146097)%Z in
  let doe := (z' - era * 146097)%Z in
  let yoe := ((doe - doe / 1460 + doe / 36524 - doe / 146096) / 365)%Z in
  let doy := (doe - (365 * yoe + yoe / 4 - yoe / 100))%Z in
  let mp := ((5 * doy + 2) / 153)%Z in
  let d := (doy - (153 * mp + 2) / 5 + 1)%Z in
  let m := if (mp <? 10)%Z then (mp + 3)%Z else (mp - 9)%Z in
  let y := (yoe + era * 400)%Z in
  (if (m <=? 2)%Z then (y + 1)%Z else y, m, d).

(** [ts.dayofweek] / [dt.weekday()]: Monday is 0, Sunday is 6. *)
Definition dayofweek (ts : t) : Z :=
  ((days_from_civil (year ts) (month ts) (day ts) + 3) mod 7)%Z.

(** [dt + timedelta(days=days, hours=hours)]; a year outside 1..9999 is an
    OverflowError. *)
Definition add_timedelta (dt : t) (days hours : Z) : py.result t :=
  let total := ((days_from_civil (year dt) (month dt) (day dt) + days) * 86400
                + (hour dt + hours) * 3600 + minute dt * 60 + second dt)%Z in
  let date := (total / 86400)%Z in
  let rem := (total mod 86400)%Z in
  let '(y, m, d) := civil_from_days date in
  if (1 <=? y)%Z && (y <=? 9999)%Z then
    py.Ok {| year := y; month := m; day := d;
             hour := (rem / 3600)%Z;
             minute := ((rem mod 3600) / 60)%Z;
             second := (rem mod 60)%Z |}
  else py.Raise py.OverflowError.

Definition digit (n : Z) : ascii := ascii_of_nat (48 + Z.to_nat (n mod 10)).

Definition pad2 (n : Z) : string :=
  String (digit (n / 10)) (String (digit n) EmptyString).

Definition pad4 (n : Z) : string :=
  String (digit (n / 1000)) (String (digit (n / 100)) (pad2 n)).

(** [dt.isoformat(timespec="seconds")] of a naive datetime. *)
Definition isoformat (dt : t) : string :=
  pad4 (year dt) +:+ "-" +:+ pad2 (month dt) +:+ "-" +:+ pad2 (day dt)
  +:+ "T" +:+ pad2 (hour dt) +:+ ":" +:+ pad2 (minute dt) +:+ ":"
  +:+ pad2 (second dt).

(** A reader for the [YYYY-MM-DDTHH:MM:SS] form written by [isoformat]. *)
Definition digit_val (c : ascii) : option Z :=
  let n := nat_of_ascii c in
  if (48 <=? n)%nat && (n <=? 57)%nat then Some (Z.of_nat (n - 48)) else None.

Fixpoint number (cs : list ascii) (acc : Z) : option Z :=
  match cs with
  | [] => Some acc
  | c :: cs' => v ← digit_val c; number cs' (acc * 10 + v)%Z
  end.

Definition is_leap (y : Z) : bool :=
  ((y mod 4 =? 0)%Z && negb (y mod 100 =? 0)%Z) || (y mod 400 =? 0)%Z.

Definition days_in_month (y m : Z) : Z :=
  if (m =? 2)%Z then (if is_leap y then 29 else 28)%Z
  else if (m =? 4)%Z || (m =? 6)%Z || (m =? 9)%Z || (m =? 11)%Z then 30%Z
  else 31%Z.

Definition fromisoformat (s : string) : option t :=
  match list_ascii_of_string s with
  | [y1; y2; y3; y4; d1; m1; m2; d2; a1; a2; sep; h1; h2; c1; i1; i2; c2; s1; s2] =>
      if negb (Ascii.eqb d1 "-" && Ascii.eqb d2 "-"
               && (Ascii.eqb sep "T" || Ascii.eqb sep " ")
               && Ascii.eqb c1 ":" && Ascii.eqb c2 ":")
      then None
      else
        y ← number [y1; y2; y3; y4] 0;
        m ← number [m1; m2] 0;
        d ← number [a1; a2] 0;
        h ← number [h1; h2] 0;
        mi ← number [i1; i2] 0;
        se ← number [s1; s2] 0;
        if (1 <=? y)%Z && (1 <=? m)%Z && (m <=? 12)%Z && (1 <=? d)%Z
           && (d <=? days_in_month y m)%Z
           && (h <=? 23)%Z && (mi <=? 59)%Z && (se <=? 59)%Z
        then Some (mk y m d h mi se)
        else None
  | _ => None
  end.

End datetime.

(** ** random: the module-level generator

    The Mersenne Twister is not part of the repository.  The class states
    what the code relies on: [seed] fixes the state, [random()] is in
    [0, 1), and [_randbelow(n)] is in [0, n) for a positive [n]. *)

Module random.

Class Source (G : Type) : Type := {
  seeded : Z → G;
  next_float : G → Q * G;
  randbelow : Z → G → Z * G;
  next_float_range : ∀ g, (0 <= (next_float g).1 ∧ (next_float g).1 < 1)%Q;
  randbelow_range : ∀ n g, (0 < n → 0 ≤ (randbelow n g).1 < n)%Z
}.

(** Computations that use the generator: the state goes in and comes
    out, also when an exception is raised. *)
Definition M (G A : Type) : Type := G → py.result A * G.

#[global] Instance M_ret G : MRet (M G) := λ A a g, (py.Ok a, g).
#[global] Instance M_bind G : MBind (M G) := λ A B f m g,
  match m g with
  | (py.Ok a, g') => f a g'
  | (py.Raise e, g') => (py.Raise e, g')
  end.

Definition lift {G A} (r : py.result A) : M G A := λ g, (r, g).
Definition raise {G A} (e : py.exn) : M G A := λ g, (py.Raise e, g).

(** [[body for _ in range(n)]]. *)
Fixpoint repeatM {G A} (n : nat) (body : M G A) : M G (list A) :=
  match n with
  | O => mret []
  | S n' => x ← body; xs ← repeatM n' body; mret (x :: xs)
  end.

(** [for x in xs: out.append(f(x))]. *)
Fixpoint forM {G A B} (xs : list A) (f : A → M G B) : M G (list B) :=
  match xs with
  | [] => mret []
  | x :: xs' => y ← f x; ys ← forM xs' f; mret (y :: ys)
  end.

Section api.
Context {G : Type} `{src : !Source G}.

(** [random.seed(a)]. *)
Definition seed (a : Z) : M G unit := λ _, (py.Ok tt, seeded a).

(** [random.random()]. *)
Definition random : M G Q := λ g, let '(r, g') := next_float g in (py.Ok r, g').

(** [random.choice(seq)]: [seq[_randbelow(len(seq))]]. *)
Definition choice {A} (seq : list A) : M G A :=
  if bool_decide (seq = []) then raise py.IndexError
  else λ g,
    let '(i, g') := randbelow (Z.of_nat (length seq)) g in
    (match seq !! Z.to_nat i with
     | Some x => py.Ok x
     | None => py.Raise py.IndexError
     end, g').

(** [random.randint(a, b)]: [a + _randbelow(b + 1 - a)]. *)
Definition randint (a b : Z) : M G Z :=
  if (0 <? b + 1 - a)%Z then
    λ g, let '(i, g') := randbelow (b + 1 - a) g in (py.Ok (a + i)%Z, g')
  else raise (py.ValueError "empty range for randrange()").

(** [random.uniform(a, b)]: [a + (b - a) * random()]. *)
Definition uniform (a b : Q) : M G Q :=
  r ← random; mret (a + (b - a) * r)%Q.

End api.
End random.

(** ** settings.py *)

Module settings.

Record AmountSpec : Type := mkAmountSpec {
  low : Q;
  high : Q;
  sign : Z
}.

(** [AmountSpec.__post_init__]. *)
Definition AmountSpec_post_init (spec : AmountSpec) : py.result unit :=
  if Qlt_le_dec (high spec) (low spec)
  then py.Raise (py.ValueError "AmountSpec.low must be <= AmountSpec.high")
  else py.Ok tt.

Record TimeSettings : Type := mkTimeSettings {
  base_date : datetime.t;
  hour_choices : gmap string (list Z);
  default_hour_range : Z * Z;
  day_offset_range : Z * Z
}.

Record VocabEntry : Type := mkVocabEntry {
  merchants : list string;
  desc : list string
}.

(** The [model] hyperparameters configure scikit-learn only and are left
    out. *)
Record Settings : Type := mkSettings {
  categories : list string;
  vocab : gmap string VocabEntry;
  amounts : gmap string AmountSpec;
  default_amount : AmountSpec;
  default_ndigits : Z;
  time : TimeSettings;
  seed : Z
}.

Definition SETTINGS : Settings := {|
  categories := [
    "Groceries"; "Transport"; "Dining & Coffee"; "Entertainment";
    "Bills & Utilities"; "Health & Fitness"; "Shopping"; "Income"; "Other"
  ];
  vocab := list_to_map [
    ("Groceries", mkVocabEntry
       ["Tesco"; "Sainsbury's"; "ALDI"; "LIDL"; "ASDA"; "Co-op"; "Morrisons"]
       ["groceries"; "weekly shop"; "food basket"; "fresh produce"]);
    ("Transport", mkVocabEntry
       ["Uber"; "Bolt"; "ScotRail"; "TFL"; "Shell"; "BP"; "Stagecoach"]
       ["ride home"; "bus ticket"; "train to work"; "petrol"; "diesel"]);
    ("Dining & Coffee", mkVocabEntry
       ["Starbucks"; "Costa"; "Caffè Nero"; "KFC"; "McDonalds"; "Dominos"]
       ["morning latte"; "burger meal"; "pizza deal"; "americano"; "lunch"]);
    ("Entertainment", mkVocabEntry
       ["Netflix"; "Spotify"; "Steam"; "Cineworld"; "Disney+"]
       ["subscription"; "movie ticket"; "monthly sub"; "premium plan"]);
    ("Bills & Utilities", mkVocabEntry
       ["Vodafone"; "O2"; "EE"; "BT"; "British Gas"; "Octopus Energy"]
       ["mobile bill"; "broadband"; "energy bill"; "council tax"]);
    ("Health & Fitness", mkVocabEntry
       ["Boots"; "NHS"; "PureGym"; "The Gym Group"; "Holland & Barrett"]
       ["pharmacy"; "gym membership"; "vitamins"; "healthcare"]);
    ("Shopping", mkVocabEntry
       ["Amazon"; "eBay"; "Argos"; "Currys"; "Primark"; "IKEA"]
       ["online order"; "charger"; "home goods"; "t-shirt"; "accessories"]);
    ("Income", mkVocabEntry
       ["Payroll"; "ACME LTD"; "Company Ltd"; "Employer Ltd"; "HSBC"]
       ["monthly salary"; "PAYROLL BACS CREDIT"; "wage"; "payslip"]);
    ("Other", mkVocabEntry
       ["Local Market"; "HSBC"; "Barclays"; "NatWest"; "Halifax"; "Monzo"]
       ["card payment"; "transfer"; "fee"; "charge"; "misc purchase"])
  ];
  amounts := list_to_map [
    ("Groceries", mkAmountSpec 8 120 (-1));
    ("Transport", mkAmountSpec 3 70 (-1));
    ("Dining & Coffee", mkAmountSpec 2 30 (-1));
    ("Entertainment", mkAmountSpec 4 20 (-1));
    ("Bills & Utilities", mkAmountSpec 20 500 (-1));
    ("Health & Fitness", mkAmountSpec 3 120 (-1));
    ("Shopping", mkAmountSpec 5 500 (-1));
    ("Income", mkAmountSpec 800 2500 1)
  ];
  default_amount := mkAmountSpec 1 80 (-1);
  default_ndigits := 2;
  time := {|
    base_date := datetime.mk 2025 8 15 0 0 0;
    hour_choices := list_to_map [
      ("Transport", [7; 8; 9; 22; 23; 0; 1]%Z);
      ("Dining & Coffee", [8; 12; 13; 18; 19]%Z);
      ("Entertainment", [19; 20; 21; 22]%Z)
    ];
    default_hour_range := (8, 21)%Z;
    day_offset_range := (0, 13)%Z
  |};
  seed := 42
|}.

(** [ModelSettings] and the value of [SETTINGS.model]. *)
Record ModelSettings : Type := mkModelSettings {
  test_size : Q;
  random_state : Z;
  word_tfidf_min_df : Z;
  word_tfidf_ngram : Z * Z;
  char_tfidf_min_df : Z;
  char_tfidf_ngram : Z * Z;
  solver : string;
  max_iter : Z;
  class_weight : string
}.

Definition SETTINGS_model : ModelSettings := {|
  test_size := 2 # 10;
  random_state := 42;
  word_tfidf_min_df := 2;
  word_tfidf_ngram := (1, 2)%Z;
  char_tfidf_min_df := 2;
  char_tfidf_ngram := (3, 5)%Z;
  solver := "saga";
  max_iter := 2000;
  class_weight := "balanced"
|}.

End settings.

(** ** utils/amount.py *)

Module utils_amount.
Import settings.

Section defs.
Context {G : Type} `{src : !random.Source G}.

Definition choose_random_amount (lower_bound upper_bound : Q)
    (decimal_places : option Z) (sign : Z) : random.M G Q :=
  let decimal_places := default (default_ndigits SETTINGS) decimal_places in
  if (decimal_places <? 0)%Z
  then random.raise (py.ValueError "decimal_places must be >= 0")
  else
    (* Normalize bounds so lower_bound <= upper_bound *)
    let '(lo, hi) :=
      if Qlt_le_dec upper_bound lower_bound
      then (upper_bound, lower_bound)
      else (lower_bound, upper_bound) in
    sampled_value ← random.uniform lo hi;
    mret (py.round (inject_Z sign * sampled_value) decimal_places).

Definition get_amount_spec (category : string) : AmountSpec :=
  default (default_amount SETTINGS) (amounts SETTINGS !! category).

Definition rand_amount (category : string) (decimal_places : option Z)
    : random.M G Q :=
  let spec := get_amount_spec category in
  choose_random_amount (low spec) (high spec) decimal_places (sign spec).

End defs.
End utils_amount.

(** ** utils/date_and_time.py *)

Module utils_date_and_time.
Import settings.

Section defs.
Context {G : Type} `{src : !random.Source G}.

(** The first argument is a sequence of hours or the start of a range;
    [end_inclusive = None] selects the sequence form. *)
Definition choose_random_hour (hours_or_start : list Z + Z)
    (end_inclusive : option Z) : random.M G Z :=
  hour ←
    match end_inclusive with
    | None =>
        match hours_or_start with
        | inl candidates =>
            if bool_decide (candidates = [])
            then random.raise (py.ValueError "hours sequence must not be empty")
            else random.choice candidates
        | inr _ => random.raise py.TypeError
        end
    | Some end_ =>
        match hours_or_start with
        | inr start =>
            let '(start, end_) :=
              if (end_ <? start)%Z then (end_, start) else (start, end_) in
            random.randint start end_
        | inl _ => random.raise py.TypeError
        end
    end;
  if negb ((0 <=? hour)%Z && (hour <=? 23)%Z)
  then random.raise (py.ValueError "hour must be within 0..23")
  else mret hour.

Definition choose_random_day (start_day_offset_inclusive
    end_day_offset_inclusive : Z) : random.M G Z :=
  let '(start, end_) :=
    if (end_day_offset_inclusive <? start_day_offset_inclusive)%Z
    then (end_day_offset_inclusive, start_day_offset_inclusive)
    else (start_day_offset_inclusive, end_day_offset_inclusive) in
  random.randint start end_.

Definition use_date_offset (start_datetime : datetime.t)
    (days_offset hours_offset : Z) : py.result datetime.t :=
  datetime.add_timedelta start_datetime days_offset hours_offset.

(** The hour choice of [rand_time]: per-category fixed choices or the
    fallback range. *)
Definition rand_time_hour (category : string) : random.M G Z :=
  let time_settings := time SETTINGS in
  match hour_choices time_settings !! category with
  | Some hours => choose_random_hour (inl hours) None
  | None =>
      let '(start_hour, end_hour) := default_hour_range time_settings in
      choose_random_hour (inr start_hour) (Some end_hour)
  end.

Definition rand_time (category : string) : random.M G string :=
  let time_settings := time SETTINGS in
  selected_hour ← rand_time_hour category;
  selected_day_offset ←
    choose_random_day (day_offset_range time_settings).1
                      (day_offset_range time_settings).2;
  timestamp_datetime ←
    random.lift (use_date_offset (base_date time_settings)
                   selected_day_offset selected_hour);
  mret (datetime.isoformat timestamp_datetime).

End defs.
End utils_date_and_time.

(** ** ml/data.py *)

Module ml_data.
Import settings.

(** One row of the raw table. *)
Record Row : Type := mkRow {
  date : string;
  merchant : string;
  description : string;
  amount : Q;
  label : string
}.

Section defs.
Context {G : Type} `{src : !random.Source G}.

Definition synthesize_rows_for_category (category : string) (rows_count : Z)
    (vocab : gmap string VocabEntry) : random.M G (list Row) :=
  entry ← random.lift (match vocab !! category with
                       | Some e => py.Ok e
                       | None => py.Raise (py.KeyError category)
                       end);
  let merchants := merchants entry in
  let descriptions := desc entry in
  random.repeatM (Z.to_nat rows_count) (
    merchant ← random.choice merchants;
    description ← random.choice descriptions;
    date ← utils_date_and_time.rand_time category;
    amount ← utils_amount.rand_amount category None;
    mret (mkRow date merchant description amount category)).

Definition synthesize_dataset (default_samples_per_category : Z)
    (per_category_overrides : option (gmap string Z)) (seed : option Z)
    : random.M G (list Row) :=
  _ ← match seed with
      | Some s => random.seed s
      | None => mret tt
      end;
  let categories := categories SETTINGS in
  let vocab := vocab SETTINGS in
  let overrides := default ∅ per_category_overrides in
  blocks ← random.forM categories (λ category,
    let n := default default_samples_per_category (overrides !! category) in
    synthesize_rows_for_category category n vocab);
  (* A few extra "unknown-ish" examples to check generalization *)
  d1 ← utils_date_and_time.rand_time "Income";
  d2 ← utils_date_and_time.rand_time "Entertainment";
  d3 ← utils_date_and_time.rand_time "Transport";
  d4 ← utils_date_and_time.rand_time "Other";
  mret (concat blocks ++ [
    mkRow d1 "HSBC" "PAYROLL BACS CREDIT" (-1350) "Income";
    mkRow d2 "STREAMIO" "monthly subscription" (899 # 100) "Entertainment";
    mkRow d3 "QuickRide" "late night ride" (112 # 10) "Transport";
    mkRow d4 "HSBC" "card payment" (2499 # 100) "Other"
  ]).

End defs.
End ml_data.

(** ** pandas and numpy: the library calls of the feature and ranking code *)

Module pandas.

(** pandas is not part of the repository.  [pd.to_datetime] on a column
    of strings, with its default [errors="raise"], reads the column in one
    call: it settles on one layout for the whole column, so what an entry
    is read as can depend on its neighbours; an entry can be read as [NaT]
    without an error (the empty string, "NaT"); and the call raises as a
    whole when it cannot read some entry.  The class takes any such
    reader: [None] in a result is [NaT], a column that is read has one
    result per entry, and what the reader raises is its own error for a
    text it cannot read (pandas' DateParseError, OutOfBoundsDatetime and
    the like, all of them ValueErrors), here [DateParseError]. *)
Class Parser : Type := {
  to_datetime_series : list string → py.result (list (option datetime.t));
  to_datetime_series_length series dt :
    to_datetime_series series = py.Ok dt → length dt = length series;
  to_datetime_series_error series e :
    to_datetime_series series = py.Raise e →
    ∃ text, e = py.DateParseError text
}.

Section defs.
Context `{!Parser}.

(** [pd.to_datetime(s)] on one string: pandas reads the one-entry column
    [[s]] and returns its entry. *)
Definition to_datetime (s : string) : py.result (option datetime.t) :=
  dt ← to_datetime_series [s];
  match dt with
  | ts :: _ => py.Ok ts
  | [] => py.Raise py.IndexError
  end.

(** [pd.to_datetime(s, errors="coerce")]: [NaT] where the strict call
    raises. *)
Definition to_datetime_coerce (s : string) : option datetime.t :=
  match to_datetime s with
  | py.Ok ts => ts
  | py.Raise _ => None
  end.

End defs.

(** [series.fillna(value)] on one cell. *)
Definition fillna (value : string) (cell : option string) : string :=
  default value cell.

(** *** A reader of the repository's own timestamps

    The member used where a statement is evaluated: it knows the
    [YYYY-MM-DD?HH:MM:SS] form with [T] or a space in the middle, and the
    strings pandas takes for a missing value.  The layout of a column is
    that of its first entry that is not a missing value; an entry in
    another layout, or one that is no timestamp of this form, raises. *)
Definition nat_strings : list string :=
  [""; "NaT"; "nat"; "NAT"; "nan"; "NaN"; "NAN"].

Definition is_nat_string (s : string) : bool :=
  existsb (String.eqb s) nat_strings.

(** The character between date and time. *)
Definition separator (s : string) : option ascii :=
  list_ascii_of_string s !! 10%nat.

Definition column_layout (series : list string) : option ascii :=
  head (filter (λ s, is_nat_string s = false) series) ≫= separator.

Definition iso_entry (layout : option ascii) (s : string)
    : py.result (option datetime.t) :=
  if is_nat_string s then py.Ok None
  else
    match datetime.fromisoformat s with
    | Some ts =>
        if bool_decide (separator s = layout) then py.Ok (Some ts)
        else py.Raise (py.DateParseError s)
    | None => py.Raise (py.DateParseError s)
    end.

Definition iso_series (series : list string)
    : py.result (list (option datetime.t)) :=
  py.rmap (iso_entry (column_layout series)) series.

Program Definition iso_parser : Parser := {| to_datetime_series := iso_series |}.
Next Obligation.
  intros series. unfold iso_series.
  generalize (iso_entry (column_layout series)). intros f.
  induction series as [|s series IH]; intros dt; cbn [py.rmap].
  - by intros [= <-].
  - cbn [mbind py.result_bind py.rbind].
    destruct (f s) as [ts|e]; [|done].
    destruct (py.rmap f series) as [tss|e]; [|done].
    intros [= <-]. cbn. f_equal. by apply IH.
Qed.
Next Obligation.
  intros series e. unfold iso_series.
  generalize (column_layout series). intros layout.
  induction series as [|s series IH]; cbn [py.rmap]; [done|].
  cbn [mbind py.result_bind py.rbind].
  destruct (iso_entry layout s) as [ts|e'] eqn:Hs.
  - destruct (py.rmap (iso_entry layout) series) as [tss|e'']; [done|].
    intros [= ->]. by apply IH.
  - intros [= ->]. unfold iso_entry in Hs.
    destruct (is_nat_string s); [done|].
    destruct (datetime.fromisoformat s); [|injection Hs as <-; by eexists].
    destruct (bool_decide _); [done|]. injection Hs as <-. by eexists.
Qed.

End pandas.

Module numpy.

(** The value at index [i] is at most the value at index [j]. *)
Definition le_at (a : list Q) (i j : nat) : Prop :=
  ∀ x y, a !! i = Some x → a !! j = Some y → (x <= y)%Q.

(** [a.argsort()] with numpy's default kind, which is not a stable sort:
    the result holds every index of [a] once, in ascending order of the
    values; the order among equal values is not promised and differs
    between array sizes and builds.  The class takes any such sort. *)
Class Argsort : Type := {
  argsort : list Q → list nat;
  argsort_indices a : argsort a ≡ₚ seq 0 (length a);
  argsort_ascending a : StronglySorted (le_at a) (argsort a)
}.

(** *** A member: insertion sort

    Used where a statement is evaluated; it keeps equal values in index
    order. *)
Definition enumerate {A} (a : list A) : list (nat * A) := imap pair a.

(** One insertion step: the new entry moves left past the entries that are
    strictly greater. *)
Fixpoint insert (x : nat * Q) (sorted : list (nat * Q)) : list (nat * Q) :=
  match sorted with
  | [] => [x]
  | y :: rest =>
      if Qlt_le_dec x.2 y.2 then x :: y :: rest else y :: insert x rest
  end.

Definition insertion_pairs (a : list Q) : list (nat * Q) :=
  foldl (λ acc x, insert x acc) [] (enumerate a).

Definition insertion_argsort (a : list Q) : list nat := (insertion_pairs a).*1.

Lemma insert_Permutation x l : insert x l ≡ₚ x :: l.
Proof.
  induction l as [|y l IH]; [done|]. cbn.
  destruct (Qlt_le_dec x.2 y.2); [done|].
  rewrite IH. apply Permutation_swap.
Qed.

Lemma insert_sorted x l :
  StronglySorted (λ u w, (u.2 <= w.2)%Q) l →
  StronglySorted (λ u w, (u.2 <= w.2)%Q) (insert x l).
Proof.
  induction l as [|y l IH]; intros Hl; cbn.
  - repeat constructor.
  - apply StronglySorted_cons in Hl as [Hy Hl].
    destruct (Qlt_le_dec x.2 y.2) as [Hlt|Hle].
    + apply StronglySorted_cons. split.
      * constructor; [lra|].
        eapply Forall_impl; [exact Hy|]. intros z Hz. cbn in Hz. lra.
      * by apply StronglySorted_cons.
    + apply StronglySorted_cons. split; [|by apply IH].
      rewrite insert_Permutation. by constructor.
Qed.

Lemma insertion_pairs_snoc (a : list Q) v :
  insertion_pairs (a ++ [v]) = insert (length a, v) (insertion_pairs a).
Proof.
  unfold insertion_pairs, enumerate.
  rewrite imap_app, foldl_app. cbn. by rewrite Nat.add_0_r.
Qed.

Lemma elem_of_enumerate {A} (a : list A) i v :
  (i, v) ∈ enumerate a ↔ a !! i = Some v.
Proof.
  unfold enumerate. rewrite elem_of_lookup_imap. split.
  - by intros (j & w & [= -> ->] & ?).
  - intros ?. by exists i, v.
Qed.

Lemma enumerate_indices {A} (a : list A) :
  (enumerate a).*1 = seq 0 (length a).
Proof.
  unfold enumerate. induction a as [|x a IH] using rev_ind; [done|].
  rewrite imap_app, fmap_app, IH, length_app, seq_app. cbn.
  by rewrite Nat.add_0_r.
Qed.

Lemma insertion_pairs_Permutation (a : list Q) :
  insertion_pairs a ≡ₚ enumerate a.
Proof.
  induction a as [|v a IH] using rev_ind; [done|].
  rewrite insertion_pairs_snoc, insert_Permutation, IH.
  unfold enumerate. rewrite imap_app. cbn. rewrite Nat.add_0_r.
  by rewrite Permutation_cons_append.
Qed.

Lemma insertion_pairs_sorted (a : list Q) :
  StronglySorted (λ u w, (u.2 <= w.2)%Q) (insertion_pairs a).
Proof.
  induction a as [|v a IH] using rev_ind; [constructor|].
  rewrite insertion_pairs_snoc. by apply insert_sorted.
Qed.

(** *** Another member: insertion past equal values

    The same sort with the new entry moving left past the entries that
    are greater or equal; it leaves equal values in reverse index
    order. *)
Fixpoint insert_past_equal (x : nat * Q) (sorted : list (nat * Q))
    : list (nat * Q) :=
  match sorted with
  | [] => [x]
  | y :: rest =>
      if Qlt_le_dec y.2 x.2 then y :: insert_past_equal x rest
      else x :: y :: rest
  end.

Definition flipped_pairs (a : list Q) : list (nat * Q) :=
  foldl (λ acc x, insert_past_equal x acc) [] (enumerate a).

Definition flipped_argsort (a : list Q) : list nat := (flipped_pairs a).*1.

Lemma insert_past_equal_Permutation x l : insert_past_equal x l ≡ₚ x :: l.
Proof.
  induction l as [|y l IH]; [done|]. cbn.
  destruct (Qlt_le_dec y.2 x.2); [|done].
  rewrite IH. apply Permutation_swap.
Qed.

Lemma insert_past_equal_sorted x l :
  StronglySorted (λ u w, (u.2 <= w.2)%Q) l →
  StronglySorted (λ u w, (u.2 <= w.2)%Q) (insert_past_equal x l).
Proof.
  induction l as [|y l IH]; intros Hl; cbn.
  - repeat constructor.
  - apply StronglySorted_cons in Hl as [Hy Hl].
    destruct (Qlt_le_dec y.2 x.2) as [Hlt|Hle].
    + apply StronglySorted_cons. split; [|by apply IH].
      rewrite insert_past_equal_Permutation. constructor; [lra|done].
    + apply StronglySorted_cons. split.
      * constructor; [done|].
        eapply Forall_impl; [exact Hy|]. intros z Hz. cbn in Hz. lra.
      * by apply StronglySorted_cons.
Qed.

Lemma flipped_pairs_Permutation (a : list Q) : flipped_pairs a ≡ₚ enumerate a.
Proof.
  unfold flipped_pairs, enumerate.
  induction a as [|v a IH] using rev_ind; [done|].
  rewrite imap_app, foldl_app. cbn.
  rewrite insert_past_equal_Permutation, IH.
  by rewrite Permutation_cons_append.
Qed.

Lemma flipped_pairs_sorted (a : list Q) :
  StronglySorted (λ u w, (u.2 <= w.2)%Q) (flipped_pairs a).
Proof.
  unfold flipped_pairs, enumerate.
  induction a as [|v a IH] using rev_ind; [constructor|].
  rewrite imap_app, foldl_app. cbn. by apply insert_past_equal_sorted.
Qed.

(** Pairs of an index with its value, sorted by value, give indices
    sorted by the values they point to. *)
Lemma sorted_pairs_indices (a : list Q) (l : list (nat * Q)) :
  Forall (λ u, a !! u.1 = Some u.2) l →
  StronglySorted (λ u w, (u.2 <= w.2)%Q) l →
  StronglySorted (le_at a) l.*1.
Proof.
  intros Hval Hs. induction Hs as [|u l _ IH Hu]; [constructor|].
  apply Forall_cons in Hval as [Hv Hval].
  cbn [fmap list_fmap]. constructor; [by apply IH|].
  apply Forall_fmap, Forall_forall. intros w Hw x y Hx Hy.
  rewrite Forall_forall in Hu, Hval. cbn in *.
  rewrite Hv in Hx. rewrite (Hval w Hw) in Hy.
  injection Hx as <-. injection Hy as <-. by apply Hu.
Qed.

Program Definition insertion_flipped : Argsort :=
  {| argsort := flipped_argsort |}.
Next Obligation.
  intros a. unfold flipped_argsort.
  by rewrite flipped_pairs_Permutation, enumerate_indices.
Qed.
Next Obligation.
  intros a. unfold flipped_argsort.
  apply sorted_pairs_indices; [|apply flipped_pairs_sorted].
  apply Forall_forall. intros [i v] Hin.
  rewrite flipped_pairs_Permutation in Hin. by apply elem_of_enumerate.
Qed.

Program Definition insertion : Argsort := {| argsort := insertion_argsort |}.
Next Obligation.
  intros a. unfold insertion_argsort.
  by rewrite insertion_pairs_Permutation, enumerate_indices.
Qed.
Next Obligation.
  intros a. unfold insertion_argsort.
  apply sorted_pairs_indices; [|apply insertion_pairs_sorted].
  apply Forall_forall. intros [i v] Hin.
  rewrite insertion_pairs_Permutation in Hin. by apply elem_of_enumerate.
Qed.

End numpy.

(** ** ml/model.py: the columns of the feature table and the objects
    scikit-learn provides *)

Module ml_model.

(** One row of the table [build_pipeline] expects, columns in this order. *)
Record FeatureRecord : Type := mkFeatureRecord {
  combined_text : string;
  merchant_text : string;
  amount : Q;
  hour : Z;
  day_of_week : Z;
  is_weekend : Z
}.

(** A fitted or unfitted estimator: [classes_] is [None] when the
    attribute is absent. *)
Record Estimator : Type := mkEstimator {
  classes_ : option (list string)
}.

(** What the serving code asks of a loaded model object: each optional
    field is an attribute that [hasattr] may find missing. *)
Record Pipeline : Type := mkPipeline {
  named_steps : option (gmap string Estimator);
  pipeline_classes_ : option (list string);
  predict_proba : option (FeatureRecord → py.result (list Q));
  predict : FeatureRecord → py.result string
}.

(** An unpickled object. *)
#[warnings="-register-all"]
Inductive obj : Type :=
| ObjPipeline (p : Pipeline)
| ObjList (l : list string)
| ObjDict (d : gmap string obj).

(** What lies under a path: a pickle of an object, which [pickle.load]
    reads back as that object, or something [open] or [pickle.load] fails
    on with the exception given (a directory, a truncated or corrupted
    pickle, a pickle of classes that cannot be imported). *)
Inductive file : Type :=
| Pickled (payload : obj)
| Unreadable (error : py.exn).

(** The artifact store. *)
Abbreviation files := (gmap string file).

(** [open(path, "rb")] followed by [pickle.load]. *)
Definition unpickle (path : string) (fs : files) : py.result obj :=
  match fs !! path with
  | Some (Pickled payload) => py.Ok payload
  | Some (Unreadable error) => py.Raise error
  | None => py.Raise (py.FileNotFoundError path)
  end.

(** Attribute access on an unpickled object; [None] is a failed
    [hasattr]. *)
Definition getattr_named_steps (o : obj) : option (gmap string Estimator) :=
  match o with
  | ObjPipeline p => named_steps p
  | _ => None
  end.

Definition getattr_classes_ (o : obj) : option (list string) :=
  match o with
  | ObjPipeline p => pipeline_classes_ p
  | _ => None
  end.

Definition getattr_predict_proba (o : obj)
    : option (FeatureRecord → py.result (list Q)) :=
  match o with
  | ObjPipeline p => predict_proba p
  | _ => None
  end.

(** [o.predict(X)[0]]. *)
Definition call_predict (o : obj) (X : FeatureRecord) : py.result string :=
  match o with
  | ObjPipeline p => predict p X
  | _ => py.Raise (py.AttributeError "predict")
  end.

(** One entry of a ranked answer: the dict with keys "category" and
    "probability" of predict.py, the [TopKItem] of app/main.py. *)
Record TopKItem : Type := mkTopKItem {
  category : string;
  probability : Q
}.

(** [xs[i]] for a list. *)
Definition getitem {A} (xs : list A) (i : nat) : py.result A :=
  match xs !! i with
  | Some x => py.Ok x
  | None => py.Raise py.IndexError
  end.

(** The truth value of an optional list: [None] and the empty list are
    false. *)
Definition truthy {A} (xs : option (list A)) : option (list A) :=
  match xs with
  | Some (x :: l) => Some (x :: l)
  | _ => None
  end.

End ml_model.

(** ** ml/features.py *)

Module ml_features.
Import ml_model.

(** A row of the raw table; a text cell may be missing. *)
Record Raw : Type := mkRaw {
  date : string;
  merchant : option string;
  description : option string;
  raw_amount : Q;
  label : string
}.

(** [pd.DataFrame(rows)] of generated rows. *)
Definition of_row (r : ml_data.Row) : Raw :=
  mkRaw (ml_data.date r) (Some (ml_data.merchant r))
        (Some (ml_data.description r)) (ml_data.amount r) (ml_data.label r).

(** The three time columns.  Where the column reader gives [NaT], pandas
    gives NaN for the hour and the day of week: [None]. *)
Record TimeColumns : Type := mkTimeColumns {
  t_hour : option Z;
  t_day_of_week : option Z;
  t_is_weekend : Z
}.

Record WithTime : Type := mkWithTime {
  raw : Raw;
  time_columns : TimeColumns
}.

Record WithText : Type := mkWithText {
  base : WithTime;
  w_combined_text : string;
  w_merchant_text : string
}.

(** One row of the feature table of the training path, columns in the
    order of [FeatureRecord]; the hour and the day of week can be NaN. *)
Record FeatureRow : Type := mkFeatureRow {
  f_combined_text : string;
  f_merchant_text : string;
  f_amount : Q;
  f_hour : option Z;
  f_day_of_week : option Z;
  f_is_weekend : Z
}.

Section defs.
Context `{parser : !pandas.Parser} `{casing : !py.Casing}.

(** A comparison with NaN is false, so the weekend flag of a [NaT] entry
    is 0. *)
Definition extract_time_features (datetime_series : list string)
    : py.result (list TimeColumns) :=
  dt ← pandas.to_datetime_series datetime_series;
  mret (fmap (M:=list) (λ ts : option datetime.t,
    {| t_hour := datetime.hour <$> ts;
       t_day_of_week := datetime.dayofweek <$> ts;
       t_is_weekend :=
         match datetime.dayofweek <$> ts with
         | Some day_of_week => if (5 <=? day_of_week)%Z then 1 else 0
         | None => 0
         end |}) dt).

Definition build_feature_dataframe (df : list Raw) : py.result (list WithTime) :=
  time_df ← extract_time_features (date <$> df);
  mret (zip_with mkWithTime df time_df).

Definition add_text_features (df : list WithTime) : list WithText :=
  (λ out,
    mkWithText out
      (py.lower (pandas.fillna "" (merchant (raw out)) +:+ " "
                 +:+ pandas.fillna "" (description (raw out))))
      (py.lower (pandas.fillna "" (merchant (raw out))))) <$> df.

End defs.

Definition get_feature_matrix_and_labels (df : list WithText)
    : list FeatureRow * list string :=
  ((λ r, mkFeatureRow (w_combined_text r) (w_merchant_text r)
           (raw_amount (raw (base r)))
           (t_hour (time_columns (base r)))
           (t_day_of_week (time_columns (base r)))
           (t_is_weekend (time_columns (base r)))) <$> df,
   (λ r, label (raw (base r))) <$> df).

End ml_features.

(** ** train.py: the feature steps of [main] *)

Module train.

Section defs.
Context `{parser : !pandas.Parser} `{casing : !py.Casing}.

(** Step 2 of [main]: from the raw table to [(X, y)]. *)
Definition features (raw_df : list ml_features.Raw)
    : py.result (list ml_features.FeatureRow * list string) :=
  df_with_time ← ml_features.build_feature_dataframe raw_df;
  let df_with_text := ml_features.add_text_features df_with_time in
  mret (ml_features.get_feature_matrix_and_labels df_with_text).

End defs.

(** [y.value_counts()]: every label that occurs, with the number of its
    occurrences.  pandas orders the entries by count; [main] takes only
    their minimum and [all] of them. *)
Definition value_counts (y : list string) : list (string * Z) :=
  (λ l, (l, Z.of_nat (length (filter (λ l', l' = l) y)))) <$> remove_dups y.

(** Step 3 of [main], the safe stratification check.  The minimum of no
    counts is NaN, which fails the first comparison. *)
Definition can_stratify (y : list string) : bool :=
  let label_counts := (value_counts y).*2 in
  let test_size := settings.test_size settings.SETTINGS_model in
  match label_counts with
  | [] => false
  | c :: cs =>
      (2 <=? foldr Z.min c cs)%Z
      && forallb (λ n, Qle_bool 1 (inject_Z n * test_size)) label_counts
      && forallb (λ n, Qle_bool 1 (inject_Z n * (1 - test_size))) label_counts
  end.

Section main.
Context {G : Type} `{src : !random.Source G} `{parser : !pandas.Parser}
  `{casing : !py.Casing}.

(** Steps 1 to 3 of [main] up to the split: the feature table, the labels
    and whether the split is stratified. *)
Definition main_prepare
    : random.M G (list ml_features.FeatureRow * list string * bool) :=
  _ ← random.seed (settings.seed settings.SETTINGS);
  raw_df ← ml_data.synthesize_dataset 60 (Some {[ "Other" := 50%Z ]})
             (Some (settings.seed settings.SETTINGS));
  Xy ← random.lift (features (ml_features.of_row <$> raw_df));
  mret (Xy.1, Xy.2, can_stratify Xy.2).

End main.
End train.

(** ** ml/io.py *)

Module ml_io.
Import ml_model.

Definition save_artifacts (pipeline : Pipeline) (labels : list string)
    (model_path : string) (fs : files) : files :=
  <[model_path := Pickled (ObjDict (<["pipeline" := ObjPipeline pipeline]>
                                     (<["labels" := ObjList labels]> ∅)))]> fs.

End ml_io.

(** ** predict.py *)

Module predict.
Import ml_model.

Definition MODEL_PATH : string := "model.pkl".
Definition DEFAULT_ISO_DATETIME : string := "2025-08-24T09:00:00".
Definition TOP_K : Z := 3.

(** The dict returned by [add_time_features]. *)
Record TimeFeatures : Type := mkTimeFeatures {
  hour : Z;
  day_of_week : Z;
  is_weekend : Z
}.

Section defs.
Context `{parser : !pandas.Parser} `{casing : !py.Casing}.

(** [int(ts.dayofweek)] of [NaT] is [int] of NaN, a ValueError. *)
Definition add_time_features (iso_datetime : string) : py.result TimeFeatures :=
  ts ← match pandas.to_datetime_coerce iso_datetime with
       | Some ts => py.Ok (Some ts)
       | None => pandas.to_datetime DEFAULT_ISO_DATETIME
       end;
  match ts with
  | Some ts =>
      let day_of_week := datetime.dayofweek ts in
      py.Ok {| hour := datetime.hour ts;
               day_of_week := day_of_week;
               is_weekend := if (5 <=? day_of_week)%Z then 1 else 0 |}
  | None => py.Raise (py.ValueError "cannot convert float NaN to integer")
  end.

Definition build_feature_row (merchant description : string) (amount : Q)
    (iso_datetime : string) : py.result FeatureRecord :=
  t ← add_time_features iso_datetime;
  py.Ok {| combined_text := py.lower (merchant +:+ " " +:+ description);
           merchant_text := py.lower merchant;
           amount := amount;
           ml_model.hour := hour t;
           ml_model.day_of_week := day_of_week t;
           ml_model.is_weekend := is_weekend t |}.

End defs.

Definition load_pipeline (model_path : string) (fs : files) : py.result obj :=
  payload ← unpickle model_path fs;
  match payload with
  | ObjDict d =>
      match d !! "pipeline" with
      | Some pipeline => py.Ok pipeline
      | None => py.Ok payload
      end
  | _ => py.Ok payload
  end.

Definition get_class_names (pipeline : obj) : option (list string) :=
  match getattr_named_steps pipeline with
  | Some steps =>
      match steps !! "classifier" with
      | Some clf =>
          match classes_ clf with
          | Some classes => Some classes
          | None => None
          end
      | None => None
      end
  | None => None
  end.

(** The element of the list comprehension of [main] for class index [i]. *)
Definition topk_item (class_names : option (list string)) (proba : list Q)
    (i : nat) : py.result TopKItem :=
  category ← match truthy class_names with
             | Some names => getitem names i
             | None => py.Ok (py.str_of_int (Z.of_nat i))
             end;
  probability ← getitem proba i;
  py.Ok (mkTopKItem category probability).

(** The list comprehension of [main]: the [k] best classes, best first. *)
Definition topk_items `{sorter : !numpy.Argsort}
    (class_names : option (list string)) (proba : list Q)
    (topk : Z) : py.result (list TopKItem) :=
  let order := reverse (numpy.argsort proba) in
  let k := Z.min topk (Z.of_nat (length proba)) in
  py.rmap (topk_item class_names proba) (py.slice_to k order).

Record Args : Type := mkArgs {
  merchant : string;
  description : string;
  amount : Q;
  iso_datetime : string;
  topk : Z;
  model_path : string
}.

Record Input : Type := mkInput {
  in_merchant : string;
  in_description : string;
  in_amount : Q;
  in_date : string
}.

(** The JSON object printed by [main]. *)
Inductive Result : Type :=
| Ranked (input : Input) (top1 : TopKItem) (topk : list TopKItem)
| Label (input : Input) (prediction : string).

Section main.
Context `{parser : !pandas.Parser} `{casing : !py.Casing}
  `{sorter : !numpy.Argsort}.

Definition main (args : Args) (fs : files) : py.result Result :=
  pipeline ← load_pipeline (model_path args) fs;
  let class_names := get_class_names pipeline in
  features_row ← build_feature_row (merchant args) (description args)
                    (amount args) (iso_datetime args);
  let input := mkInput (merchant args) (description args) (amount args)
                 (iso_datetime args) in
  match getattr_predict_proba pipeline with
  | Some predict_proba =>
      proba ← predict_proba features_row;
      topk ← topk_items class_names proba (topk args);
      top1 ← getitem topk 0;
      py.Ok (Ranked input top1 topk)
  | None =>
      pred ← call_predict pipeline features_row;
      py.Ok (Label input pred)
  end.

End main.
End predict.

(** ** app/main.py *)

Module app_main.
Import ml_model.

Definition DEFAULT_ISO_DATETIME : string := "2025-08-24T09:00:00".
Definition DEFAULT_TOPK : Z := 3.

(** [os.getenv("MODEL_PATH", "model.pkl")]. *)
Definition DEFAULT_MODEL_PATH (env_model_path : option string) : string :=
  default "model.pkl" env_model_path.

Record PredictRequest : Type := mkPredictRequest {
  merchant : string;
  description : string;
  amount : Q;
  iso_datetime : string;
  topk : Z
}.

(** The constraints the request schema checks before [predict] runs:
    non-empty texts and [1 <= topk <= 20]. *)
Definition request_valid (req : PredictRequest) : Prop :=
  merchant req ≠ "" ∧ description req ≠ "" ∧ (1 ≤ topk req ≤ 20)%Z.

Record PredictResponse : Type := mkPredictResponse {
  input : PredictRequest;
  top1 : option TopKItem;
  topk_list : option (list TopKItem);
  prediction : option string
}.

(** The module-level variables. *)
Record Globals : Type := mkGlobals {
  _pipeline : option obj;
  _class_names : option (list string)
}.

Record TimeFeatures : Type := mkTimeFeatures {
  hour : Z;
  day_of_week : Z;
  is_weekend : Z
}.

Section defs.
Context `{parser : !pandas.Parser} `{casing : !py.Casing}.

Definition _add_time_features (iso_datetime : string)
    : py.result TimeFeatures :=
  ts ← match pandas.to_datetime_coerce iso_datetime with
       | Some ts => py.Ok (Some ts)
       | None => pandas.to_datetime DEFAULT_ISO_DATETIME
       end;
  match ts with
  | Some ts =>
      let day_of_week := datetime.dayofweek ts in
      py.Ok {| hour := datetime.hour ts;
               day_of_week := day_of_week;
               is_weekend := if (5 <=? day_of_week)%Z then 1 else 0 |}
  | None => py.Raise (py.ValueError "cannot convert float NaN to integer")
  end.

Definition _build_feature_row (merchant description : string) (amount : Q)
    (iso_datetime : string) : py.result FeatureRecord :=
  t ← _add_time_features iso_datetime;
  py.Ok {| combined_text := py.lower (merchant +:+ " " +:+ description);
           merchant_text := py.lower merchant;
           ml_model.amount := amount;
           ml_model.hour := hour t;
           ml_model.day_of_week := day_of_week t;
           ml_model.is_weekend := is_weekend t |}.

End defs.

Definition load_model (model_path : string) (fs : files) : py.result Globals :=
  payload ← unpickle model_path fs;
  let pipeline :=
    match payload with
    | ObjDict d =>
        match d !! "pipeline" with
        | Some pipeline => pipeline
        | None => payload
        end
    | _ => payload
    end in
  (* Try to get classes_ from final classifier *)
  let class_names :=
    match getattr_named_steps pipeline with
    | Some steps =>
        match steps !! "classifier" with
        | Some clf => classes_ clf
        | None => getattr_classes_ pipeline
        end
    | None => getattr_classes_ pipeline
    end in
  py.Ok {| _pipeline := Some pipeline; _class_names := class_names |}.

(** The element of the list comprehension of [predict] for class index
    [i]. *)
Definition item (class_names : option (list string)) (proba : list Q)
    (i : nat) : py.result TopKItem :=
  category ← match truthy class_names with
             | Some names => getitem names i
             | None => py.Ok (py.str_of_int (Z.of_nat i))
             end;
  probability ← getitem proba i;
  py.Ok (mkTopKItem category probability).

(** The list comprehension of [predict]. *)
Definition items `{sorter : !numpy.Argsort}
    (class_names : option (list string)) (proba : list Q)
    (topk : Z) : py.result (list TopKItem) :=
  let order := reverse (numpy.argsort proba) in
  let k := Z.min topk (Z.of_nat (length proba)) in
  py.rmap (item class_names proba) (py.slice_to k order).

Section predict.
Context `{parser : !pandas.Parser} `{casing : !py.Casing}
  `{sorter : !numpy.Argsort}.

Definition predict (globals : Globals) (req : PredictRequest)
    : py.result PredictResponse :=
  match _pipeline globals with
  | None => py.Raise (py.HTTPException 500 "Model is not loaded")
  | Some pipeline =>
      X ← _build_feature_row (merchant req) (description req) (amount req)
             (iso_datetime req);
      let attempt : py.result PredictResponse :=
        match getattr_predict_proba pipeline with
        | Some predict_proba =>
            proba ← predict_proba X;
            items ← items (_class_names globals) proba (topk req);
            top1 ← getitem items 0;
            py.Ok (mkPredictResponse req (Some top1) (Some items) None)
        | None =>
            (* Fallback: plain predict *)
            label ← call_predict pipeline X;
            py.Ok (mkPredictResponse req None None (Some label))
        end in
      match attempt with
      | py.Raise py.NotFittedError =>
          py.Raise (py.HTTPException 503 "Model is not fitted. Rebuild the image to retrain the model (docker compose build --no-cache).")
      | r => r
      end
  end.

End predict.
End app_main.

(** ** A reference generator

    A linear congruential generator, used where a statement is evaluated
    on a concrete run. *)

Module lcg.

Definition modulus : Z := 2147483648.

Definition step (g : Z) : Z := ((1103515245 * g + 12345) mod modulus)%Z.

#[global] Program Instance source : random.Source Z := {|
  random.seeded a := (a mod modulus)%Z;
  random.next_float g := (Qmake (step g) (Z.to_pos modulus), step g);
  random.randbelow n g := ((step g mod n)%Z, step g)
|}.
Next Obligation.
  intros g. cbn [fst].
  assert (0 ≤ step g < modulus)%Z as Hs
    by (unfold step; apply Z.mod_pos_bound; reflexivity).
  unfold Qle, Qlt, modulus in *. cbn. lia.
Qed.
Next Obligation.
  intros n g Hn. cbn [fst]. apply Z.mod_pos_bound. exact Hn.
Qed.

End lcg.


(* ===================================================================== *)
(** * Part II. Vocabulary of the statements                              *)
(* ===================================================================== *)

(** ** Features *)

(** The feature record of a row whose timestamp reads as [ts]. *)
Definition record_of `{casing : !py.Casing} (r : ml_data.Row) (ts : datetime.t)
    : ml_model.FeatureRecord :=
  ml_model.mkFeatureRecord
    (py.lower (ml_data.merchant r +:+ " " +:+ ml_data.description r))
    (py.lower (ml_data.merchant r)) (ml_data.amount r)
    (datetime.hour ts) (datetime.dayofweek ts)
    (if (5 <=? datetime.dayofweek ts)%Z then 1 else 0)%Z.

(** The row of the training table that holds the values of a feature
    record: no NaN in it. *)
Definition row_of_record (x : ml_model.FeatureRecord) : ml_features.FeatureRow :=
  ml_features.mkFeatureRow (ml_model.combined_text x) (ml_model.merchant_text x)
    (ml_model.amount x) (Some (ml_model.hour x))
    (Some (ml_model.day_of_week x)) (ml_model.is_weekend x).

(** ** Ranking *)

(** Descending by value. *)
Definition desc (x y : nat * Q) : Prop := (y.2 <= x.2)%Q.

(** The (index, probability) pairs in ranked order: the reversed argsort,
    each index with its value. *)
Definition ranked `{sorter : !numpy.Argsort} (a : list Q) : list (nat * Q) :=
  (λ i, (i, default 0%Q (a !! i))) <$> reverse (numpy.argsort a).

(** No two entries of [a] are equal: a vector without ties. *)
Definition tie_free (a : list Q) : Prop :=
  ∀ i j x y, a !! i = Some x → a !! j = Some y → (x == y)%Q → i = j.

(** The category shown for class index [i]: its name when names are
    known, the decimal string of [i] otherwise. *)
Definition label_of (names : option (list string)) (i : nat) : option string :=
  match ml_model.truthy names with
  | Some ns => ns !! i
  | None => Some (py.str_of_int (Z.of_nat i))
  end.

(** An item shows the pair [x] of the ranking. *)
Definition shows (names : option (list string)) (x : nat * Q)
    (it : ml_model.TopKItem)
    : Prop :=
  label_of names x.1 = Some (ml_model.category it)
  ∧ ml_model.probability it = x.2.

(** No final step named "classifier" that carries [classes_]. *)
Definition no_classifier_classes (pipeline : ml_model.obj) : Prop :=
  ∀ steps clf,
    ml_model.getattr_named_steps pipeline = Some steps →
    steps !! "classifier" = Some clf →
    ml_model.classes_ clf = None.

(** ** Artifacts *)

(** The step of a pipeline that is named "classifier", if it has one. *)
Definition classifier_step (pipeline : ml_model.Pipeline)
    : option ml_model.Estimator :=
  match ml_model.named_steps pipeline with
  | Some steps => steps !! "classifier"
  | None => None
  end.

(** What predict.py holds after loading: the pipeline with the class
    names [get_class_names] reads from it. *)
Definition loaded_pair (model_path : string) (fs : ml_model.files)
    : py.result (ml_model.obj * option (list string)) :=
  pipeline ← predict.load_pipeline model_path fs;
  py.Ok (pipeline, predict.get_class_names pipeline).

(** ** Sampling *)

(** [m] returns from state [g], and its result satisfies [P]. *)
Definition returns {G A} (m : random.M G A) (g : G) (P : A → Prop)
    : Prop :=
  ∃ a g', m g = (py.Ok a, g') ∧ P a.

(** [m] returns from every state, with a result satisfying [P]. *)
Definition always {G A} (m : random.M G A) (P : A → Prop) : Prop :=
  ∀ g, returns m g P.

(** [q] is a whole multiple of [10^-d]. *)
Definition aligned (q : Q) (d : Z) : Prop :=
  ∃ n : Z, (q * inject_Z (10 ^ d) == inject_Z n)%Q.

(** A configured spec: whole bounds in order, sign +1 or -1. *)
Definition spec_wf (spec : settings.AmountSpec) : Prop :=
  Qden (settings.low spec) = 1%positive
  ∧ Qden (settings.high spec) = 1%positive
  ∧ (Qnum (settings.low spec) ≤ Qnum (settings.high spec))%Z
  ∧ (settings.sign spec = 1 ∨ settings.sign spec = -1)%Z.

(** A generated row of category [c]: labelled [c], texts from the
    category's vocabulary, a readable timestamp, an amount of two
    decimals. *)
Definition generated_row (c : string) (entry : settings.VocabEntry)
    (r : ml_data.Row) : Prop :=
  ml_data.label r = c
  ∧ ml_data.merchant r ∈ settings.merchants entry
  ∧ ml_data.description r ∈ settings.desc entry
  ∧ is_Some (datetime.fromisoformat (ml_data.date r))
  ∧ aligned (ml_data.amount r) 2.

(** The four hand-written rows, up to their sampled timestamps. *)
Definition edge_rows (rows : list ml_data.Row) : Prop :=
  ml_data.label <$> rows = ["Income"; "Entertainment"; "Transport"; "Other"]
  ∧ ml_data.merchant <$> rows = ["HSBC"; "STREAMIO"; "QuickRide"; "HSBC"]
  ∧ ml_data.description <$> rows
    = ["PAYROLL BACS CREDIT"; "monthly subscription"; "late night ride";
       "card payment"]
  ∧ ml_data.amount <$> rows = [-1350; 899 # 100; 112 # 10; 2499 # 100]%Q
  ∧ Forall (λ r, is_Some (datetime.fromisoformat (ml_data.date r))) rows.

(** The number of rows [synthesize_dataset] asks for category [c]. *)
Definition block_size (default_samples_per_category : Z)
    (per_category_overrides : option (gmap string Z)) (c : string) : nat :=
  Z.to_nat (default default_samples_per_category
              (default ∅ per_category_overrides !! c)).

(** A row whose timestamp is a whole hour in the configured window,
    written with [T] between date and time, the hour fitting the time
    settings of the row's label. *)
Definition timed_row (r : ml_data.Row) : Prop :=
  ∃ d h,
    (0 ≤ d ≤ 13)%Z ∧ (0 ≤ h ≤ 23)%Z
    ∧ (∀ hours,
         settings.hour_choices (settings.time settings.SETTINGS)
           !! ml_data.label r = Some hours → h ∈ hours)
    ∧ (settings.hour_choices (settings.time settings.SETTINGS)
         !! ml_data.label r = None → (8 ≤ h ≤ 21)%Z)
    ∧ datetime.fromisoformat (ml_data.date r)
      = Some (datetime.mk 2025 8 (15 + d) h 0 0)
    ∧ pandas.separator (ml_data.date r) = Some "T"%char.

(** ** Responses *)

(** The answer of app/main.py that corresponds to an outcome of
    predict.py for the same request: the same items or label, and
    NotFittedError turned into the 503 response. *)
Definition api_outcome (req : app_main.PredictRequest)
    (r : py.result predict.Result) : py.result app_main.PredictResponse :=
  match r with
  | py.Ok (predict.Ranked _ top1 topk) =>
      py.Ok (app_main.mkPredictResponse req (Some top1) (Some topk) None)
  | py.Ok (predict.Label _ pred) =>
      py.Ok (app_main.mkPredictResponse req None None (Some pred))
  | py.Raise py.NotFittedError =>
      py.Raise (py.HTTPException 503 "Model is not fitted. Rebuild the image to retrain the model (docker compose build --no-cache).")
  | py.Raise e => py.Raise e
  end.

(** ** Objects the statements are evaluated on *)

(** A bare estimator (no [named_steps]) with three classes, stored under
    model.pkl without a container, and a request for it. *)
Definition bare_estimator : ml_model.Pipeline :=
  ml_model.mkPipeline None (Some ["A"; "B"; "C"])
    (Some (λ _, py.Ok [1 # 10; 1 # 2; 2 # 5]%Q)) (λ _, py.Ok "B").

Definition bare_store : ml_model.files :=
  {[ "model.pkl" := ml_model.Pickled (ml_model.ObjPipeline bare_estimator) ]}.

Definition tesco_args : predict.Args :=
  predict.mkArgs "Tesco" "groceries" 43 "2025-08-24T09:00:00" 2 "model.pkl".

(** A pipeline as train.py fits it: the classifier's [classes_] are the
    category names in sorted order. *)
Definition fitted_pipeline : ml_model.Pipeline :=
  let classes := ["Bills & Utilities"; "Dining & Coffee"; "Entertainment";
                  "Groceries"; "Health & Fitness"; "Income"; "Other";
                  "Shopping"; "Transport"] in
  ml_model.mkPipeline
    (Some (<["preprocessor" := ml_model.mkEstimator None]>
           (<["classifier" := ml_model.mkEstimator (Some classes)]> ∅)))
    (Some classes)
    (Some (λ _, py.Ok [1 # 9; 1 # 9; 1 # 9; 1 # 9; 1 # 9; 1 # 9; 1 # 9;
                       1 # 9; 1 # 9]%Q))
    (λ _, py.Ok "Other").

(** A model object that gives a label and no probabilities. *)
Definition label_only_model : ml_model.Pipeline :=
  ml_model.mkPipeline None None None (λ _, py.Ok "Groceries").

(* ===================================================================== *)
(** * Part III. Properties                                               *)
(* ===================================================================== *)

(** ** Feature derivation: serving path and training path *)

Section features.
Context `{parser : !pandas.Parser} `{casing : !py.Casing}.

(** A one-entry column is read to one entry. *)
Lemma to_datetime_series_single s dt :
  pandas.to_datetime_series [s] = py.Ok dt → ∃ ts, dt = [ts].
Proof.
  intros Hdt. apply pandas.to_datetime_series_length in Hdt.
  destruct dt as [|ts [|ts' dt]]; cbn in Hdt; try lia. by exists ts.
Qed.

Lemma to_datetime_coerce_Some s ts :
  pandas.to_datetime_coerce s = Some ts
  ↔ pandas.to_datetime_series [s] = py.Ok [Some ts].
Proof.
  unfold pandas.to_datetime_coerce, pandas.to_datetime.
  destruct (pandas.to_datetime_series [s]) as [dt|e] eqn:Hdt;
    cbn [mbind py.result_bind py.rbind]; [|done].
  destruct (to_datetime_series_single _ _ Hdt) as [ts' ->].
  split; [by intros ->|by intros [= ->]].
Qed.

Lemma to_datetime_coerce_None s :
  pandas.to_datetime_coerce s = None
  ↔ pandas.to_datetime_series [s] = py.Ok [None]
    ∨ ∃ e, pandas.to_datetime_series [s] = py.Raise e.
Proof.
  unfold pandas.to_datetime_coerce, pandas.to_datetime.
  destruct (pandas.to_datetime_series [s]) as [dt|e] eqn:Hdt;
    cbn [mbind py.result_bind py.rbind].
  - destruct (to_datetime_series_single _ _ Hdt) as [ts' ->].
    split; [intros ->; by left|]. by intros [[= ->]|[e [=]]].
  - split; [intros _; right; by exists e|done].
Qed.

Lemma to_datetime_Some s ts :
  pandas.to_datetime_coerce s = Some ts →
  pandas.to_datetime s = py.Ok (Some ts).
Proof.
  intros Hs%to_datetime_coerce_Some. unfold pandas.to_datetime.
  by rewrite Hs.
Qed.

(** The two serving modules carry the same feature code. *)
Lemma app_build_feature_row_eq m d a s :
  app_main._build_feature_row m d a s = predict.build_feature_row m d a s.
Proof.
  unfold app_main._build_feature_row, predict.build_feature_row,
    app_main._add_time_features, predict.add_time_features.
  change app_main.DEFAULT_ISO_DATETIME with predict.DEFAULT_ISO_DATETIME.
  destruct (pandas.to_datetime_coerce s) as [ts|];
    cbn [mbind py.result_bind py.rbind]; [done|].
  destruct (pandas.to_datetime predict.DEFAULT_ISO_DATETIME) as [[ts|]|e];
    done.
Qed.

(** On a readable timestamp the serving row is a direct function of the
    instant read. *)
Lemma build_feature_row_readable m d a s ts :
  pandas.to_datetime_coerce s = Some ts →
  predict.build_feature_row m d a s =
    py.Ok (ml_model.mkFeatureRecord
             (py.lower (m +:+ " " +:+ d)) (py.lower m) a
             (datetime.hour ts) (datetime.dayofweek ts)
             (if (5 <=? datetime.dayofweek ts)%Z then 1 else 0)%Z).
Proof.
  intros Hs. unfold predict.build_feature_row, predict.add_time_features.
  by rewrite Hs.
Qed.

(** The training table of a column that is read without [NaT]. *)
Lemma train_features_readable (rows : list ml_data.Row) tss :
  pandas.to_datetime_series (ml_data.date <$> rows) = py.Ok (Some <$> tss) →
  train.features (ml_features.of_row <$> rows)
    = py.Ok (row_of_record <$> zip_with record_of rows tss,
             ml_data.label <$> rows).
Proof.
  intros Hall.
  assert (length tss = length rows) as Hlen.
  { apply pandas.to_datetime_series_length in Hall.
    by rewrite !length_fmap in Hall. }
  unfold train.features, ml_features.build_feature_dataframe,
    ml_features.extract_time_features.
  rewrite <- list_fmap_compose.
  change (ml_features.date ∘ ml_features.of_row) with ml_data.date.
  rewrite Hall. cbn [mbind mret py.result_bind py.result_ret py.rbind].
  unfold ml_features.get_feature_matrix_and_labels,
    ml_features.add_text_features.
  clear Hall. do 2 f_equal.
  - revert tss Hlen. induction rows as [|r rows IH]; intros [|ts tss] Hlen;
      try done.
    cbn in Hlen. cbn. f_equal. apply IH. lia.
  - revert tss Hlen. induction rows as [|r rows IH]; intros [|ts tss] Hlen;
      try done.
    cbn in Hlen. cbn. f_equal. apply IH. lia.
Qed.

Lemma serving_rows_readable (rows : list ml_data.Row) tss :
  Forall2 (λ r ts, pandas.to_datetime_coerce (ml_data.date r) = Some ts)
    rows tss →
  py.rmap (λ r, predict.build_feature_row (ml_data.merchant r)
             (ml_data.description r) (ml_data.amount r) (ml_data.date r)) rows
    = py.Ok (zip_with record_of rows tss).
Proof.
  induction 1 as [|r ts rows tss Hr _ IH]; [done|].
  cbn [py.rmap]. rewrite (build_feature_row_readable _ _ _ _ _ Hr), IH. done.
Qed.

(** The time columns follow the column reader: its error is the error of
    the batch, and an entry read as [NaT] gives NaN, NaN and 0. *)
Lemma extract_time_features_single s :
  match pandas.to_datetime_series [s] with
  | py.Ok [Some ts] =>
      ml_features.extract_time_features [s]
      = py.Ok [ml_features.mkTimeColumns (Some (datetime.hour ts))
                 (Some (datetime.dayofweek ts))
                 (if (5 <=? datetime.dayofweek ts)%Z then 1 else 0)%Z]
  | py.Ok _ =>
      ml_features.extract_time_features [s]
      = py.Ok [ml_features.mkTimeColumns None None 0]
  | py.Raise e => ml_features.extract_time_features [s] = py.Raise e
  end.
Proof.
  unfold ml_features.extract_time_features.
  destruct (pandas.to_datetime_series [s]) as [dt|e] eqn:Hdt; [|done].
  destruct (to_datetime_series_single _ _ Hdt) as [[ts|] ->]; done.
Qed.

End features.

(** The reader of the repository's timestamps on a column of them. *)
Lemma iso_series_isoformat (series : list string) (tss : list datetime.t) :
  Forall2 (λ s ts, datetime.fromisoformat s = Some ts
                   ∧ pandas.separator s = Some "T"%char) series tss →
  pandas.iso_series series = py.Ok (Some <$> tss).
Proof.
  intros Hall.
  assert (∀ s ts, datetime.fromisoformat s = Some ts →
                  pandas.is_nat_string s = false) as Hnat.
  { intros s ts Hs. unfold pandas.is_nat_string, pandas.nat_strings.
    cbn [existsb]. rewrite !orb_false_iff.
    repeat split; try reflexivity;
      apply String.eqb_neq; intros ->; vm_compute in Hs; discriminate. }
  unfold pandas.iso_series.
  assert (series = [] ∨ pandas.column_layout series = Some "T"%char)
    as [->|Hlayout].
  { destruct Hall as [|s ts series tss [Hs Hsep] _]; [by left|right].
    unfold pandas.column_layout. cbn [filter list_filter].
    rewrite decide_True by (by eapply Hnat). cbn. exact Hsep. }
  { by apply Forall2_nil_inv_l in Hall as ->. }
  rewrite Hlayout. clear Hlayout.
  induction Hall as [|s ts series tss [Hs Hsep] _ IH]; [done|].
  assert (pandas.iso_entry (Some "T"%char) s = py.Ok (Some ts)) as Hentry.
  { unfold pandas.iso_entry.
    by rewrite (Hnat _ _ Hs), Hs, Hsep, bool_decide_eq_true_2. }
  cbn [py.rmap]. rewrite Hentry.
  cbn [mbind py.result_bind py.rbind]. by rewrite IH.
Qed.

(** The end-to-end example: Tesco, groceries, 43.0 at 2025-08-24T09:00:00,
    a Sunday. *)
Example build_feature_row_tesco :
  predict.build_feature_row (parser:=pandas.iso_parser)
    (casing:=py.ascii_casing) "Tesco" "groceries" 43 "2025-08-24T09:00:00"
  = py.Ok (ml_model.mkFeatureRecord "tesco groceries" "tesco" 43 9 6 1).
Proof. reflexivity. Qed.

(** C1 (as amended).  For every input tuple (merchant, description,
    amount, timestamp) whose timestamp pandas reads to an instant, the
    batch derivation of the training path, applied to the one-row table
    of that tuple, and the single-record derivations of both serving
    modules produce the same feature record.  For a table of several rows
    the same holds, row by row, whenever the one call that reads the
    timestamp column gives every entry the instant it is read to alone;
    the labels pass through. *)
Theorem feature_identity_on_readable_timestamps `{parser : !pandas.Parser}
    `{casing : !py.Casing} :
  (∀ (r : ml_data.Row) (ts : datetime.t),
     pandas.to_datetime_coerce (ml_data.date r) = Some ts →
     ∃ x,
       train.features [ml_features.of_row r]
         = py.Ok ([row_of_record x], [ml_data.label r])
       ∧ predict.build_feature_row (ml_data.merchant r)
           (ml_data.description r) (ml_data.amount r) (ml_data.date r)
         = py.Ok x
       ∧ app_main._build_feature_row (ml_data.merchant r)
           (ml_data.description r) (ml_data.amount r) (ml_data.date r)
         = py.Ok x)
  ∧ (∀ (rows : list ml_data.Row) (tss : list datetime.t),
       pandas.to_datetime_series (ml_data.date <$> rows)
         = py.Ok (Some <$> tss) →
       Forall2 (λ r ts, pandas.to_datetime_coerce (ml_data.date r) = Some ts)
         rows tss →
       ∃ X,
         train.features (ml_features.of_row <$> rows)
           = py.Ok (row_of_record <$> X, ml_data.label <$> rows)
         ∧ py.rmap (λ r, predict.build_feature_row (ml_data.merchant r)
                      (ml_data.description r) (ml_data.amount r)
                      (ml_data.date r)) rows = py.Ok X
         ∧ py.rmap (λ r, app_main._build_feature_row (ml_data.merchant r)
                      (ml_data.description r) (ml_data.amount r)
                      (ml_data.date r)) rows = py.Ok X).
Proof.
  assert (∀ (rows : list ml_data.Row) (tss : list datetime.t),
       pandas.to_datetime_series (ml_data.date <$> rows)
         = py.Ok (Some <$> tss) →
       Forall2 (λ r ts, pandas.to_datetime_coerce (ml_data.date r) = Some ts)
         rows tss →
       train.features (ml_features.of_row <$> rows)
         = py.Ok (row_of_record <$> zip_with record_of rows tss,
                  ml_data.label <$> rows)
       ∧ py.rmap (λ r, predict.build_feature_row (ml_data.merchant r)
                    (ml_data.description r) (ml_data.amount r)
                    (ml_data.date r)) rows
         = py.Ok (zip_with record_of rows tss)
       ∧ py.rmap (λ r, app_main._build_feature_row (ml_data.merchant r)
                    (ml_data.description r) (ml_data.amount r)
                    (ml_data.date r)) rows
         = py.Ok (zip_with record_of rows tss)) as Hbatch.
  { intros rows tss Hcol Hone. split; [|split].
    - by apply train_features_readable.
    - by apply serving_rows_readable.
    - rewrite <- (serving_rows_readable _ _ Hone). clear.
      induction rows as [|r rows IH]; [done|].
      cbn [py.rmap]. by rewrite app_build_feature_row_eq, IH. }
  split.
  - intros r ts Hr. exists (record_of r ts).
    destruct (Hbatch [r] [ts]) as (Htrain & Hcli & Happ).
    { by apply to_datetime_coerce_Some. }
    { by repeat constructor. }
    split; [exact Htrain|].
    cbn [py.rmap mbind py.result_bind py.rbind] in Hcli, Happ.
    rewrite app_build_feature_row_eq in Happ.
    rewrite (build_feature_row_readable _ _ _ _ _ Hr) in *.
    by rewrite app_build_feature_row_eq,
      (build_feature_row_readable _ _ _ _ _ Hr).
  - intros rows tss Hcol Hone. exists (zip_with record_of rows tss).
    by apply Hbatch.
Qed.

Lemma feature_identity_on_readable_timestamps_witness :
  ∃ x,
    train.features (parser:=pandas.iso_parser) (casing:=py.ascii_casing)
      [ml_features.of_row
         (ml_data.mkRow "2025-08-24T09:00:00" "Tesco" "groceries" 43
            "Groceries")]
      = py.Ok ([row_of_record x], ["Groceries"])
    ∧ predict.build_feature_row (parser:=pandas.iso_parser)
        (casing:=py.ascii_casing) "Tesco" "groceries" 43 "2025-08-24T09:00:00"
      = py.Ok x
    ∧ app_main._build_feature_row (parser:=pandas.iso_parser)
        (casing:=py.ascii_casing) "Tesco" "groceries" 43 "2025-08-24T09:00:00"
      = py.Ok x.
Proof.
  apply (proj1 (feature_identity_on_readable_timestamps
                  (parser:=pandas.iso_parser) (casing:=py.ascii_casing))
           (ml_data.mkRow "2025-08-24T09:00:00" "Tesco" "groceries" 43
              "Groceries")
           (datetime.mk 2025 8 24 9 0 0)).
  reflexivity.
Defined.

(** C1 as stated fails.  On a timestamp that is no timestamp the batch
    path raises and the single-record path answers with the default
    instant; on "NaT" the batch path gives NaN for hour and day of week
    where the single-record path gives 9 and 6; and a table whose two
    timestamps are each read alone, one written with [T] and one with a
    space, is rejected by the batch path as a whole. *)
Lemma feature_identity_fails_on_unreadable_timestamp :
  train.features (parser:=pandas.iso_parser) (casing:=py.ascii_casing)
    [ml_features.mkRaw "not-a-date" (Some "Tesco") (Some "groceries") 43
       "Groceries"]
    = py.Raise (py.DateParseError "not-a-date")
  ∧ predict.build_feature_row (parser:=pandas.iso_parser)
      (casing:=py.ascii_casing) "Tesco" "groceries" 43 "not-a-date"
    = py.Ok (ml_model.mkFeatureRecord "tesco groceries" "tesco" 43 9 6 1)
  ∧ train.features (parser:=pandas.iso_parser) (casing:=py.ascii_casing)
      [ml_features.mkRaw "NaT" (Some "Tesco") (Some "groceries") 43
         "Groceries"]
    = py.Ok ([ml_features.mkFeatureRow "tesco groceries" "tesco" 43
                None None 0], ["Groceries"])
  ∧ predict.build_feature_row (parser:=pandas.iso_parser)
      (casing:=py.ascii_casing) "Tesco" "groceries" 43 "NaT"
    = py.Ok (ml_model.mkFeatureRecord "tesco groceries" "tesco" 43 9 6 1)
  ∧ train.features (parser:=pandas.iso_parser) (casing:=py.ascii_casing)
      [ml_features.mkRaw "2025-08-24T09:00:00" (Some "Tesco")
         (Some "groceries") 43 "Groceries";
       ml_features.mkRaw "2025-08-25 10:00:00" (Some "Tesco")
         (Some "groceries") 43 "Groceries"]
    = py.Raise (py.DateParseError "2025-08-25 10:00:00")
  ∧ predict.build_feature_row (parser:=pandas.iso_parser)
      (casing:=py.ascii_casing) "Tesco" "groceries" 43 "2025-08-25 10:00:00"
    = py.Ok (ml_model.mkFeatureRecord "tesco groceries" "tesco" 43 10 0 0).
Proof. repeat split; reflexivity. Qed.

(** C2 (as amended).  For every timestamp string that pandas does not
    read to an instant, the serving derivations of predict.py and
    app/main.py do not raise (the default literal being readable): they
    yield the hour, day of week and weekend flag of the configured default
    timestamp, 9, 6 and 1.  The batch derivation of the training path has
    no such fallback: on the one-entry column of that string it raises
    what the column reader raises, or, where the reader gives [NaT], it
    yields NaN, NaN and 0; in neither case the features of the default. *)
Theorem timestamp_fallback_on_serving_paths `{parser : !pandas.Parser}
    (s : string) :
  pandas.to_datetime_coerce s = None →
  pandas.to_datetime_coerce predict.DEFAULT_ISO_DATETIME
    = Some (datetime.mk 2025 8 24 9 0 0) →
  predict.add_time_features s
    = predict.add_time_features predict.DEFAULT_ISO_DATETIME
  ∧ predict.add_time_features s = py.Ok (predict.mkTimeFeatures 9 6 1)
  ∧ app_main._add_time_features s
    = app_main._add_time_features app_main.DEFAULT_ISO_DATETIME
  ∧ app_main._add_time_features s = py.Ok (app_main.mkTimeFeatures 9 6 1)
  ∧ match pandas.to_datetime_series [s] with
    | py.Ok _ =>
        ml_features.extract_time_features [s]
        = py.Ok [ml_features.mkTimeColumns None None 0]
    | py.Raise e => ml_features.extract_time_features [s] = py.Raise e
    end
  ∧ ml_features.extract_time_features [s]
    ≠ py.Ok [ml_features.mkTimeColumns (Some 9%Z) (Some 6%Z) 1].
Proof.
  intros Hs Hd.
  assert (match pandas.to_datetime_series [s] with
          | py.Ok _ =>
              ml_features.extract_time_features [s]
              = py.Ok [ml_features.mkTimeColumns None None 0]
          | py.Raise e => ml_features.extract_time_features [s] = py.Raise e
          end) as Hbatch.
  { pose proof (extract_time_features_single s) as Hone.
    apply to_datetime_coerce_None in Hs as [Hs|[e Hs]]; by rewrite Hs in *. }
  unfold predict.add_time_features, app_main._add_time_features.
  change app_main.DEFAULT_ISO_DATETIME with predict.DEFAULT_ISO_DATETIME.
  rewrite Hs, Hd, (to_datetime_Some _ _ Hd).
  repeat split; try reflexivity; [exact Hbatch|].
  destruct (pandas.to_datetime_series [s]); by rewrite Hbatch.
Qed.

Lemma timestamp_fallback_on_serving_paths_witness :
  predict.add_time_features (parser:=pandas.iso_parser) "not-a-date"
    = predict.add_time_features (parser:=pandas.iso_parser)
        predict.DEFAULT_ISO_DATETIME
  ∧ predict.add_time_features (parser:=pandas.iso_parser) "not-a-date"
    = py.Ok (predict.mkTimeFeatures 9 6 1)
  ∧ app_main._add_time_features (parser:=pandas.iso_parser) "not-a-date"
    = app_main._add_time_features (parser:=pandas.iso_parser)
        app_main.DEFAULT_ISO_DATETIME
  ∧ app_main._add_time_features (parser:=pandas.iso_parser) "not-a-date"
    = py.Ok (app_main.mkTimeFeatures 9 6 1)
  ∧ match pandas.to_datetime_series (Parser:=pandas.iso_parser)
            ["not-a-date"] with
    | py.Ok _ =>
        ml_features.extract_time_features (parser:=pandas.iso_parser)
          ["not-a-date"]
        = py.Ok [ml_features.mkTimeColumns None None 0]
    | py.Raise e =>
        ml_features.extract_time_features (parser:=pandas.iso_parser)
          ["not-a-date"] = py.Raise e
    end
  ∧ ml_features.extract_time_features (parser:=pandas.iso_parser)
      ["not-a-date"]
    ≠ py.Ok [ml_features.mkTimeColumns (Some 9%Z) (Some 6%Z) 1].
Proof.
  apply (timestamp_fallback_on_serving_paths (parser:=pandas.iso_parser)
           "not-a-date"); reflexivity.
Defined.

(** C2 as stated fails on the training path: on a string that is no
    timestamp the batch derivation raises, and on "NaT" it gives NaN, NaN
    and 0, instead of the features 9, 6 and 1 of the default timestamp,
    which the serving derivation gives for both. *)
Lemma timestamp_fallback_absent_on_batch_path :
  ml_features.extract_time_features (parser:=pandas.iso_parser) ["not-a-date"]
    = py.Raise (py.DateParseError "not-a-date")
  ∧ ml_features.extract_time_features (parser:=pandas.iso_parser) ["NaT"]
    = py.Ok [ml_features.mkTimeColumns None None 0]
  ∧ ml_features.extract_time_features (parser:=pandas.iso_parser)
      [predict.DEFAULT_ISO_DATETIME]
    = py.Ok [ml_features.mkTimeColumns (Some 9%Z) (Some 6%Z) 1]
  ∧ predict.add_time_features (parser:=pandas.iso_parser) "not-a-date"
    = py.Ok (predict.mkTimeFeatures 9 6 1)
  ∧ predict.add_time_features (parser:=pandas.iso_parser) "NaT"
    = py.Ok (predict.mkTimeFeatures 9 6 1).
Proof. repeat split; reflexivity. Qed.

(** ** Ranking: argsort, reversal and the top-k slice *)

Section ranking.
Context `{sorter : !numpy.Argsort}.
Implicit Types (a proba : list Q) (x y z : nat * Q).

Lemma elem_of_argsort a i : i ∈ numpy.argsort a ↔ i < length a.
Proof. rewrite numpy.argsort_indices, elem_of_seq. lia. Qed.

Lemma StronglySorted_reverse {A} (R : relation A) (l : list A) :
  StronglySorted R l → StronglySorted (flip R) (reverse l).
Proof.
  induction 1 as [|u l _ IH Hu]; [constructor|].
  rewrite reverse_cons. apply StronglySorted_app_2; [|done|repeat constructor].
  intros w t Hw ->%list_elem_of_singleton.
  rewrite elem_of_reverse in Hw. rewrite Forall_forall in Hu. by apply Hu.
Qed.

Lemma order_ranked a : reverse (numpy.argsort a) = (ranked a).*1.
Proof.
  unfold ranked. rewrite <- list_fmap_compose. symmetry. apply list_fmap_id.
Qed.

Lemma elem_of_ranked a i v : (i, v) ∈ ranked a ↔ a !! i = Some v.
Proof.
  unfold ranked. rewrite list_elem_of_fmap. split.
  - intros (j & [= -> ->] & Hj).
    rewrite elem_of_reverse, elem_of_argsort in Hj.
    apply lookup_lt_is_Some in Hj as [w Hw]. by rewrite Hw.
  - intros Hi. exists i. rewrite Hi. split; [done|].
    rewrite elem_of_reverse, elem_of_argsort. by eapply lookup_lt_Some.
Qed.

Lemma length_ranked a : length (ranked a) = length a.
Proof.
  unfold ranked.
  by rewrite length_fmap, length_reverse, numpy.argsort_indices, length_seq.
Qed.

Lemma ranked_sorted a : StronglySorted desc (ranked a).
Proof.
  unfold ranked. rewrite fmap_reverse.
  apply (StronglySorted_reverse (λ x y, (x.2 <= y.2)%Q)).
  assert (Forall (λ i, i < length a) (numpy.argsort a)) as Hin.
  { apply Forall_forall. intros i. apply elem_of_argsort. }
  pose proof (numpy.argsort_ascending a) as Hs.
  induction Hs as [|i l _ IH Hi]; [constructor|].
  apply Forall_cons in Hin as [Hia Hin].
  cbn [fmap list_fmap]. constructor; [by apply IH|].
  apply Forall_fmap, Forall_forall. intros j Hj. cbn.
  rewrite Forall_forall in Hi, Hin.
  apply lookup_lt_is_Some in Hia as [v Hv].
  destruct (lookup_lt_is_Some_2 a j (Hin j Hj)) as [w Hw].
  rewrite Hv, Hw. cbn. by apply (Hi j Hj).
Qed.

(** On a vector without ties the order is the same for every sort. *)
Lemma argsort_tie_free a :
  tie_free a → numpy.argsort a = numpy.insertion_argsort a.
Proof.
  intros Hfree.
  apply (StronglySorted_unique_strong (numpy.le_at a)).
  - intros i j Hi%elem_of_argsort Hj Hij Hji.
    change (j ∈ numpy.argsort (Argsort:=numpy.insertion) a) in Hj.
    rewrite numpy.argsort_indices, elem_of_seq in Hj.
    apply lookup_lt_is_Some in Hi as [v Hv].
    destruct (lookup_lt_is_Some_2 a j) as [w Hw]; [lia|].
    apply (Hfree i j v w Hv Hw).
    pose proof (Hij _ _ Hv Hw). pose proof (Hji _ _ Hw Hv). lra.
  - apply numpy.argsort_ascending.
  - apply (numpy.argsort_ascending (Argsort:=numpy.insertion)).
  - rewrite numpy.argsort_indices.
    symmetry. apply (numpy.argsort_indices (Argsort:=numpy.insertion)).
Qed.

Lemma slice_to_fmap {A B} (f : A → B) k (l : list A) :
  py.slice_to k (f <$> l) = f <$> py.slice_to k l.
Proof.
  unfold py.slice_to. rewrite length_fmap.
  destruct (0 <=? k)%Z; by rewrite fmap_take.
Qed.

Lemma length_slice_to {A} k (l : list A) :
  (0 ≤ k)%Z →
  length (py.slice_to k l) = Z.to_nat (Z.min k (Z.of_nat (length l))).
Proof.
  intros Hk. unfold py.slice_to.
  rewrite (proj2 (Z.leb_le 0 k) Hk), length_take. lia.
Qed.

Lemma slice_to_prefix {A} k (l : list A) : py.slice_to k l `prefix_of` l.
Proof. unfold py.slice_to. destruct (0 <=? k)%Z; apply prefix_take. Qed.

Lemma StronglySorted_prefix {A} (R : relation A) (l1 l2 : list A) :
  l1 `prefix_of` l2 → StronglySorted R l2 → StronglySorted R l1.
Proof. intros [l ->]. apply StronglySorted_app_1_l. Qed.

Lemma StronglySorted_lookup {A} (R : relation A) (l : list A) i j (u w : A) :
  StronglySorted R l → i < j → l !! i = Some u → l !! j = Some w → R u w.
Proof.
  intros Hl. revert i j. induction Hl as [|t l _ IH Hz]; intros i j Hij Hi Hj.
  - done.
  - destruct j as [|j]; [lia|]. cbn in Hj. destruct i as [|i]; cbn in Hi.
    + injection Hi as ->. rewrite Forall_forall in Hz.
      apply Hz. by eapply list_elem_of_lookup_2.
    + apply (IH i j); [lia|done..].
Qed.

Lemma rmap_Ok {A B} (f : A → py.result B) (xs : list A) (ys : list B) :
  py.rmap f xs = py.Ok ys ↔ Forall2 (λ u w, f u = py.Ok w) xs ys.
Proof.
  revert ys. induction xs as [|u xs IH]; intros ys; cbn [py.rmap].
  - split; [intros [= <-]; constructor|by intros ->%Forall2_nil_inv_l].
  - cbn [mbind py.result_bind py.rbind]. split.
    + destruct (f u) as [w|e] eqn:Hu; [|done].
      destruct (py.rmap f xs) as [ws|e] eqn:Hxs; [|done].
      intros [= <-]. constructor; [done|]. by apply IH.
    + intros (w & ws & Hu & Hws & ->)%Forall2_cons_inv_l.
      apply IH in Hws. by rewrite Hu, Hws.
Qed.

Lemma rmap_total {A B} (f : A → py.result B) (xs : list A) :
  Forall (λ u, ∃ w, f u = py.Ok w) xs → ∃ ys, py.rmap f xs = py.Ok ys.
Proof.
  induction 1 as [|u xs [w Hu] _ [ws IH]]; [by eexists|].
  exists (w :: ws). cbn [py.rmap]. by rewrite Hu, IH.
Qed.

Lemma Forall2_iff_elem {A B} (P P' : A → B → Prop) (l : list A) (k : list B) :
  (∀ u w, u ∈ l → P u w ↔ P' u w) → Forall2 P l k ↔ Forall2 P' l k.
Proof.
  revert k. induction l as [|u l IH]; intros k HP.
  - split; intros ->%Forall2_nil_inv_l; constructor.
  - split; intros (w & ws & Hu & Hws & ->)%Forall2_cons_inv_l;
      (constructor; [apply HP; [left|done] | apply IH; [|done]]);
      intros; apply HP; by right.
Qed.

Lemma topk_item_Ok names proba i v it :
  proba !! i = Some v →
  predict.topk_item names proba i = py.Ok it ↔ shows names (i, v) it.
Proof.
  intros Hi. unfold predict.topk_item, shows, label_of, ml_model.getitem.
  rewrite Hi. cbn [fst snd].
  destruct (ml_model.truthy names) as [ns|]; [destruct (ns !! i) as [c|]|];
    cbn [mbind py.result_bind py.rbind]; destruct it as [c' p']; cbn;
    split; (intros [= -> ->] || intros [[= ->] ->] || intros [??]); done.
Qed.

(** The comprehension succeeds exactly with the items that show the
    sliced ranking, pair by pair. *)
Lemma topk_items_Ok names proba k items :
  predict.topk_items names proba k = py.Ok items ↔
  Forall2 (shows names)
    (py.slice_to (Z.min k (Z.of_nat (length proba))) (ranked proba)) items.
Proof.
  unfold predict.topk_items. rewrite order_ranked, slice_to_fmap, rmap_Ok.
  rewrite Forall2_fmap_l. apply Forall2_iff_elem. intros [i v] it Hin.
  apply topk_item_Ok. apply elem_of_ranked.
  eapply elem_of_prefix; [exact Hin|apply slice_to_prefix].
Qed.

(** Both serving modules carry the same comprehension. *)
Lemma app_items_eq names proba k :
  app_main.items names proba k = predict.topk_items names proba k.
Proof. reflexivity. Qed.

Lemma topk_items_total names proba k :
  (∀ i, i < length proba → is_Some (label_of names i)) →
  ∃ items, predict.topk_items names proba k = py.Ok items.
Proof.
  intros Hnames. unfold predict.topk_items.
  rewrite order_ranked, slice_to_fmap. apply rmap_total.
  apply Forall_fmap, Forall_forall. intros [i v] Hin. cbn.
  assert (proba !! i = Some v) as Hi.
  { apply elem_of_ranked.
    eapply elem_of_prefix; [exact Hin|apply slice_to_prefix]. }
  destruct (Hnames i) as [c Hc]; [by eapply lookup_lt_Some|].
  exists (ml_model.mkTopKItem c v). by apply (topk_item_Ok _ _ _ v).
Qed.

Lemma label_of_names_total (names : list string) proba i :
  length names = length proba → i < length proba →
  is_Some (label_of (Some names) i).
Proof.
  intros Hlen Hi. unfold label_of.
  destruct names as [|c names]; cbn [ml_model.truthy]; [by eexists|].
  apply lookup_lt_is_Some. lia.
Qed.

Lemma label_of_index names i :
  ml_model.truthy names = None →
  label_of names i = Some (py.str_of_int (Z.of_nat i)).
Proof. intros Hn. unfold label_of. by rewrite Hn. Qed.

(** Items that show a descending ranking are in non-increasing order of
    probability. *)
Lemma shows_sorted names (l : list (nat * Q)) items :
  Forall2 (shows names) l items → StronglySorted desc l →
  StronglySorted (λ s t, (ml_model.probability t <= ml_model.probability s)%Q)
    items.
Proof.
  induction 1 as [|x it l items [_ Hx] Hall IH]; intros Hl; [constructor|].
  apply StronglySorted_cons in Hl as [Hhd Hl]. constructor; [by apply IH|].
  clear IH. induction Hall as [|y it' l items [_ Hy] _ IH]; [constructor|].
  apply Forall_cons in Hhd as [Hxy Hhd].
  apply StronglySorted_cons in Hl as [_ Hl].
  constructor; [|by apply IH].
  rewrite Hx, Hy. exact Hxy.
Qed.

Lemma slice_ranked_lookup proba k :
  Forall (λ x, proba !! x.1 = Some x.2) (py.slice_to k (ranked proba)).
Proof.
  apply Forall_forall. intros [i v] Hin. apply elem_of_ranked.
  eapply elem_of_prefix; [exact Hin|apply slice_to_prefix].
Qed.

(** Without class names every item carries the decimal string of its
    class index. *)
Lemma shows_index names proba (l : list (nat * Q)) items :
  ml_model.truthy names = None →
  Forall (λ x, proba !! x.1 = Some x.2) l →
  Forall2 (shows names) l items →
  Forall2 (λ i it, ml_model.category it = py.str_of_int (Z.of_nat i)
                   ∧ proba !! i = Some (ml_model.probability it))
    l.*1 items.
Proof.
  intros Hn Hl Hshow. apply Forall2_fmap_l.
  induction Hshow as [|[i v] it l items [Hlab Hp] _ IH]; [constructor|].
  apply Forall_cons in Hl as [Hi Hl]. constructor; [|by apply IH].
  cbn in *. rewrite (label_of_index _ _ Hn) in Hlab.
  split; [congruence|by rewrite Hp].
Qed.

(** The head of a ranking bounds every probability of the vector. *)
Lemma ranked_head_max (proba : list Q) x l :
  ranked proba = x :: l → Forall (λ p, (p <= x.2)%Q) proba.
Proof.
  intros Hr. apply Forall_forall. intros p Hp.
  apply list_elem_of_lookup in Hp as [j Hj].
  apply elem_of_ranked in Hj. rewrite Hr in Hj.
  apply elem_of_cons in Hj as [<-|Hj]; [cbn; lra|].
  pose proof (ranked_sorted proba) as Hs. rewrite Hr in Hs.
  apply StronglySorted_cons in Hs as [Hhd _].
  rewrite Forall_forall in Hhd. by apply (Hhd (j, p)).
Qed.

Lemma shows_names_lookup (names : list string) (proba : list Q)
    (l : list (nat * Q)) items :
  names ≠ [] → l `prefix_of` ranked proba →
  Forall2 (shows (Some names)) l items →
  Forall (λ it, ∃ i, names !! i = Some (ml_model.category it)
                    ∧ proba !! i = Some (ml_model.probability it)) items.
Proof.
  intros Hne Hpre Hall. apply Forall_forall. intros it Hit.
  apply list_elem_of_lookup in Hit as [n Hn].
  destruct (Forall2_lookup_r _ _ _ _ _ Hall Hn) as ([i v] & Hx & Hlab & Hp).
  exists i. split.
  - unfold label_of in Hlab. by destruct names.
  - rewrite Hp. apply elem_of_ranked.
    eapply elem_of_prefix; [|exact Hpre]. by eapply list_elem_of_lookup_2.
Qed.

(** The ranking of a vector without ties by the insertion sort is its
    ranking by every sort. *)
Lemma topk_items_tie_free names proba k :
  tie_free proba →
  predict.topk_items names proba k
  = predict.topk_items (sorter:=numpy.insertion) names proba k.
Proof.
  intros Hfree. unfold predict.topk_items.
  by rewrite (argsort_tie_free _ Hfree).
Qed.

End ranking.

(** ** The responses of the two entry points *)

Section responses.
Context `{parser : !pandas.Parser} `{casing : !py.Casing}
  `{sorter : !numpy.Argsort}.

(** [main] of predict.py when the model gives probabilities. *)
Lemma main_ranked args fs pipeline predict_proba row proba items top1 :
  predict.load_pipeline (predict.model_path args) fs = py.Ok pipeline →
  predict.build_feature_row (predict.merchant args) (predict.description args)
    (predict.amount args) (predict.iso_datetime args) = py.Ok row →
  ml_model.getattr_predict_proba pipeline = Some predict_proba →
  predict_proba row = py.Ok proba →
  predict.topk_items (predict.get_class_names pipeline) proba
    (predict.topk args) = py.Ok items →
  ml_model.getitem items 0 = py.Ok top1 →
  predict.main args fs
    = py.Ok (predict.Ranked
               (predict.mkInput (predict.merchant args)
                  (predict.description args) (predict.amount args)
                  (predict.iso_datetime args))
               top1 items).
Proof.
  intros Hload Hrow Hattr Hproba Hitems Htop. unfold predict.main.
  rewrite Hload. cbn [mbind py.result_bind py.rbind].
  rewrite Hrow. cbn [mbind py.result_bind py.rbind].
  rewrite Hattr, Hproba. cbn [mbind py.result_bind py.rbind].
  rewrite Hitems. cbn [mbind py.result_bind py.rbind].
  by rewrite Htop.
Qed.

(** [predict] of app/main.py when the model gives probabilities. *)
Lemma app_predict_ranked globals req pipeline predict_proba row proba items top1 :
  app_main._pipeline globals = Some pipeline →
  app_main._build_feature_row (app_main.merchant req)
    (app_main.description req) (app_main.amount req)
    (app_main.iso_datetime req) = py.Ok row →
  ml_model.getattr_predict_proba pipeline = Some predict_proba →
  predict_proba row = py.Ok proba →
  app_main.items (app_main._class_names globals) proba (app_main.topk req)
    = py.Ok items →
  ml_model.getitem items 0 = py.Ok top1 →
  app_main.predict globals req
    = py.Ok (app_main.mkPredictResponse req (Some top1) (Some items) None).
Proof.
  intros Hp Hrow Hattr Hproba Hitems Htop. unfold app_main.predict.
  rewrite Hp, Hrow. cbn [mbind py.result_bind py.rbind].
  rewrite Hattr, Hproba. cbn [mbind py.result_bind py.rbind].
  rewrite Hitems. cbn [mbind py.result_bind py.rbind].
  by rewrite Htop.
Qed.

Lemma get_class_names_None pipeline :
  no_classifier_classes pipeline → predict.get_class_names pipeline = None.
Proof.
  intros Hno. unfold predict.get_class_names.
  destruct (ml_model.getattr_named_steps pipeline) as [steps|] eqn:Hs; [|done].
  destruct (steps !! "classifier") as [clf|] eqn:Hc; [|done].
  by rewrite (Hno steps clf).
Qed.

(** With no class names cached, [predict] of app/main.py shows index
    strings as well. *)
Lemma app_predict_index_strings globals req pipeline predict_proba row proba :
  app_main._pipeline globals = Some pipeline →
  ml_model.truthy (app_main._class_names globals) = None →
  app_main._build_feature_row (app_main.merchant req)
    (app_main.description req) (app_main.amount req)
    (app_main.iso_datetime req) = py.Ok row →
  ml_model.getattr_predict_proba pipeline = Some predict_proba →
  predict_proba row = py.Ok proba →
  proba ≠ [] → (1 ≤ app_main.topk req)%Z →
  ∃ top1 rest,
    app_main.predict globals req
      = py.Ok (app_main.mkPredictResponse req (Some top1)
                 (Some (top1 :: rest)) None)
    ∧ Forall2 (λ i it,
          ml_model.category it = py.str_of_int (Z.of_nat i)
          ∧ proba !! i = Some (ml_model.probability it))
        (py.slice_to (Z.min (app_main.topk req) (Z.of_nat (length proba)))
           (reverse (numpy.argsort proba)))
        (top1 :: rest).
Proof.
  intros Hp Hnames Hrow Hattr Hproba Hne Hk.
  destruct (topk_items_total (app_main._class_names globals) proba
              (app_main.topk req)) as [items Hitems].
  { intros i _. rewrite (label_of_index _ _ Hnames). by eexists. }
  pose proof Hitems as Hshow. apply topk_items_Ok in Hshow.
  assert (length items
          = Z.to_nat (Z.min (app_main.topk req) (Z.of_nat (length proba))))
    as Hlen.
  { rewrite <- (Forall2_length _ _ _ Hshow).
    rewrite length_slice_to, length_ranked by lia. lia. }
  assert (0 < length proba) as Hpos by (destruct proba; [done|cbn; lia]).
  destruct items as [|top1 rest]; [cbn in Hlen; lia|].
  exists top1, rest. split.
  - by eapply app_predict_ranked.
  - rewrite order_ranked, slice_to_fmap.
    by apply (shows_index (app_main._class_names globals));
      [|apply slice_ranked_lookup|].
Qed.

End responses.

(** The vector of the examples has no ties. *)
Lemma tie_free_example : tie_free [1 # 10; 1 # 2; 2 # 5]%Q.
Proof.
  intros i j x y Hi Hj Hxy.
  destruct i as [|[|[|i]]], j as [|[|[|j]]]; cbn in Hi, Hj; try done;
    injection Hi as <-; injection Hj as <-; done.
Qed.

(** C7.  For every probability vector over n >= 1 classes with their n
    names and every requested k >= 1, the ranking code of both serving
    modules returns exactly min(k, n) (category, probability) pairs, each
    a class name with its own probability, in non-increasing order of
    probability; the first pair bounds every probability of the vector
    and is the one the responses of predict.py and app/main.py surface as
    top-1 beside the list.  In particular [0.1, 0.5, 0.4] for [A, B, C]
    with k = 2 gives [(B, 0.5), (C, 0.4)], top-1 (B, 0.5), and k = 20
    against nine classes gives nine entries. *)
Theorem rank_returns_top_k_descending `{sorter : !numpy.Argsort}
    `{casing : !py.Casing} :
  (∀ (names : list string) (proba : list Q) (k : Z),
     length names = length proba → proba ≠ [] → (1 ≤ k)%Z →
     ∃ top1 rest,
       predict.topk_items (Some names) proba k = py.Ok (top1 :: rest)
       ∧ app_main.items (Some names) proba k = py.Ok (top1 :: rest)
       ∧ ml_model.getitem (top1 :: rest) 0 = py.Ok top1
       ∧ length (top1 :: rest) = Z.to_nat (Z.min k (Z.of_nat (length proba)))
       ∧ StronglySorted
           (λ s t, (ml_model.probability t <= ml_model.probability s)%Q)
           (top1 :: rest)
       ∧ Forall (λ it, ∃ i, names !! i = Some (ml_model.category it)
                          ∧ proba !! i = Some (ml_model.probability it))
           (top1 :: rest)
       ∧ Forall (λ p, (p <= ml_model.probability top1)%Q) proba)
  ∧ (predict.topk_items (Some ["A"; "B"; "C"]) [1 # 10; 1 # 2; 2 # 5]%Q 2
       = py.Ok [ml_model.mkTopKItem "B" (1 # 2); ml_model.mkTopKItem "C" (2 # 5)]
     ∧ ml_model.getitem
         [ml_model.mkTopKItem "B" (1 # 2); ml_model.mkTopKItem "C" (2 # 5)] 0
       = py.Ok (ml_model.mkTopKItem "B" (1 # 2)))
  ∧ (∀ (names : list string) (proba : list Q),
       length names = 9 → length proba = 9 →
       ∃ items, predict.topk_items (Some names) proba 20 = py.Ok items
              ∧ length items = 9)
  ∧ (∀ (parser : pandas.Parser) args fs pipeline predict_proba row proba
       top1 rest,
       predict.load_pipeline (predict.model_path args) fs = py.Ok pipeline →
       predict.build_feature_row (predict.merchant args)
         (predict.description args) (predict.amount args)
         (predict.iso_datetime args) = py.Ok row →
       ml_model.getattr_predict_proba pipeline = Some predict_proba →
       predict_proba row = py.Ok proba →
       predict.topk_items (predict.get_class_names pipeline) proba
         (predict.topk args) = py.Ok (top1 :: rest) →
       predict.main args fs
       = py.Ok (predict.Ranked
                  (predict.mkInput (predict.merchant args)
                     (predict.description args) (predict.amount args)
                     (predict.iso_datetime args))
                  top1 (top1 :: rest)))
  ∧ (∀ (parser : pandas.Parser) globals req pipeline predict_proba row proba
       top1 rest,
       app_main._pipeline globals = Some pipeline →
       app_main._build_feature_row (app_main.merchant req)
         (app_main.description req) (app_main.amount req)
         (app_main.iso_datetime req) = py.Ok row →
       ml_model.getattr_predict_proba pipeline = Some predict_proba →
       predict_proba row = py.Ok proba →
       app_main.items (app_main._class_names globals) proba
         (app_main.topk req) = py.Ok (top1 :: rest) →
       app_main.predict globals req
       = py.Ok (app_main.mkPredictResponse req (Some top1)
                  (Some (top1 :: rest)) None)).
Proof.
  assert (∀ (names : list string) (proba : list Q) (k : Z) items,
    (0 ≤ k)%Z →
    predict.topk_items (Some names) proba k = py.Ok items →
    length items = Z.to_nat (Z.min k (Z.of_nat (length proba)))) as Hlength.
  { intros names proba k items Hk Hitems.
    apply topk_items_Ok, Forall2_length in Hitems. rewrite <- Hitems.
    rewrite length_slice_to, length_ranked by lia. lia. }
  split; [|split; [split; [|reflexivity]|split; [|split]]].
  2:{ by rewrite (topk_items_tie_free _ _ _ tie_free_example). }
  - intros names proba k Hlen Hne Hk.
    destruct (topk_items_total (Some names) proba k) as [items Hitems].
    { intros i Hi. by apply (label_of_names_total names proba). }
    assert (0 ≤ k)%Z as Hk0 by lia.
    pose proof (Hlength _ _ _ _ Hk0 Hitems) as Hn.
    assert (0 < length proba) as Hpos by (destruct proba; [done|cbn; lia]).
    destruct items as [|top1 rest]; [cbn in Hn; lia|].
    exists top1, rest. pose proof Hitems as Hshow.
    apply topk_items_Ok in Hshow.
    split; [done|]. split; [done|]. split; [done|]. split; [done|].
    split; [|split].
    + eapply shows_sorted; [exact Hshow|].
      eapply StronglySorted_prefix; [apply slice_to_prefix|apply ranked_sorted].
    + eapply shows_names_lookup; [|apply slice_to_prefix|exact Hshow].
      intros ->. cbn in Hlen. lia.
    + pose proof (slice_to_prefix (Z.min k (Z.of_nat (length proba)))
                    (ranked proba)) as [tl Htl].
      apply Forall2_cons_inv_r in Hshow as (x & l & [_ Hx] & _ & Hsl).
      rewrite Hsl in Htl. rewrite Hx. by eapply ranked_head_max.
  - intros names proba Hn Hp.
    destruct (topk_items_total (Some names) proba 20) as [items Hitems].
    { intros i Hi. apply (label_of_names_total names proba); [lia|done]. }
    exists items. split; [done|].
    assert (0 ≤ 20)%Z as Hk0 by lia.
    rewrite (Hlength _ _ _ _ Hk0 Hitems), Hp. reflexivity.
  - intros parser args fs pipeline predict_proba row proba top1 rest
      Hload Hrow Hattr Hproba Hitems.
    by eapply main_ranked.
  - intros parser globals req pipeline predict_proba row proba top1 rest
      Hp Hrow Hattr Hproba Hitems.
    by eapply app_predict_ranked.
Qed.

Lemma rank_returns_top_k_descending_witness :
  ∃ top1 rest,
    predict.topk_items (sorter:=numpy.insertion) (Some ["A"; "B"; "C"])
      [1 # 10; 1 # 2; 2 # 5]%Q 2
      = py.Ok (top1 :: rest)
    ∧ app_main.items (sorter:=numpy.insertion) (Some ["A"; "B"; "C"])
        [1 # 10; 1 # 2; 2 # 5]%Q 2
      = py.Ok (top1 :: rest)
    ∧ ml_model.getitem (top1 :: rest) 0 = py.Ok top1
    ∧ length (top1 :: rest) = Z.to_nat (Z.min 2 (Z.of_nat 3))
    ∧ StronglySorted
        (λ s t, (ml_model.probability t <= ml_model.probability s)%Q)
        (top1 :: rest)
    ∧ Forall (λ it, ∃ i, ["A"; "B"; "C"] !! i = Some (ml_model.category it)
                       ∧ [1 # 10; 1 # 2; 2 # 5]%Q !! i
                         = Some (ml_model.probability it))
        (top1 :: rest)
    ∧ Forall (λ p, (p <= ml_model.probability top1)%Q)
        [1 # 10; 1 # 2; 2 # 5]%Q.
Proof.
  apply (proj1 (rank_returns_top_k_descending (sorter:=numpy.insertion)
                  (casing:=py.ascii_casing))
           ["A"; "B"; "C"] [1 # 10; 1 # 2; 2 # 5]%Q 2%Z).
  - reflexivity.
  - discriminate.
  - lia.
Defined.

(** Outside k >= 1, which predict.py does not check (the request schema
    of app/main.py does): k = 0 leaves no first item and [main] raises
    IndexError; a negative k slices from the end. *)
Example main_topk_zero :
  predict.main (parser:=pandas.iso_parser) (casing:=py.ascii_casing)
    (sorter:=numpy.insertion)
    (predict.mkArgs "Tesco" "groceries" 43 "2025-08-24T09:00:00" 0 "model.pkl")
    bare_store
  = py.Raise py.IndexError.
Proof. vm_compute. reflexivity. Qed.

Example topk_items_negative_k `{sorter : !numpy.Argsort} :
  predict.topk_items (Some ["A"; "B"; "C"]) [1 # 10; 1 # 2; 2 # 5]%Q (-1)
  = py.Ok [ml_model.mkTopKItem "B" (1 # 2); ml_model.mkTopKItem "C" (2 # 5)].
Proof. by rewrite (topk_items_tie_free _ _ _ tie_free_example). Qed.

(** C3 (as amended).  The ranking sorts the class indices by probability
    descending, by reversing numpy's ascending argsort: the items follow
    the sliced order one by one, in both serving modules; probabilities
    never increase along the list; and a class whose probability is
    strictly larger than that of a listed class is listed too, earlier.
    Among classes of equal probability the code fixes no order: they come
    as the argsort happens to leave them. *)
Theorem larger_probability_ranks_first `{sorter : !numpy.Argsort}
    (names : option (list string)) (proba : list Q) (k : Z)
    (items : list ml_model.TopKItem) :
  predict.topk_items names proba k = py.Ok items →
  app_main.items names proba k = py.Ok items
  ∧ ∃ order : list (nat * Q),
      order.*1 = py.slice_to (Z.min k (Z.of_nat (length proba)))
                   (reverse (numpy.argsort proba))
      ∧ Forall (λ x, proba !! x.1 = Some x.2) order
      ∧ Forall2 (shows names) order items
      ∧ (∀ a b x y, a < b → order !! a = Some x → order !! b = Some y →
           (y.2 <= x.2)%Q)
      ∧ (∀ b y i p, order !! b = Some y → proba !! i = Some p →
           (y.2 < p)%Q → ∃ a, a < b ∧ order !! a = Some (i, p)).
Proof.
  intros Hitems. split; [done|].
  exists (py.slice_to (Z.min k (Z.of_nat (length proba))) (ranked proba)).
  pose proof (slice_to_prefix (Z.min k (Z.of_nat (length proba)))
                (ranked proba)) as Hpre.
  split; [|split; [|split; [|split]]].
  - by rewrite order_ranked, slice_to_fmap.
  - apply Forall_forall. intros [i v] Hin. apply elem_of_ranked.
    by eapply elem_of_prefix.
  - by apply topk_items_Ok.
  - intros a b x y Hab Ha Hb.
    eapply (StronglySorted_lookup desc); [|exact Hab|exact Ha|exact Hb].
    eapply StronglySorted_prefix; [exact Hpre|apply ranked_sorted].
  - intros b y i p Hb Hi Hlt. destruct Hpre as [tl Htl].
    apply elem_of_ranked, list_elem_of_lookup in Hi as [a Ha].
    assert (ranked proba !! b = Some y) as Hb'.
    { rewrite Htl. by apply lookup_app_l_Some. }
    pose proof (ranked_sorted proba) as Hs.
    destruct (Nat.lt_trichotomy a b) as [Hab|[->|Hba]].
    + exists a. split; [done|].
      rewrite Htl, lookup_app_l in Ha; [done|].
      apply lookup_lt_Some in Hb. lia.
    + rewrite Ha in Hb'. injection Hb' as <-. cbn in Hlt. lra.
    + pose proof (StronglySorted_lookup desc _ _ _ _ _ Hs Hba Hb' Ha) as Hd.
      unfold desc in Hd. cbn in Hd. lra.
Qed.

Lemma larger_probability_ranks_first_witness :
  app_main.items (sorter:=numpy.insertion) (Some ["A"; "B"; "C"])
    [1 # 10; 1 # 2; 2 # 5]%Q 2
    = py.Ok [ml_model.mkTopKItem "B" (1 # 2); ml_model.mkTopKItem "C" (2 # 5)]
  ∧ ∃ order : list (nat * Q),
      order.*1
      = py.slice_to (Z.min 2 (Z.of_nat (length [1 # 10; 1 # 2; 2 # 5]%Q)))
          (reverse (numpy.argsort (Argsort:=numpy.insertion)
                      [1 # 10; 1 # 2; 2 # 5]%Q))
      ∧ Forall (λ x, [1 # 10; 1 # 2; 2 # 5]%Q !! x.1 = Some x.2) order
      ∧ Forall2 (shows (Some ["A"; "B"; "C"])) order
          [ml_model.mkTopKItem "B" (1 # 2); ml_model.mkTopKItem "C" (2 # 5)]
      ∧ (∀ a b x y, a < b → order !! a = Some x → order !! b = Some y →
           (y.2 <= x.2)%Q)
      ∧ (∀ b y i p, order !! b = Some y →
           [1 # 10; 1 # 2; 2 # 5]%Q !! i = Some p →
           (y.2 < p)%Q → ∃ a, a < b ∧ order !! a = Some (i, p)).
Proof.
  apply (larger_probability_ranks_first (sorter:=numpy.insertion)
           (Some ["A"; "B"; "C"]) [1 # 10; 1 # 2; 2 # 5]%Q 2
           [ml_model.mkTopKItem "B" (1 # 2); ml_model.mkTopKItem "C" (2 # 5)]).
  reflexivity.
Defined.

(** C3 as stated fails: under the sort that keeps equal values in index
    order, of two classes with equal probability the one with the lower
    index, A, is ranked after B, and with k = 1 only B is returned. *)
Lemma tie_lower_index_ranks_later :
  predict.topk_items (sorter:=numpy.insertion) (Some ["A"; "B"])
    [1 # 2; 1 # 2]%Q 2
    = py.Ok [ml_model.mkTopKItem "B" (1 # 2); ml_model.mkTopKItem "A" (1 # 2)]
  ∧ app_main.items (sorter:=numpy.insertion) (Some ["A"; "B"])
      [1 # 2; 1 # 2]%Q 2
    = py.Ok [ml_model.mkTopKItem "B" (1 # 2); ml_model.mkTopKItem "A" (1 # 2)]
  ∧ predict.topk_items (sorter:=numpy.insertion) (Some ["A"; "B"])
      [1 # 2; 1 # 2]%Q 1
    = py.Ok [ml_model.mkTopKItem "B" (1 # 2)].
Proof. repeat split; reflexivity. Qed.

(** The order among equal probabilities follows the sort and nothing in
    the ranking code: the two insertion sorts rank the same tie in
    opposite orders, and a vector without ties the same way. *)
Example tie_order_follows_the_sort :
  predict.topk_items (sorter:=numpy.insertion) (Some ["A"; "B"])
    [1 # 2; 1 # 2]%Q 2
    = py.Ok [ml_model.mkTopKItem "B" (1 # 2); ml_model.mkTopKItem "A" (1 # 2)]
  ∧ predict.topk_items (sorter:=numpy.insertion_flipped) (Some ["A"; "B"])
      [1 # 2; 1 # 2]%Q 2
    = py.Ok [ml_model.mkTopKItem "A" (1 # 2); ml_model.mkTopKItem "B" (1 # 2)]
  ∧ predict.topk_items (sorter:=numpy.insertion_flipped) (Some ["A"; "B"; "C"])
      [1 # 10; 1 # 2; 2 # 5]%Q 2
    = predict.topk_items (sorter:=numpy.insertion) (Some ["A"; "B"; "C"])
        [1 # 10; 1 # 2; 2 # 5]%Q 2.
Proof. repeat split; reflexivity. Qed.

(** C10.  When the loaded model object supports probability output but
    has no final step named "classifier" carrying [classes_],
    [get_class_names] returns None and the response of predict.py still
    holds the full top-k list, min(k, n) entries in ranked order, each
    entry's category being the decimal string of its class index. *)
Theorem index_strings_without_class_names `{parser : !pandas.Parser}
    `{casing : !py.Casing} `{sorter : !numpy.Argsort}
    (args : predict.Args) (fs : ml_model.files) (pipeline : ml_model.obj)
    (predict_proba : ml_model.FeatureRecord → py.result (list Q))
    (row : ml_model.FeatureRecord) (proba : list Q) :
  predict.load_pipeline (predict.model_path args) fs = py.Ok pipeline →
  no_classifier_classes pipeline →
  ml_model.getattr_predict_proba pipeline = Some predict_proba →
  predict.build_feature_row (predict.merchant args) (predict.description args)
    (predict.amount args) (predict.iso_datetime args) = py.Ok row →
  predict_proba row = py.Ok proba →
  proba ≠ [] → (1 ≤ predict.topk args)%Z →
  predict.get_class_names pipeline = None
  ∧ ∃ top1 rest,
      predict.main args fs
        = py.Ok (predict.Ranked
                   (predict.mkInput (predict.merchant args)
                      (predict.description args) (predict.amount args)
                      (predict.iso_datetime args))
                   top1 (top1 :: rest))
      ∧ length (top1 :: rest)
        = Z.to_nat (Z.min (predict.topk args) (Z.of_nat (length proba)))
      ∧ Forall2 (λ i it,
            ml_model.category it = py.str_of_int (Z.of_nat i)
            ∧ proba !! i = Some (ml_model.probability it))
          (py.slice_to (Z.min (predict.topk args) (Z.of_nat (length proba)))
             (reverse (numpy.argsort proba)))
          (top1 :: rest).
Proof.
  intros Hload Hno Hattr Hrow Hproba Hne Hk.
  pose proof (get_class_names_None pipeline Hno) as Hnames.
  split; [done|].
  destruct (topk_items_total None proba (predict.topk args)) as [items Hitems].
  { intros i _. by eexists. }
  pose proof Hitems as Hshow. apply topk_items_Ok in Hshow.
  assert (length items
          = Z.to_nat (Z.min (predict.topk args) (Z.of_nat (length proba))))
    as Hlen.
  { rewrite <- (Forall2_length _ _ _ Hshow).
    rewrite length_slice_to, length_ranked by lia. lia. }
  assert (0 < length proba) as Hpos by (destruct proba; [done|cbn; lia]).
  destruct items as [|top1 rest]; [cbn in Hlen; lia|].
  exists top1, rest. split; [|split; [done|]].
  - eapply main_ranked; [done..| |done]. by rewrite Hnames.
  - rewrite order_ranked, slice_to_fmap.
    apply (shows_index None); [done|apply slice_ranked_lookup|done].
Qed.

Lemma index_strings_without_class_names_witness :
  predict.get_class_names (ml_model.ObjPipeline bare_estimator) = None
  ∧ ∃ top1 rest,
      predict.main (parser:=pandas.iso_parser) (casing:=py.ascii_casing)
        (sorter:=numpy.insertion) tesco_args bare_store
        = py.Ok (predict.Ranked
                   (predict.mkInput "Tesco" "groceries" 43 "2025-08-24T09:00:00")
                   top1 (top1 :: rest))
      ∧ length (top1 :: rest)
        = Z.to_nat (Z.min 2 (Z.of_nat (length [1 # 10; 1 # 2; 2 # 5]%Q)))
      ∧ Forall2 (λ i it,
            ml_model.category it = py.str_of_int (Z.of_nat i)
            ∧ [1 # 10; 1 # 2; 2 # 5]%Q !! i = Some (ml_model.probability it))
          (py.slice_to (Z.min 2 (Z.of_nat (length [1 # 10; 1 # 2; 2 # 5]%Q)))
             (reverse (numpy.argsort (Argsort:=numpy.insertion)
                         [1 # 10; 1 # 2; 2 # 5]%Q)))
          (top1 :: rest).
Proof.
  apply (index_strings_without_class_names (parser:=pandas.iso_parser)
           (casing:=py.ascii_casing) (sorter:=numpy.insertion)
           tesco_args bare_store (ml_model.ObjPipeline bare_estimator)
           (λ _, py.Ok [1 # 10; 1 # 2; 2 # 5]%Q)
           (ml_model.mkFeatureRecord "tesco groceries" "tesco" 43 9 6 1)
           [1 # 10; 1 # 2; 2 # 5]%Q).
  - reflexivity.
  - intros steps clf Hsteps. discriminate Hsteps.
  - reflexivity.
  - reflexivity.
  - reflexivity.
  - discriminate.
  - cbn. lia.
Defined.

(** The response of predict.py for the bare estimator: index strings. *)
Example main_bare_estimator :
  predict.main (parser:=pandas.iso_parser) (casing:=py.ascii_casing)
    (sorter:=numpy.insertion) tesco_args bare_store
  = py.Ok (predict.Ranked
             (predict.mkInput "Tesco" "groceries" 43 "2025-08-24T09:00:00")
             (ml_model.mkTopKItem "1" (1 # 2))
             [ml_model.mkTopKItem "1" (1 # 2); ml_model.mkTopKItem "2" (2 # 5)]).
Proof. vm_compute. reflexivity. Qed.

(** app/main.py reads [classes_] of the object itself when there is no
    classifier step, and answers the same request with names. *)
Example app_predict_bare_estimator :
  (globals ← app_main.load_model "model.pkl" bare_store;
   app_main.predict (parser:=pandas.iso_parser) (casing:=py.ascii_casing)
     (sorter:=numpy.insertion) globals
     (app_main.mkPredictRequest "Tesco" "groceries" 43 "2025-08-24T09:00:00" 2))
  = py.Ok (app_main.mkPredictResponse
             (app_main.mkPredictRequest "Tesco" "groceries" 43
                "2025-08-24T09:00:00" 2)
             (Some (ml_model.mkTopKItem "B" (1 # 2)))
             (Some [ml_model.mkTopKItem "B" (1 # 2);
                    ml_model.mkTopKItem "C" (2 # 5)])
             None).
Proof. vm_compute. reflexivity. Qed.

(** ** The artifact: save and load *)

Lemma unpickle_insert path payload (fs : ml_model.files) :
  ml_model.unpickle path (<[path := ml_model.Pickled payload]> fs)
  = py.Ok payload.
Proof. unfold ml_model.unpickle. by rewrite lookup_insert_eq. Qed.

Lemma load_pipeline_saved pipeline labels path (fs : ml_model.files) :
  predict.load_pipeline path (ml_io.save_artifacts pipeline labels path fs)
  = py.Ok (ml_model.ObjPipeline pipeline).
Proof.
  unfold predict.load_pipeline, ml_io.save_artifacts.
  rewrite unpickle_insert. cbn [mbind py.result_bind py.rbind].
  by rewrite lookup_insert_eq.
Qed.

Lemma load_pipeline_bare pipeline path (fs : ml_model.files) :
  predict.load_pipeline path
    (<[path := ml_model.Pickled (ml_model.ObjPipeline pipeline)]> fs)
  = py.Ok (ml_model.ObjPipeline pipeline).
Proof. unfold predict.load_pipeline. by rewrite unpickle_insert. Qed.

Lemma load_model_saved pipeline labels path (fs : ml_model.files) :
  app_main.load_model path (ml_io.save_artifacts pipeline labels path fs)
  = app_main.load_model path
      (<[path := ml_model.Pickled (ml_model.ObjPipeline pipeline)]> fs).
Proof.
  unfold app_main.load_model, ml_io.save_artifacts.
  rewrite !unpickle_insert. cbn [mbind py.result_bind py.rbind].
  by rewrite lookup_insert_eq.
Qed.

(** C4 (as amended).  [save_artifacts] writes, under its path and nowhere
    else, one container: a dict with the fitted pipeline under "pipeline"
    and the label list under "labels" and no other entry.  The loaders of
    predict.py and app/main.py accept that container or a bare pipeline
    object and give back the pipeline that was saved, and [main] of
    predict.py answers from the container what it answers from the bare
    pipeline: inference after load is inference before save.  The stored
    label list is not read back: the class names after load are the
    [classes_] of the pipeline's step named "classifier", and in
    app/main.py the pipeline's own [classes_] when there is no such step,
    whatever labels were saved. *)
Theorem artifact_round_trip `{parser : !pandas.Parser} `{casing : !py.Casing}
    `{sorter : !numpy.Argsort} (pipeline : ml_model.Pipeline)
    (labels : list string) (path : string) (fs : ml_model.files) :
  let saved := ml_io.save_artifacts pipeline labels path fs in
  let bare :=
    <[path := ml_model.Pickled (ml_model.ObjPipeline pipeline)]> fs in
  let classifier := classifier_step pipeline in
  (∃ d, saved !! path = Some (ml_model.Pickled (ml_model.ObjDict d))
        ∧ d !! "pipeline" = Some (ml_model.ObjPipeline pipeline)
        ∧ d !! "labels" = Some (ml_model.ObjList labels)
        ∧ ∀ key, key ≠ "pipeline" → key ≠ "labels" → d !! key = None)
  ∧ (∀ other, other ≠ path → saved !! other = fs !! other)
  ∧ predict.load_pipeline path saved = py.Ok (ml_model.ObjPipeline pipeline)
  ∧ predict.load_pipeline path bare = py.Ok (ml_model.ObjPipeline pipeline)
  ∧ loaded_pair path saved
    = py.Ok (ml_model.ObjPipeline pipeline, classifier ≫= ml_model.classes_)
  ∧ loaded_pair path bare = loaded_pair path saved
  ∧ app_main.load_model path saved
    = py.Ok (app_main.mkGlobals (Some (ml_model.ObjPipeline pipeline))
               (match classifier with
                | Some clf => ml_model.classes_ clf
                | None => ml_model.pipeline_classes_ pipeline
                end))
  ∧ app_main.load_model path bare = app_main.load_model path saved
  ∧ ∀ args, predict.model_path args = path →
            predict.main args saved = predict.main args bare.
Proof.
  intros saved bare classifier. subst saved bare classifier.
  assert (predict.get_class_names (ml_model.ObjPipeline pipeline)
          = classifier_step pipeline ≫= ml_model.classes_) as Hnames.
  { unfold predict.get_class_names, classifier_step.
    cbn [ml_model.getattr_named_steps].
    destruct (ml_model.named_steps pipeline) as [steps|]; [|done].
    destruct (steps !! "classifier") as [clf|]; [|done]. cbn.
    by destruct (ml_model.classes_ clf). }
  split.
  { eexists. unfold ml_io.save_artifacts. rewrite lookup_insert_eq.
    split; [reflexivity|]. split; [by rewrite lookup_insert_eq|].
    split; [by rewrite lookup_insert_ne, lookup_insert_eq|].
    intros key Hp Hl. by rewrite !lookup_insert_ne, lookup_empty. }
  split.
  { intros other Hother. unfold ml_io.save_artifacts.
    by rewrite lookup_insert_ne. }
  split; [apply load_pipeline_saved|].
  split; [apply load_pipeline_bare|].
  split.
  { unfold loaded_pair. rewrite load_pipeline_saved.
    cbn [mbind py.result_bind py.rbind]. by rewrite Hnames. }
  split; [unfold loaded_pair; by rewrite load_pipeline_saved, load_pipeline_bare|].
  split.
  { rewrite load_model_saved. unfold app_main.load_model.
    rewrite unpickle_insert. cbn [mbind py.result_bind py.rbind].
    cbn [ml_model.getattr_named_steps ml_model.getattr_classes_].
    unfold classifier_step.
    destruct (ml_model.named_steps pipeline) as [steps|]; [|done].
    by destruct (steps !! "classifier"). }
  split; [by rewrite load_model_saved|].
  intros args <-. unfold predict.main.
  by rewrite load_pipeline_saved, load_pipeline_bare.
Qed.

(** C4 as stated fails: train.py saves the catalog order as the label
    list, and what is loaded back with the pipeline is the classifier's
    own class order, a different list. *)
Lemma loaded_labels_are_not_the_saved_labels :
  loaded_pair "model.pkl"
    (ml_io.save_artifacts fitted_pipeline
       (settings.categories settings.SETTINGS) "model.pkl" ∅)
  = py.Ok (ml_model.ObjPipeline fitted_pipeline,
           Some ["Bills & Utilities"; "Dining & Coffee"; "Entertainment";
                 "Groceries"; "Health & Fitness"; "Income"; "Other";
                 "Shopping"; "Transport"])
  ∧ Some ["Bills & Utilities"; "Dining & Coffee"; "Entertainment";
          "Groceries"; "Health & Fitness"; "Income"; "Other";
          "Shopping"; "Transport"]
    ≠ Some (settings.categories settings.SETTINGS).
Proof.
  split.
  - unfold loaded_pair. rewrite load_pipeline_saved. reflexivity.
  - discriminate.
Qed.

(** ** Sampling: a program logic for computations over the generator *)

Section sampling.
Context {G : Type} `{src : !random.Source G}.

Lemma always_ret {A} (a : A) (P : A → Prop) :
  P a → always (G:=G) (mret a) P.
Proof. intros HP g. by exists a, g. Qed.

Lemma always_bind {A B} (m : random.M G A) (f : A → random.M G B)
    (P : A → Prop) (Q : B → Prop) :
  always m P → (∀ a, P a → always (f a) Q) → always (m ≫= f) Q.
Proof.
  intros Hm Hf g. destruct (Hm g) as (a & g' & Hmg & Ha).
  destruct (Hf a Ha g') as (b & g'' & Hfg & Hb).
  exists b, g''. split; [|done].
  unfold mbind, random.M_bind. by rewrite Hmg.
Qed.

Lemma always_mono {A} (m : random.M G A) (P Q : A → Prop) :
  always m P → (∀ a, P a → Q a) → always m Q.
Proof.
  intros Hm HPQ g. destruct (Hm g) as (a & g' & Hmg & Ha).
  exists a, g'. split; [done|by apply HPQ].
Qed.

Lemma always_lift {A} (r : py.result A) (a : A) (P : A → Prop) :
  r = py.Ok a → P a → always (G:=G) (random.lift r) P.
Proof. intros -> HP g. by exists a, g. Qed.

Lemma always_repeatM {A} (n : nat) (body : random.M G A) (P : A → Prop) :
  always body P →
  always (random.repeatM n body) (λ l, length l = n ∧ Forall P l).
Proof.
  intros Hbody. induction n as [|n IH]; cbn [random.repeatM].
  - by apply always_ret.
  - eapply always_bind; [exact Hbody|]. intros a Ha.
    eapply always_bind; [exact IH|]. intros l [Hlen Hl].
    apply always_ret. split; [cbn; by rewrite Hlen|by constructor].
Qed.

Lemma always_forM {A B} (xs : list A) (f : A → random.M G B)
    (P : A → B → Prop) :
  (∀ x, x ∈ xs → always (f x) (P x)) →
  always (random.forM xs f) (Forall2 P xs).
Proof.
  induction xs as [|x xs IH]; intros Hf; cbn [random.forM].
  - apply always_ret. constructor.
  - eapply always_bind; [apply Hf; left|]. intros b Hb.
    eapply always_bind; [apply IH; intros; apply Hf; by right|].
    intros bs Hbs. apply always_ret. by constructor.
Qed.

Lemma always_choice {A} (seq : list A) :
  seq ≠ [] → always (random.choice seq) (λ x, x ∈ seq).
Proof.
  intros Hne g. unfold returns, random.choice.
  rewrite bool_decide_eq_false_2 by done.
  pose proof (random.randbelow_range (Z.of_nat (length seq)) g) as Hr.
  destruct (random.randbelow (Z.of_nat (length seq)) g) as [i g'].
  cbn [fst] in Hr.
  assert (0 < Z.of_nat (length seq))%Z as Hpos
    by (destruct seq; [done|cbn; lia]).
  specialize (Hr Hpos).
  destruct (lookup_lt_is_Some_2 seq (Z.to_nat i)) as [x Hx]; [lia|].
  exists x, g'. rewrite Hx. split; [done|].
  by eapply list_elem_of_lookup_2.
Qed.

Lemma always_randint (a b : Z) :
  (a ≤ b)%Z → always (random.randint a b) (λ r, (a ≤ r ≤ b)%Z).
Proof.
  intros Hab g. unfold returns, random.randint.
  rewrite (proj2 (Z.ltb_lt 0 (b + 1 - a))) by lia.
  pose proof (random.randbelow_range (b + 1 - a) g) as Hr.
  destruct (random.randbelow (b + 1 - a) g) as [i g']. cbn [fst] in Hr.
  exists (a + i)%Z, g'. split; [done|lia].
Qed.

Lemma always_uniform (a b : Q) :
  (a <= b)%Q → always (random.uniform a b) (λ v, (a <= v ∧ v <= b)%Q).
Proof.
  intros Hab g. unfold returns, random.uniform, random.random.
  pose proof (random.next_float_range g) as [Hr0 Hr1].
  unfold mbind, random.M_bind.
  destruct (random.next_float g) as [r g']. cbn [fst] in *.
  exists (a + (b - a) * r)%Q, g'. split; [done|].
  assert (0 <= (b - a) * r)%Q by (apply Qmult_le_0_compat; lra).
  assert (0 <= (b - a) * (1 - r))%Q by (apply Qmult_le_0_compat; lra).
  lra.
Qed.

End sampling.

(** ** The configured settings *)

Lemma hour_choices_in_range :
  map_Forall (λ _ hours, hours ≠ [] ∧ Forall (λ h, (0 ≤ h ≤ 23)%Z) hours)
    (settings.hour_choices (settings.time settings.SETTINGS)).
Proof. apply (bool_decide_unpack _). vm_compute. exact I. Qed.

Lemma vocab_covers_categories :
  Forall (λ c, ∃ entry, settings.vocab settings.SETTINGS !! c = Some entry
                     ∧ settings.merchants entry ≠ []
                     ∧ settings.desc entry ≠ [])
    (settings.categories settings.SETTINGS).
Proof.
  repeat constructor; (eexists; split; [vm_compute; reflexivity|done]).
Qed.

(** ** Time sampling *)

Section time_sampling.
Context {G : Type} `{src : !random.Source G}.

Lemma hour_check_passes (h : Z) :
  (0 ≤ h ≤ 23)%Z → (0 <=? h)%Z && (h <=? 23)%Z = true.
Proof. intros ?. apply andb_true_intro. split; apply Z.leb_le; lia. Qed.

(** Whatever its arguments, an hour that [choose_random_hour] returns has
    passed the range check. *)
Lemma choose_random_hour_checked hours_or_start end_inclusive (g g' : G) h :
  utils_date_and_time.choose_random_hour hours_or_start end_inclusive g
    = (py.Ok h, g') →
  (0 ≤ h ≤ 23)%Z.
Proof.
  unfold utils_date_and_time.choose_random_hour, mbind, random.M_bind.
  match goal with |- context [match ?m g with _ => _ end] =>
    destruct (m g) as [[hour|e] g1] end; [|done].
  destruct ((0 <=? hour)%Z && (hour <=? 23)%Z) eqn:Hrange; cbn; [|done].
  intros [= <- _]. lia.
Qed.

Lemma always_choose_random_hour_seq (hours : list Z) :
  hours ≠ [] → Forall (λ h, (0 ≤ h ≤ 23)%Z) hours →
  always (utils_date_and_time.choose_random_hour (inl hours) None)
    (λ h, h ∈ hours ∧ (0 ≤ h ≤ 23)%Z).
Proof.
  intros Hne Hall. unfold utils_date_and_time.choose_random_hour.
  rewrite bool_decide_eq_false_2 by done.
  eapply always_bind; [by apply always_choice|].
  intros h Hh. cbv beta.
  rewrite Forall_forall in Hall. pose proof (Hall h Hh) as Hr.
  rewrite hour_check_passes by done.
  by apply always_ret.
Qed.

Lemma always_choose_random_hour_range (start end_ : Z) :
  (0 ≤ start)%Z → (start ≤ end_)%Z → (end_ ≤ 23)%Z →
  always (utils_date_and_time.choose_random_hour (inr start) (Some end_))
    (λ h, (start ≤ h ≤ end_)%Z).
Proof.
  intros H0 Hse H23. unfold utils_date_and_time.choose_random_hour.
  replace (end_ <? start)%Z with false by lia.
  eapply always_bind; [by apply always_randint|].
  intros h Hh. cbv beta in *.
  rewrite hour_check_passes by lia.
  by apply always_ret.
Qed.

Lemma always_choose_random_day (start end_ : Z) :
  (start ≤ end_)%Z →
  always (utils_date_and_time.choose_random_day start end_)
    (λ d, (start ≤ d ≤ end_)%Z).
Proof.
  intros Hse. unfold utils_date_and_time.choose_random_day.
  replace (end_ <? start)%Z with false by lia.
  by apply always_randint.
Qed.

(** The hour [rand_time] picks for a category. *)
Lemma always_rand_time_hour (category : string) :
  always (utils_date_and_time.rand_time_hour category)
    (λ h, (0 ≤ h ≤ 23)%Z
          ∧ ∀ hours,
              settings.hour_choices (settings.time settings.SETTINGS)
                !! category = Some hours → h ∈ hours).
Proof.
  unfold utils_date_and_time.rand_time_hour.
  destruct (settings.hour_choices (settings.time settings.SETTINGS)
              !! category) as [hours|] eqn:Hc.
  - destruct (hour_choices_in_range _ _ Hc) as [Hne Hall].
    eapply always_mono; [by apply always_choose_random_hour_seq|].
    intros h [Hin Hr]. split; [done|]. by intros ? [= <-].
  - eapply always_mono.
    + apply (always_choose_random_hour_range 8 21); lia.
    + intros h Hh. split; [cbn in Hh; lia|done].
Qed.

End time_sampling.

(** Inside the configured window the offset lands on 15 + d August 2025
    at hour h, and the rendered timestamp reads back as that instant. *)
Lemma window_table :
  Forall (λ d, Forall (λ h,
      utils_date_and_time.use_date_offset
        (settings.base_date (settings.time settings.SETTINGS)) d h
        = py.Ok (datetime.mk 2025 8 (15 + d) h 0 0)
      ∧ datetime.fromisoformat
          (datetime.isoformat (datetime.mk 2025 8 (15 + d) h 0 0))
        = Some (datetime.mk 2025 8 (15 + d) h 0 0))
    (seqZ 0 24)) (seqZ 0 14).
Proof. apply (bool_decide_unpack _). vm_compute. exact I. Qed.

Lemma use_date_offset_window (d h : Z) :
  (0 ≤ d ≤ 13)%Z → (0 ≤ h ≤ 23)%Z →
  utils_date_and_time.use_date_offset
    (settings.base_date (settings.time settings.SETTINGS)) d h
    = py.Ok (datetime.mk 2025 8 (15 + d) h 0 0)
  ∧ datetime.fromisoformat
      (datetime.isoformat (datetime.mk 2025 8 (15 + d) h 0 0))
    = Some (datetime.mk 2025 8 (15 + d) h 0 0).
Proof.
  intros Hd Hh. pose proof window_table as Htab.
  rewrite Forall_forall in Htab.
  specialize (Htab d). rewrite Forall_forall in Htab.
  apply Htab; apply elem_of_seqZ; lia.
Qed.

Section rand_time.
Context {G : Type} `{src : !random.Source G}.

(** The timestamp [rand_time] returns: the picked hour on one of the
    fourteen days from the base date, readable as such. *)
Lemma always_rand_time (category : string) :
  always (utils_date_and_time.rand_time category)
    (λ s, ∃ d h,
       (0 ≤ d ≤ 13)%Z ∧ (0 ≤ h ≤ 23)%Z
       ∧ (∀ hours,
            settings.hour_choices (settings.time settings.SETTINGS)
              !! category = Some hours → h ∈ hours)
       ∧ s = datetime.isoformat (datetime.mk 2025 8 (15 + d) h 0 0)
       ∧ datetime.fromisoformat s = Some (datetime.mk 2025 8 (15 + d) h 0 0)).
Proof.
  unfold utils_date_and_time.rand_time.
  eapply always_bind; [apply always_rand_time_hour|].
  intros h [Hh Hlist].
  eapply always_bind; [apply (always_choose_random_day 0 13); lia|].
  intros d Hd. cbv beta in Hd.
  destruct (use_date_offset_window d h Hd Hh) as [Hoff Hread].
  eapply (always_bind _ _ (λ ts, ts = datetime.mk 2025 8 (15 + d) h 0 0)).
  { eapply always_lift; [exact Hoff|done]. }
  intros ? ->. apply always_ret. by exists d, h.
Qed.

End rand_time.

(** C9.  Under the configured settings the hour choice of [rand_time]
    never raises: from every generator state and for every category it
    returns an hour in [0, 23], a member of the category's hour list when
    the time settings give one; the timestamp [rand_time] then returns
    carries that very hour.  Moreover no call of [choose_random_hour],
    whatever its arguments, returns an hour outside [0, 23]. *)
Theorem sampled_hours_in_range_and_listed {G : Type}
    `{src : !random.Source G} (category : string) (g : G) :
  (∃ h g',
     utils_date_and_time.rand_time_hour category g = (py.Ok h, g')
     ∧ (0 ≤ h ≤ 23)%Z
     ∧ ∀ hours,
         settings.hour_choices (settings.time settings.SETTINGS) !! category
           = Some hours → h ∈ hours)
  ∧ (∃ s g' ts,
       utils_date_and_time.rand_time category g = (py.Ok s, g')
       ∧ datetime.fromisoformat s = Some ts
       ∧ (0 ≤ datetime.hour ts ≤ 23)%Z
       ∧ ∀ hours,
           settings.hour_choices (settings.time settings.SETTINGS) !! category
             = Some hours → datetime.hour ts ∈ hours)
  ∧ ∀ hours_or_start end_inclusive (g0 g1 : G) h,
      utils_date_and_time.choose_random_hour hours_or_start end_inclusive g0
        = (py.Ok h, g1) →
      (0 ≤ h ≤ 23)%Z.
Proof.
  split; [|split].
  - destruct (always_rand_time_hour category g) as (h & g' & Hrun & Hh).
    by exists h, g'.
  - destruct (always_rand_time category g)
      as (s & g' & Hrun & d & h & Hd & Hh & Hlist & _ & Hread).
    exists s, g', (datetime.mk 2025 8 (15 + d) h 0 0).
    split; [done|]. split; [done|]. split; [exact Hh|exact Hlist].
  - intros. by eapply choose_random_hour_checked.
Qed.

(** A run of the time sampling on the reference generator. *)
Example rand_time_transport_seed_42 :
  (utils_date_and_time.rand_time "Transport" (random.seeded 42)).1
  = py.Ok "2025-08-15T23:00:00".
Proof. vm_compute. reflexivity. Qed.

(** ** Amount sampling *)

Lemma round_half_even_cases (q : Q) :
  py.round_half_even q = Qfloor q
  ∨ (py.round_half_even q = (Qfloor q + 1)%Z ∧ (inject_Z (Qfloor q) < q)%Q).
Proof.
  unfold py.round_half_even.
  destruct (Qcompare_spec (q - inject_Z (Qfloor q)) (1 # 2)) as [He|Hl|Hg].
  - destruct (Z.even (Qfloor q)); [by left|]. right. split; [done|lra].
  - by left.
  - right. split; [done|lra].
Qed.

Lemma round_half_even_ge (q : Q) (n : Z) :
  (inject_Z n <= q)%Q → (n ≤ py.round_half_even q)%Z.
Proof.
  intros Hq. apply Qfloor_resp_le in Hq. rewrite Qfloor_Z in Hq.
  destruct (round_half_even_cases q) as [->|[-> _]]; lia.
Qed.

Lemma round_half_even_le (q : Q) (n : Z) :
  (q <= inject_Z n)%Q → (py.round_half_even q ≤ n)%Z.
Proof.
  intros Hq. destruct (round_half_even_cases q) as [->|[-> Hlt]].
  - apply Qfloor_resp_le in Hq. by rewrite Qfloor_Z in Hq.
  - assert (inject_Z (Qfloor q) < inject_Z n)%Q as Hfn by lra.
    rewrite <- Zlt_Qlt in Hfn. lia.
Qed.

Lemma pow10_pos (d : Z) : (0 ≤ d)%Z → (0 < inject_Z (10 ^ d))%Q.
Proof.
  intros Hd. change 0%Q with (inject_Z 0). rewrite <- Zlt_Qlt.
  by apply Z.pow_pos_nonneg.
Qed.

Lemma round_scaled (x : Q) (d : Z) :
  (0 ≤ d)%Z →
  (py.round x d * inject_Z (10 ^ d)
   == inject_Z (py.round_half_even (x * inject_Z (10 ^ d))))%Q.
Proof.
  intros Hd. pose proof (pow10_pos d Hd) as Hpos. unfold py.round.
  rewrite Qmake_Qdiv, Z2Pos.id by (by apply Z.pow_pos_nonneg).
  field. intros Hz. lra.
Qed.

Lemma round_aligned (x : Q) (d : Z) : (0 ≤ d)%Z → aligned (py.round x d) d.
Proof. intros Hd. eexists. by apply round_scaled. Qed.

(** Rounding keeps a value between bounds that are themselves multiples
    of the rounding unit. *)
Lemma round_between (x lo hi : Q) (d : Z) :
  (0 ≤ d)%Z → aligned lo d → aligned hi d →
  (lo <= x)%Q → (x <= hi)%Q →
  (lo <= py.round x d)%Q ∧ (py.round x d <= hi)%Q.
Proof.
  intros Hd [nl Hlo] [nh Hhi] Hlx Hxh.
  pose proof (pow10_pos d Hd) as Hpos.
  pose proof (round_scaled x d Hd) as Hr.
  set (s := inject_Z (10 ^ d)) in *.
  assert (inject_Z nl <= x * s)%Q as Hl.
  { rewrite <- Hlo. by apply Qmult_le_compat_r; [|lra]. }
  assert (x * s <= inject_Z nh)%Q as Hh.
  { rewrite <- Hhi. by apply Qmult_le_compat_r; [|lra]. }
  apply round_half_even_ge in Hl. apply round_half_even_le in Hh.
  rewrite Zle_Qle in Hl, Hh. rewrite <- Hr in Hl, Hh.
  rewrite <- Hlo in Hl. rewrite <- Hhi in Hh.
  split; eapply Qmult_le_r; [exact Hpos|exact Hl|exact Hpos|exact Hh].
Qed.

Lemma aligned_opp (q : Q) (d : Z) : aligned q d → aligned (- q) d.
Proof.
  intros [n Hn]. exists (- n)%Z. rewrite inject_Z_opp, <- Hn. ring.
Qed.

Lemma aligned_integer (q : Q) (d : Z) :
  (0 ≤ d)%Z → Qden q = 1%positive → aligned q d.
Proof.
  intros Hd Hq. exists (Qnum q * 10 ^ d)%Z. destruct q as [n p].
  cbn in Hq. subst p. rewrite inject_Z_mult. unfold inject_Z.
  reflexivity.
Qed.

Lemma amount_specs_wf :
  map_Forall (λ _ spec, spec_wf spec) (settings.amounts settings.SETTINGS)
  ∧ spec_wf (settings.default_amount settings.SETTINGS).
Proof.
  split.
  - unfold spec_wf. apply (bool_decide_unpack _). vm_compute. exact I.
  - unfold spec_wf. cbn. repeat split; (done || lia).
Qed.

Lemma get_amount_spec_wf (category : string) :
  spec_wf (utils_amount.get_amount_spec category).
Proof.
  unfold utils_amount.get_amount_spec.
  destruct (settings.amounts settings.SETTINGS !! category) as [spec|] eqn:Hc.
  - exact (proj1 amount_specs_wf _ _ Hc).
  - exact (proj2 amount_specs_wf).
Qed.

(** Every configured spec passes [AmountSpec.__post_init__]. *)
Lemma get_amount_spec_post_init (category : string) :
  settings.AmountSpec_post_init (utils_amount.get_amount_spec category)
  = py.Ok tt.
Proof.
  destruct (get_amount_spec_wf category) as (Hl & Hh & Hle & _).
  unfold settings.AmountSpec_post_init.
  destruct (Qlt_le_dec _ _) as [Hlt|]; [|done].
  unfold Qlt in Hlt. rewrite Hl, Hh in Hlt. lia.
Qed.

Section amount_sampling.
Context {G : Type} `{src : !random.Source G}.

Lemma choose_random_amount_negative lower upper (d sign : Z) (g : G) :
  (d < 0)%Z →
  utils_amount.choose_random_amount lower upper (Some d) sign g
  = (py.Raise (py.ValueError "decimal_places must be >= 0"), g).
Proof.
  intros Hd. unfold utils_amount.choose_random_amount.
  cbv [default from_option id]. cbv zeta beta iota.
  by rewrite (proj2 (Z.ltb_lt d 0) Hd).
Qed.

Lemma always_choose_random_amount lower upper decimal_places (sign : Z) :
  let d := default (settings.default_ndigits settings.SETTINGS)
             decimal_places in
  let lo := if Qlt_le_dec upper lower then upper else lower in
  let hi := if Qlt_le_dec upper lower then lower else upper in
  (0 ≤ d)%Z →
  always (utils_amount.choose_random_amount lower upper decimal_places sign)
    (λ v, ∃ s, (lo <= s)%Q ∧ (s <= hi)%Q
             ∧ v = py.round (inject_Z sign * s) d).
Proof.
  intros d lo hi Hd. subst d lo hi.
  unfold utils_amount.choose_random_amount. cbv zeta.
  rewrite (proj2 (Z.ltb_ge _ 0) Hd).
  destruct (Qlt_le_dec upper lower) as [Hlt|Hle].
  - eapply always_bind; [apply always_uniform; lra|].
    intros s [Hs1 Hs2]. apply always_ret. by exists s.
  - eapply always_bind; [by apply always_uniform|].
    intros s [Hs1 Hs2]. apply always_ret. by exists s.
Qed.

(** A run of [choose_random_amount]: one draw of [random.uniform] between
    the ordered bounds, the generator left where the draw left it, the
    result the rounding of the signed draw. *)
Lemma choose_random_amount_run lower upper decimal_places (sign : Z) (g : G) :
  let d := default (settings.default_ndigits settings.SETTINGS)
             decimal_places in
  let lo := if Qlt_le_dec upper lower then upper else lower in
  let hi := if Qlt_le_dec upper lower then lower else upper in
  (0 ≤ d)%Z →
  ∃ s g',
    random.uniform lo hi g = (py.Ok s, g')
    ∧ (lo <= s)%Q ∧ (s <= hi)%Q
    ∧ utils_amount.choose_random_amount lower upper decimal_places sign g
      = (py.Ok (py.round (inject_Z sign * s) d), g').
Proof.
  intros d lo hi Hd.
  assert (lo <= hi)%Q as Hlohi.
  { subst lo hi. destruct (Qlt_le_dec upper lower); lra. }
  destruct (always_uniform lo hi Hlohi g) as (s & g' & Hrun & Hs1 & Hs2).
  exists s, g'. split; [done|]. split; [done|]. split; [done|].
  unfold utils_amount.choose_random_amount. cbv zeta. fold d.
  rewrite (proj2 (Z.ltb_ge _ 0) Hd). subst lo hi.
  destruct (Qlt_le_dec upper lower);
    unfold mbind, random.M_bind; by rewrite Hrun.
Qed.

(** The amount [rand_amount] returns for a category. *)
Lemma always_rand_amount (category : string) :
  let spec := utils_amount.get_amount_spec category in
  always (utils_amount.rand_amount category None)
    (λ v, aligned v 2
          ∧ (settings.sign spec = 1%Z →
             (settings.low spec <= v)%Q ∧ (v <= settings.high spec)%Q)
          ∧ (settings.sign spec = (-1)%Z →
             (- settings.high spec <= v)%Q ∧ (v <= - settings.low spec)%Q)).
Proof.
  intros spec. unfold utils_amount.rand_amount. fold spec.
  destruct (get_amount_spec_wf category) as (Hl & Hh & Hle & Hsign).
  fold spec in Hl, Hh, Hle, Hsign.
  assert (settings.low spec <= settings.high spec)%Q as Hq.
  { unfold Qle. rewrite Hl, Hh. lia. }
  eapply always_mono.
  { apply (always_choose_random_amount _ _ None). cbn. lia. }
  cbv beta zeta. destruct (Qlt_le_dec _ _) as [Hlt|_]; [lra|].
  change (default _ None) with 2%Z.
  intros v (s & Hs1 & Hs2 & ->).
  assert (aligned (settings.low spec) 2) as Hal
    by (by apply aligned_integer).
  assert (aligned (settings.high spec) 2) as Hah
    by (by apply aligned_integer).
  split; [by apply round_aligned|]. split; intros Hsg; rewrite Hsg.
  - apply round_between; [done..| |]; unfold inject_Z; lra.
  - apply round_between; [done|by apply aligned_opp..| |];
      unfold inject_Z; lra.
Qed.

End amount_sampling.

(** What [choose_random_amount] guarantees.  A negative decimal_places
    raises ValueError before any sampling, the generator state untouched;
    otherwise the call puts inverted bounds in order, draws a value s
    from the inclusive range with one call of [random.uniform], multiplies
    by sign and rounds to decimal_places digits, so the result is a
    multiple of 10^-decimal_places.  When sign is +1 or -1 and the bounds
    are themselves multiples of 10^-decimal_places, the result satisfies
    low <= value <= high for sign +1 and -high <= value <= -low for sign
    -1.  All configured specs have whole bounds, so this holds for
    [rand_amount] of every category. *)
Lemma amount_sampling_bounds {G : Type} `{src : !random.Source G}
    (lower_bound upper_bound : Q) (decimal_places : option Z) (sign : Z)
    (g : G) :
  let d := default 2%Z decimal_places in
  let lo := if Qlt_le_dec upper_bound lower_bound
            then upper_bound else lower_bound in
  let hi := if Qlt_le_dec upper_bound lower_bound
            then lower_bound else upper_bound in
  settings.default_ndigits settings.SETTINGS = 2%Z
  ∧ ((d < 0)%Z →
     utils_amount.choose_random_amount lower_bound upper_bound
       decimal_places sign g
     = (py.Raise (py.ValueError "decimal_places must be >= 0"), g))
  ∧ ((0 ≤ d)%Z →
     ∃ s v g',
       random.uniform lo hi g = (py.Ok s, g')
       ∧ utils_amount.choose_random_amount lower_bound upper_bound
           decimal_places sign g = (py.Ok v, g')
       ∧ (lo <= s)%Q ∧ (s <= hi)%Q ∧ (lo <= hi)%Q
       ∧ v = py.round (inject_Z sign * s) d
       ∧ aligned v d
       ∧ (aligned lo d → aligned hi d →
          (sign = 1%Z → (lo <= v)%Q ∧ (v <= hi)%Q)
          ∧ (sign = (-1)%Z → (- hi <= v)%Q ∧ (v <= - lo)%Q)))
  ∧ ∀ category,
      let spec := utils_amount.get_amount_spec category in
      ∃ v g',
        utils_amount.rand_amount category None g = (py.Ok v, g')
        ∧ aligned v 2
        ∧ (settings.sign spec = 1%Z ∨ settings.sign spec = (-1)%Z)
        ∧ (settings.sign spec = 1%Z →
           (settings.low spec <= v)%Q ∧ (v <= settings.high spec)%Q)
        ∧ (settings.sign spec = (-1)%Z →
           (- settings.high spec <= v)%Q ∧ (v <= - settings.low spec)%Q).
Proof.
  intros d lo hi. split; [reflexivity|]. split; [|split].
  - intros Hd. destruct decimal_places as [d'|]; [|cbn in d; lia].
    by apply choose_random_amount_negative.
  - intros Hd.
    destruct (choose_random_amount_run lower_bound upper_bound
                decimal_places sign g Hd)
      as (s & g' & Hdraw & Hs1 & Hs2 & Hrun).
    exists s, (py.round (inject_Z sign * s) d), g'. fold lo hi in Hs1, Hs2.
    split; [done|]. split; [done|]. split; [done|]. split; [done|].
    split; [lra|]. split; [done|]. split; [by apply round_aligned|].
    intros Hlo Hhi. split; intros ->.
    + apply round_between; [done..| |]; unfold inject_Z; lra.
    + apply round_between; [done|by apply aligned_opp..| |];
        unfold inject_Z; lra.
  - intros category spec.
    destruct (always_rand_amount category g) as (v & g' & Hrun & Hv).
    exists v, g'. split; [done|].
    destruct (get_amount_spec_wf category) as (_ & _ & _ & Hsign).
    destruct Hv as (Ha & Hp & Hn).
    split; [exact Ha|]. split; [exact Hsign|]. split; [exact Hp|exact Hn].
Qed.

(** A run on the reference generator: Groceries lie in [-120, -8]. *)
Example rand_amount_groceries_seed_42 :
  (utils_amount.rand_amount "Groceries" None (random.seeded 42)).1
  = py.Ok (-7322 # 100)%Q.
Proof. vm_compute. reflexivity. Qed.

(** C8.  The code leaves bounds that are finer than the rounding unit.
    [choose_random_amount(0.001, 0.004)], with the default two decimal
    places and sign 1, from every state of every generator: the call
    draws a value s between 0.001 and 0.004 with [random.uniform], leaves
    the generator where the draw left it, and returns [round(s, 2)], which
    is 0, below the lower bound 0.001.  The docstring of the function
    promises a result within the provided bounds, and so does the
    claim. *)
Theorem amount_rounds_out_of_fine_bounds {G : Type} `{src : !random.Source G}
    (g : G) :
  ∃ s v g',
    random.uniform (1 # 1000) (4 # 1000) g = (py.Ok s, g')
    ∧ (1 # 1000 <= s)%Q ∧ (s <= 4 # 1000)%Q
    ∧ utils_amount.choose_random_amount (1 # 1000) (4 # 1000) None 1 g
      = (py.Ok v, g')
    ∧ v = py.round (inject_Z 1 * s) 2
    ∧ (v == 0)%Q
    ∧ (v < 1 # 1000)%Q.
Proof.
  assert (∃ s g',
    random.uniform (1 # 1000) (4 # 1000) g = (py.Ok s, g')
    ∧ (1 # 1000 <= s)%Q ∧ (s <= 4 # 1000)%Q
    ∧ utils_amount.choose_random_amount (1 # 1000) (4 # 1000) None 1 g
      = (py.Ok (py.round (inject_Z 1 * s) 2), g'))
    as (s & g' & Hdraw & Hs1 & Hs2 & Hrun).
  { apply (choose_random_amount_run (1 # 1000) (4 # 1000) None 1 g). done. }
  exists s, (py.round (inject_Z 1 * s) 2), g'.
  split; [done|]. split; [done|]. split; [done|]. split; [done|].
  split; [done|].
  assert (py.round (inject_Z 1 * s) 2 == 0)%Q as Hzero.
  { assert (0 ≤ 2)%Z as Hd by lia.
    pose proof (round_scaled (inject_Z 1 * s) 2 Hd) as Hr.
    set (q := (inject_Z 1 * s * inject_Z (10 ^ 2))%Q) in *.
    assert (1 # 10 <= q)%Q as Hq1
      by (subst q; change (inject_Z (10 ^ 2)) with (100 # 1)%Q;
          unfold inject_Z; lra).
    assert (q <= 4 # 10)%Q as Hq2
      by (subst q; change (inject_Z (10 ^ 2)) with (100 # 1)%Q;
          unfold inject_Z; lra).
    clearbody q.
    assert (Qfloor q = 0%Z) as Hfloor.
    { pose proof (Qfloor_le q) as Hfl. pose proof (Qlt_floor q) as Hlt.
      assert (inject_Z (Qfloor q) < inject_Z 1)%Q as Hup
        by (clear -Hfl Hq2; unfold inject_Z at 2; lra).
      assert (inject_Z 0 <= q)%Q as Hlo
        by (clear -Hq1; unfold inject_Z; lra).
      apply Qfloor_resp_le in Hlo. rewrite Qfloor_Z in Hlo.
      rewrite <- Zlt_Qlt in Hup. lia. }
    assert (py.round_half_even q = 0%Z) as Hhe.
    { unfold py.round_half_even. rewrite Hfloor.
      destruct (Qcompare_spec (q - inject_Z 0) (1 # 2)) as [He|Hl|Hg];
        [unfold inject_Z in He; lra|done|unfold inject_Z in Hg; lra]. }
    rewrite Hhe in Hr. change (inject_Z (10 ^ 2)) with (100 # 1)%Q in Hr.
    change (inject_Z 0) with (0 # 1)%Q in Hr.
    generalize dependent (py.round (inject_Z 1 * s) 2). intros v _ Hv. lra. }
  split; [exact Hzero|]. rewrite Hzero. reflexivity.
Qed.

(** ** The synthetic dataset *)

Section dataset.
Context {G : Type} `{src : !random.Source G}.

Lemma always_synthesize_rows_for_category (c : string) (n : Z) entry :
  settings.vocab settings.SETTINGS !! c = Some entry →
  settings.merchants entry ≠ [] → settings.desc entry ≠ [] →
  always (ml_data.synthesize_rows_for_category c n
            (settings.vocab settings.SETTINGS))
    (λ rows, length rows = Z.to_nat n ∧ Forall (generated_row c entry) rows).
Proof.
  intros Hc Hm Hd. unfold ml_data.synthesize_rows_for_category.
  rewrite Hc.
  eapply (always_bind _ _ (λ e, e = entry)); [by eapply always_lift|].
  intros ? ->. apply always_repeatM.
  eapply always_bind; [by apply always_choice|]. intros m Hmin.
  eapply always_bind; [by apply always_choice|]. intros d Hdin.
  eapply always_bind; [apply always_rand_time|].
  intros s (? & ? & _ & _ & _ & _ & Hread).
  eapply always_bind; [apply always_rand_amount|]. intros v [Hv _].
  apply always_ret. unfold generated_row. cbn. rewrite Hread.
  by repeat split.
Qed.

Lemma always_synthesize_dataset (default_samples_per_category : Z)
    (per_category_overrides : option (gmap string Z)) (seed : option Z) :
  always (ml_data.synthesize_dataset default_samples_per_category
            per_category_overrides seed)
    (λ rows, ∃ blocks edge,
       rows = concat blocks ++ edge
       ∧ Forall2 (λ c block,
           length block
             = Z.to_nat (default default_samples_per_category
                           (default ∅ per_category_overrides !! c))
           ∧ ∃ entry, settings.vocab settings.SETTINGS !! c = Some entry
                    ∧ Forall (generated_row c entry) block)
           (settings.categories settings.SETTINGS) blocks
       ∧ edge_rows edge).
Proof.
  unfold ml_data.synthesize_dataset.
  eapply (always_bind _ _ (λ _, True)).
  { destruct seed as [s|]; [|by apply always_ret].
    intros g. by exists tt, (random.seeded s). }
  intros _ _. eapply always_bind.
  { apply (always_forM _ _ (λ c block,
      length block
        = Z.to_nat (default default_samples_per_category
                      (default ∅ per_category_overrides !! c))
      ∧ ∃ entry, settings.vocab settings.SETTINGS !! c = Some entry
               ∧ Forall (generated_row c entry) block)).
    intros c Hc.
    pose proof vocab_covers_categories as Hvocab.
    rewrite Forall_forall in Hvocab.
    destruct (Hvocab c Hc) as (entry & Hentry & Hm & Hd).
    eapply always_mono.
    - by apply (always_synthesize_rows_for_category c _ entry).
    - intros block [Hlen Hrows]. split; [exact Hlen|]. by exists entry. }
  intros blocks Hblocks.
  eapply always_bind; [apply always_rand_time|].
  intros d1 (? & ? & _ & _ & _ & _ & H1).
  eapply always_bind; [apply always_rand_time|].
  intros d2 (? & ? & _ & _ & _ & _ & H2).
  eapply always_bind; [apply always_rand_time|].
  intros d3 (? & ? & _ & _ & _ & _ & H3).
  eapply always_bind; [apply always_rand_time|].
  intros d4 (? & ? & _ & _ & _ & _ & H4).
  apply always_ret. eexists blocks, _. split; [reflexivity|].
  split; [exact Hblocks|].
  apply mk_is_Some in H1, H2, H3, H4.
  unfold edge_rows. cbn. repeat split. by repeat constructor.
Qed.

End dataset.

(** C6.  From every generator state, for every count, overrides and
    seed, [synthesize_dataset] returns, and every record it returns, in
    the per-category blocks (one block per category, in catalog order,
    each row labelled with its category) and among the four appended
    hand-written rows, carries a label that is a member of
    SETTINGS.categories. *)
Theorem synthesized_labels_in_catalog {G : Type} `{src : !random.Source G}
    (default_samples_per_category : Z)
    (per_category_overrides : option (gmap string Z)) (seed : option Z)
    (g : G) :
  ∃ rows blocks edge g',
    ml_data.synthesize_dataset default_samples_per_category
      per_category_overrides seed g = (py.Ok rows, g')
    ∧ rows = concat blocks ++ edge
    ∧ Forall2 (λ c block, Forall (λ r, ml_data.label r = c) block)
        (settings.categories settings.SETTINGS) blocks
    ∧ ml_data.label <$> edge = ["Income"; "Entertainment"; "Transport"; "Other"]
    ∧ Forall (λ r, ml_data.label r ∈ settings.categories settings.SETTINGS)
        rows.
Proof.
  destruct (always_synthesize_dataset default_samples_per_category
              per_category_overrides seed g)
    as (rows & g' & Hrun & blocks & edge & -> & Hblocks & Hedge).
  exists (concat blocks ++ edge), blocks, edge, g'.
  assert (Forall2 (λ c block, Forall (λ r, ml_data.label r = c) block)
            (settings.categories settings.SETTINGS) blocks) as Hlabels.
  { eapply Forall2_impl; [exact Hblocks|].
    intros c block (_ & entry & _ & Hrows).
    eapply Forall_impl; [exact Hrows|]. by intros r [Hr _]. }
  destruct Hedge as (Hel & _).
  split; [done|]. split; [done|]. split; [done|]. split; [done|].
  apply Forall_app. split.
  - clear Hblocks Hrun.
    induction Hlabels as [|c block cs blocks Hb _ IH]; [constructor|].
    cbn [concat]. apply Forall_app. split.
    + eapply Forall_impl; [exact Hb|]. intros r ->. left.
    + eapply Forall_impl; [exact IH|]. intros r Hr. by right.
  - apply (Forall_fmap ml_data.label
             (λ l, l ∈ settings.categories settings.SETTINGS)).
    rewrite Hel. repeat constructor.
Qed.

(** C5.  With a seed given, [synthesize_dataset] first seeds the
    generator, so its outcome does not depend on the state it starts
    from: two invocations with the same seed, count and overrides, run
    from any two states (in particular one after the other), return the
    same rows, merchants, descriptions, amounts, timestamps and labels in
    the same order, and leave the generator in the same state. *)
Theorem synthesize_dataset_deterministic {G : Type} `{src : !random.Source G}
    (default_samples_per_category : Z)
    (per_category_overrides : option (gmap string Z)) (seed : Z)
    (g1 g2 : G) :
  ml_data.synthesize_dataset default_samples_per_category
    per_category_overrides (Some seed) g1
  = ml_data.synthesize_dataset default_samples_per_category
      per_category_overrides (Some seed) g2
  ∧ ∃ rows g',
      ml_data.synthesize_dataset default_samples_per_category
        per_category_overrides (Some seed) g1 = (py.Ok rows, g')
      ∧ (first ← ml_data.synthesize_dataset default_samples_per_category
                   per_category_overrides (Some seed);
         second ← ml_data.synthesize_dataset default_samples_per_category
                    per_category_overrides (Some seed);
         mret (first, second)) g1
        = (py.Ok (rows, rows), g').
Proof.
  assert (∀ g g0 : G,
    ml_data.synthesize_dataset default_samples_per_category
      per_category_overrides (Some seed) g
    = ml_data.synthesize_dataset default_samples_per_category
        per_category_overrides (Some seed) g0) as Hsame.
  { intros g g0. reflexivity. }
  split; [apply Hsame|].
  destruct (always_synthesize_dataset default_samples_per_category
              per_category_overrides (Some seed) g1)
    as (rows & g' & Hrun & _).
  exists rows, g'. split; [done|].
  unfold mbind at 1, random.M_bind at 1. rewrite Hrun.
  unfold mbind at 1, random.M_bind at 1. rewrite (Hsame g' g1), Hrun.
  reflexivity.
Qed.

(** Without a seed the outcome follows the state the generator is in. *)
Example synthesize_dataset_unseeded_follows_state :
  (ml_data.synthesize_dataset 1 None None (random.seeded 1)).1
  ≠ (ml_data.synthesize_dataset 1 None None (random.seeded 2)).1.
Proof. vm_compute. discriminate. Qed.

(* ===================================================================== *)
(** * Part IV. Further properties of the code                            *)
(* ===================================================================== *)

(** ** utils/date_and_time.py *)

(** X1.  [use_date_offset] normalizes hours into days: adding [24 * k]
    more hours is adding [k] more days, for every start, offsets and [k],
    the overflow case included. *)
Theorem use_date_offset_hours_carry (start_datetime : datetime.t)
    (days_offset hours_offset k : Z) :
  utils_date_and_time.use_date_offset start_datetime days_offset
    (hours_offset + 24 * k)
  = utils_date_and_time.use_date_offset start_datetime (days_offset + k)
      hours_offset.
Proof.
  unfold utils_date_and_time.use_date_offset, datetime.add_timedelta.
  cbv zeta.
  replace ((datetime.days_from_civil (datetime.year start_datetime)
              (datetime.month start_datetime) (datetime.day start_datetime)
            + days_offset) * 86400
           + (datetime.hour start_datetime + (hours_offset + 24 * k)) * 3600
           + datetime.minute start_datetime * 60
           + datetime.second start_datetime)%Z
    with ((datetime.days_from_civil (datetime.year start_datetime)
              (datetime.month start_datetime) (datetime.day start_datetime)
            + (days_offset + k)) * 86400
           + (datetime.hour start_datetime + hours_offset) * 3600
           + datetime.minute start_datetime * 60
           + datetime.second start_datetime)%Z by lia.
  reflexivity.
Qed.

Section time_edges.
Context {G : Type} `{src : !random.Source G}.

(** X2.  The range form of [choose_random_hour] puts its bounds in order:
    swapping them changes nothing, and when both lie in 0..23 the call
    returns, from every state, an hour between the smaller and the larger
    one. *)
Theorem choose_random_hour_range_normalized (a b : Z) (g : G) :
  utils_date_and_time.choose_random_hour (inr a) (Some b) g
  = utils_date_and_time.choose_random_hour (inr b) (Some a) g
  ∧ ((0 ≤ Z.min a b)%Z → (Z.max a b ≤ 23)%Z →
     ∃ h g',
       utils_date_and_time.choose_random_hour (inr a) (Some b) g
       = (py.Ok h, g')
       ∧ (Z.min a b ≤ h ≤ Z.max a b)%Z).
Proof.
  split.
  - unfold utils_date_and_time.choose_random_hour.
    destruct (Z.ltb_spec b a) as [Hba|Hab], (Z.ltb_spec a b) as [Hab'|Hba'];
      try lia; try reflexivity.
    by replace b with a by lia.
  - intros Hlo Hhi. destruct (Z.le_ge_cases a b) as [Hab|Hba].
    + destruct (always_choose_random_hour_range a b ltac:(lia) Hab
                  ltac:(lia) g) as (h & g' & Hrun & Hh).
      exists h, g'. split; [done|]. cbv beta in Hh. lia.
    + destruct (always_choose_random_hour_range b a ltac:(lia) Hba
                  ltac:(lia) g) as (h & g' & Hrun & Hh).
      exists h, g'. split; [|cbv beta in Hh; lia].
      rewrite <- Hrun. unfold utils_date_and_time.choose_random_hour.
      destruct (Z.ltb_spec b a) as [?|?], (Z.ltb_spec a b) as [?|?];
        try lia; try reflexivity.
      by replace b with a by lia.
Qed.

End time_edges.

Lemma choose_random_hour_range_normalized_witness :
  ∃ h g',
    utils_date_and_time.choose_random_hour (inr 21%Z) (Some 8%Z)
      (random.seeded 42) = (py.Ok h, g')
    ∧ (Z.min 21 8 ≤ h ≤ Z.max 21 8)%Z.
Proof.
  apply (proj2 (choose_random_hour_range_normalized (G:=Z) 21 8
                  (random.seeded 42))); cbn; lia.
Defined.

Section time_edges_2.
Context {G : Type} `{src : !random.Source G}.

Lemma choice_member {A} (seq : list A) (g g' : G) (x : A) :
  random.choice seq g = (py.Ok x, g') → x ∈ seq.
Proof.
  destruct (decide (seq = [])) as [->|Hne]; [done|].
  destruct (always_choice seq Hne g) as (y & g1 & Hrun & Hy).
  rewrite Hrun. by intros [= <- _].
Qed.

(** X3.  The sequence form of [choose_random_hour]: an empty sequence is
    a ValueError raised before the generator is touched; a sequence with
    no hour in 0..23 always ends in the range ValueError; and whatever
    hour the call returns is a member of the sequence and lies in
    0..23. *)
Theorem choose_random_hour_sequence_edges (hours : list Z) (g : G) :
  utils_date_and_time.choose_random_hour (inl []) None g
    = (py.Raise (py.ValueError "hours sequence must not be empty"), g)
  ∧ (hours ≠ [] → Forall (λ h, ¬ (0 ≤ h ≤ 23)%Z) hours →
     ∃ g', utils_date_and_time.choose_random_hour (inl hours) None g
           = (py.Raise (py.ValueError "hour must be within 0..23"), g'))
  ∧ (∀ h g', utils_date_and_time.choose_random_hour (inl hours) None g
             = (py.Ok h, g') → h ∈ hours ∧ (0 ≤ h ≤ 23)%Z).
Proof.
  split; [reflexivity|]. split.
  - intros Hne Hout. unfold utils_date_and_time.choose_random_hour.
    rewrite bool_decide_eq_false_2 by done.
    destruct (always_choice hours Hne g) as (h & g' & Hrun & Hh).
    unfold mbind, random.M_bind. rewrite Hrun.
    rewrite Forall_forall in Hout. specialize (Hout h Hh).
    destruct ((0 <=? h)%Z && (h <=? 23)%Z) eqn:Hr; [|by eexists].
    apply andb_prop in Hr as [?%Z.leb_le ?%Z.leb_le]. lia.
  - intros h g' Hrun. split; [|by eapply choose_random_hour_checked].
    revert Hrun. unfold utils_date_and_time.choose_random_hour.
    destruct (decide (hours = [])) as [->|Hne]; [done|].
    rewrite bool_decide_eq_false_2 by done.
    unfold mbind, random.M_bind.
    destruct (random.choice hours g) as [[x|e] g1] eqn:Hc; [|done].
    apply choice_member in Hc.
    destruct ((0 <=? x)%Z && (x <=? 23)%Z); cbn; [|done].
    by intros [= <- _].
Qed.

(** X4.  [choose_random_day] never raises: from every state it returns an
    offset between the smaller and the larger of its two arguments, and
    the order of the arguments makes no difference. *)
Theorem choose_random_day_in_window (a b : Z) (g : G) :
  utils_date_and_time.choose_random_day a b g
  = utils_date_and_time.choose_random_day b a g
  ∧ ∃ d g',
      utils_date_and_time.choose_random_day a b g = (py.Ok d, g')
      ∧ (Z.min a b ≤ d ≤ Z.max a b)%Z.
Proof.
  assert (utils_date_and_time.choose_random_day a b g
          = utils_date_and_time.choose_random_day b a g) as Hswap.
  { unfold utils_date_and_time.choose_random_day.
    destruct (Z.ltb_spec b a) as [?|?], (Z.ltb_spec a b) as [?|?];
      try lia; try reflexivity.
    by replace b with a by lia. }
  split; [exact Hswap|].
  destruct (Z.le_ge_cases a b) as [Hab|Hba].
  - destruct (always_choose_random_day a b Hab g) as (d & g' & Hrun & Hd).
    exists d, g'. split; [done|]. cbv beta in Hd. lia.
  - destruct (always_choose_random_day b a Hba g) as (d & g' & Hrun & Hd).
    exists d, g'. rewrite Hswap. split; [done|]. cbv beta in Hd. lia.
Qed.

(** The hour [rand_time] picks, with the fallback range made explicit. *)
Lemma always_rand_time_hour_default (category : string) :
  always (utils_date_and_time.rand_time_hour category)
    (λ h, (0 ≤ h ≤ 23)%Z
          ∧ (settings.hour_choices (settings.time settings.SETTINGS)
               !! category = None → (8 ≤ h ≤ 21)%Z)).
Proof.
  unfold utils_date_and_time.rand_time_hour.
  destruct (settings.hour_choices (settings.time settings.SETTINGS)
              !! category) as [hours|] eqn:Hc.
  - destruct (hour_choices_in_range _ _ Hc) as [Hne Hall].
    eapply always_mono; [by apply always_choose_random_hour_seq|].
    intros h [_ Hr]. by split.
  - eapply always_mono.
    + apply (always_choose_random_hour_range 8 21); lia.
    + intros h Hh. cbv beta in Hh. split; [lia|done].
Qed.

(** X5.  Under the configured settings every timestamp [rand_time]
    returns is a whole hour on one of the fourteen days 15 to 28 August
    2025 (base date plus a day offset in 0..13), written in the
    nineteen-character ISO form; for a category without an hour list the
    hour lies in the default range 8..21. *)
Theorem rand_time_in_window (category : string) (g : G) :
  ∃ s g' ts,
    utils_date_and_time.rand_time category g = (py.Ok s, g')
    ∧ s = datetime.isoformat ts
    ∧ String.length s = 19%nat
    ∧ datetime.fromisoformat s = Some ts
    ∧ datetime.year ts = 2025%Z ∧ datetime.month ts = 8%Z
    ∧ (15 ≤ datetime.day ts ≤ 28)%Z
    ∧ datetime.minute ts = 0%Z ∧ datetime.second ts = 0%Z
    ∧ (settings.hour_choices (settings.time settings.SETTINGS)
         !! category = None → (8 ≤ datetime.hour ts ≤ 21)%Z).
Proof.
  assert (always (utils_date_and_time.rand_time category)
    (λ s, ∃ d h, (0 ≤ d ≤ 13)%Z ∧ (0 ≤ h ≤ 23)%Z
       ∧ (settings.hour_choices (settings.time settings.SETTINGS)
            !! category = None → (8 ≤ h ≤ 21)%Z)
       ∧ s = datetime.isoformat (datetime.mk 2025 8 (15 + d) h 0 0)
       ∧ datetime.fromisoformat s
         = Some (datetime.mk 2025 8 (15 + d) h 0 0))) as Hrt.
  { unfold utils_date_and_time.rand_time.
    eapply always_bind; [apply always_rand_time_hour_default|].
    intros h [Hh Hdef].
    eapply always_bind; [apply (always_choose_random_day 0 13); lia|].
    intros d Hd. cbv beta in Hd.
    destruct (use_date_offset_window d h Hd Hh) as [Hoff Hread].
    eapply (always_bind _ _ (λ ts, ts = datetime.mk 2025 8 (15 + d) h 0 0)).
    { eapply always_lift; [exact Hoff|done]. }
    intros ? ->. apply always_ret. by exists d, h. }
  destruct (Hrt g) as (s & g' & Hrun & d & h & Hd & Hh & Hdef & Hs & Hread).
  exists s, g', (datetime.mk 2025 8 (15 + d) h 0 0).
  split; [done|]. split; [done|]. split; [by rewrite Hs|].
  split; [done|]. cbn. repeat split; (done || lia || by apply Hdef).
Qed.

End time_edges_2.

Lemma choose_random_hour_sequence_edges_witness :
  ∃ g', utils_date_and_time.choose_random_hour (inl [24; 30]%Z) None
          (random.seeded 42)
        = (py.Raise (py.ValueError "hour must be within 0..23"), g').
Proof.
  apply (proj1 (proj2 (choose_random_hour_sequence_edges (G:=Z) [24; 30]%Z
                         (random.seeded 42)))).
  - discriminate.
  - repeat constructor; lia.
Defined.

(** ** utils/amount.py *)

Lemma round_half_even_proper (x y : Q) :
  (x == y)%Q → py.round_half_even x = py.round_half_even y.
Proof.
  intros Hxy. unfold py.round_half_even.
  assert (Qfloor x = Qfloor y) as Hf by (by rewrite Hxy).
  rewrite Hf.
  assert ((x - inject_Z (Qfloor y) ?= 1 # 2)%Q
          = (y - inject_Z (Qfloor y) ?= 1 # 2)%Q) as ->
    by (by rewrite Hxy).
  reflexivity.
Qed.

Lemma round_proper (x y : Q) (d : Z) :
  (x == y)%Q → py.round x d = py.round y d.
Proof.
  intros Hxy. unfold py.round. f_equal.
  apply round_half_even_proper. by rewrite Hxy.
Qed.

Section amount_edges.
Context {G : Type} `{src : !random.Source G}.

(** X6.  [choose_random_amount] does not care in which order its two
    bounds are given: with the bounds swapped it returns the same value
    (or raises the same error) and leaves the generator in the same
    state. *)
Theorem choose_random_amount_bounds_swap (lower_bound upper_bound : Q)
    (decimal_places : option Z) (sign : Z) (g : G) :
  utils_amount.choose_random_amount lower_bound upper_bound decimal_places
    sign g
  = utils_amount.choose_random_amount upper_bound lower_bound decimal_places
      sign g.
Proof.
  unfold utils_amount.choose_random_amount. cbv zeta.
  destruct (default _ decimal_places <? 0)%Z; [reflexivity|].
  destruct (Qlt_le_dec upper_bound lower_bound) as [Hul|Hlu],
           (Qlt_le_dec lower_bound upper_bound) as [Hlu'|Hul'];
    try lra; try reflexivity.
  unfold random.uniform, random.random, mbind, random.M_bind, mret,
    random.M_ret.
  destruct (random.next_float g) as [r g']. do 2 f_equal.
  apply round_proper.
  assert (lower_bound == upper_bound)%Q as Heq by lra.
  rewrite Heq. ring.
Qed.

(** The configured specs by polarity. *)
Lemma amount_specs_polarity :
  map_Forall (λ c spec,
      (c = "Income" →
       Qnum (settings.low spec) = 800%Z
       ∧ Qnum (settings.high spec) = 2500%Z
       ∧ settings.sign spec = 1%Z)
      ∧ (c ≠ "Income" →
         (1 ≤ Qnum (settings.low spec))%Z
         ∧ (Qnum (settings.high spec) ≤ 500)%Z
         ∧ settings.sign spec = (-1)%Z))
    (settings.amounts settings.SETTINGS).
Proof. apply (bool_decide_unpack _). vm_compute. exact I. Qed.

(** X7.  Amounts keep the polarity of their category: from every state
    [rand_amount] returns a positive amount in [800, 2500] for "Income"
    and a negative amount in [-500, -1] for every other category; a
    category without an entry of its own, "Other" or any unknown name,
    gets the default spec, an amount in [-80, -1]. *)
Theorem rand_amount_polarity (category : string) (g : G) :
  ∃ v g',
    utils_amount.rand_amount category None g = (py.Ok v, g')
    ∧ (category = "Income" → (800 <= v)%Q ∧ (v <= 2500)%Q)
    ∧ (category ≠ "Income" → (- (500) <= v)%Q ∧ (v <= - (1))%Q)
    ∧ (settings.amounts settings.SETTINGS !! category = None →
       (- (80) <= v)%Q ∧ (v <= - (1))%Q).
Proof.
  destruct (always_rand_amount category g) as (v & g' & Hrun & _ & Hpos & Hneg).
  exists v, g'. split; [done|].
  destruct (get_amount_spec_wf category) as (Hl & Hh & _ & _).
  revert Hpos Hneg Hl Hh. unfold utils_amount.get_amount_spec.
  destruct (settings.amounts settings.SETTINGS !! category) as [spec|] eqn:Hc.
  - cbn [default from_option id]. intros Hpos Hneg Hl Hh.
    pose proof (amount_specs_polarity _ _ Hc) as [Hinc Hexp].
    assert (settings.low spec == inject_Z (Qnum (settings.low spec)))%Q as Hlo.
    { destruct (settings.low spec) as [n p]. cbn in *. by subst p. }
    assert (settings.high spec == inject_Z (Qnum (settings.high spec)))%Q
      as Hhi.
    { destruct (settings.high spec) as [n p]. cbn in *. by subst p. }
    destruct (decide (category = "Income")) as [->|Hne].
    + destruct (Hinc eq_refl) as (Hn1 & Hn2 & Hs).
      destruct (Hpos Hs) as [H1 H2].
      rewrite Hlo, Hn1 in H1. rewrite Hhi, Hn2 in H2.
      split; [intros _; split; [exact H1|exact H2]|]. split; [done|done].
    + destruct (Hexp Hne) as (Hn1 & Hn2 & Hs).
      destruct (Hneg Hs) as [H1 H2].
      rewrite Hhi in H1. rewrite Hlo in H2.
      rewrite Zle_Qle in Hn1, Hn2. unfold inject_Z in *.
      split; [done|]. split; [intros _; split; lra|done].
  - cbn. intros _ Hneg _ _. destruct (Hneg eq_refl) as [H1 H2].
    split; [intros ->; vm_compute in Hc; discriminate|].
    split; [intros _; split; lra|intros _; split; lra].
Qed.

End amount_edges.

(** ** ml/data.py *)

Section data_edges.
Context {G : Type} `{src : !random.Source G}.

Lemma choice_empty {A} (g : G) :
  random.choice (@nil A) g = (py.Raise py.IndexError, g).
Proof. reflexivity. Qed.

Lemma bind_run {A B} (m : random.M G A) (f : A → random.M G B) g a g' :
  m g = (py.Ok a, g') → (m ≫= f) g = f a g'.
Proof. intros Hm. unfold mbind, random.M_bind. by rewrite Hm. Qed.

Lemma bind_fail {A B} (m : random.M G A) (f : A → random.M G B) g e g' :
  m g = (py.Raise e, g') → (m ≫= f) g = (py.Raise e, g').
Proof. intros Hm. unfold mbind, random.M_bind. by rewrite Hm. Qed.

Lemma always_rand_amount_total (category : string) :
  always (utils_amount.rand_amount category None) (λ _, True).
Proof.
  eapply always_mono; [apply always_rand_amount|done].
Qed.

(** X8.  [synthesize_rows_for_category] at its edges, for any vocabulary:
    a category the vocabulary lacks is a KeyError and a non-positive
    count gives no rows, both without touching the generator; with a
    positive count an empty merchant list is an IndexError before any
    draw and an empty description list an IndexError after the first
    draw. *)
Theorem synthesize_rows_for_category_edges (category : string)
    (rows_count : Z) (vocab : gmap string settings.VocabEntry) (g : G) :
  (vocab !! category = None →
   ml_data.synthesize_rows_for_category category rows_count vocab g
   = (py.Raise (py.KeyError category), g))
  ∧ ∀ entry, vocab !! category = Some entry →
      ((rows_count ≤ 0)%Z →
       ml_data.synthesize_rows_for_category category rows_count vocab g
       = (py.Ok [], g))
      ∧ ((0 < rows_count)%Z → settings.merchants entry = [] →
         ml_data.synthesize_rows_for_category category rows_count vocab g
         = (py.Raise py.IndexError, g))
      ∧ ((0 < rows_count)%Z → settings.merchants entry ≠ [] →
         settings.desc entry = [] →
         ∃ g', ml_data.synthesize_rows_for_category category rows_count
                 vocab g = (py.Raise py.IndexError, g')).
Proof.
  unfold ml_data.synthesize_rows_for_category. split.
  - by intros ->.
  - intros entry ->.
    rewrite (bind_run _ _ g entry g) by reflexivity.
    split; [|split].
    + intros Hn. by replace (Z.to_nat rows_count) with 0%nat by lia.
    + intros Hn Hm. destruct (Z.to_nat rows_count) as [|n] eqn:Hk; [lia|].
      cbn [random.repeatM]. rewrite Hm.
      apply bind_fail, bind_fail, choice_empty.
    + intros Hn Hm Hd. destruct (Z.to_nat rows_count) as [|n] eqn:Hk; [lia|].
      cbn [random.repeatM]. rewrite Hd.
      destruct (always_choice _ Hm g) as (m & g' & Hrun & _).
      exists g'. apply bind_fail. rewrite (bind_run _ _ g m g' Hrun).
      apply bind_fail, choice_empty.
Qed.

Lemma always_rows_for_category (category : string) (rows_count : Z)
    (vocab : gmap string settings.VocabEntry) entry :
  vocab !! category = Some entry →
  settings.merchants entry ≠ [] → settings.desc entry ≠ [] →
  always (ml_data.synthesize_rows_for_category category rows_count vocab)
    (λ rows, length rows = Z.to_nat rows_count
             ∧ Forall (generated_row category entry) rows).
Proof.
  intros Hc Hm Hd. unfold ml_data.synthesize_rows_for_category.
  rewrite Hc.
  eapply (always_bind _ _ (λ e, e = entry)); [by eapply always_lift|].
  intros ? ->. apply always_repeatM.
  eapply always_bind; [by apply always_choice|]. intros m Hmin.
  eapply always_bind; [by apply always_choice|]. intros d Hdin.
  eapply always_bind; [apply always_rand_time|].
  intros s (? & ? & _ & _ & _ & _ & Hread).
  eapply always_bind; [apply always_rand_amount|]. intros v [Hv _].
  apply always_ret. unfold generated_row. cbn. rewrite Hread.
  by repeat split.
Qed.

(** X9.  For any vocabulary that has the category with non-empty merchant
    and description lists, [synthesize_rows_for_category] returns from
    every state exactly [max(rows_count, 0)] rows; each row is labelled
    with the category, takes its merchant and its description from the
    category's lists, and carries a readable timestamp and an amount of
    two decimals. *)
Theorem synthesize_rows_for_category_rows (category : string)
    (rows_count : Z) (vocab : gmap string settings.VocabEntry)
    (entry : settings.VocabEntry) (g : G) :
  vocab !! category = Some entry →
  settings.merchants entry ≠ [] → settings.desc entry ≠ [] →
  ∃ rows g',
    ml_data.synthesize_rows_for_category category rows_count vocab g
      = (py.Ok rows, g')
    ∧ Z.of_nat (length rows) = Z.max rows_count 0
    ∧ Forall (λ r,
          ml_data.label r = category
          ∧ ml_data.merchant r ∈ settings.merchants entry
          ∧ ml_data.description r ∈ settings.desc entry
          ∧ is_Some (datetime.fromisoformat (ml_data.date r))
          ∧ aligned (ml_data.amount r) 2) rows.
Proof.
  intros Hc Hm Hd.
  destruct (always_rows_for_category category rows_count vocab entry
              Hc Hm Hd g) as (rows & g' & Hrun & Hlen & Hrows).
  exists rows, g'. split; [done|]. split; [lia|done].
Qed.

End data_edges.

Lemma synthesize_rows_for_category_rows_witness :
  ∃ rows g',
    ml_data.synthesize_rows_for_category "Groceries" 3
      {[ "Groceries" := settings.mkVocabEntry ["Tesco"] ["groceries"] ]}
      (random.seeded 42) = (py.Ok rows, g')
    ∧ Z.of_nat (length rows) = Z.max 3 0
    ∧ Forall (λ r,
          ml_data.label r = "Groceries"
          ∧ ml_data.merchant r ∈ ["Tesco"]
          ∧ ml_data.description r ∈ ["groceries"]
          ∧ is_Some (datetime.fromisoformat (ml_data.date r))
          ∧ aligned (ml_data.amount r) 2) rows.
Proof.
  apply (synthesize_rows_for_category_rows (G:=Z) "Groceries" 3
           {[ "Groceries" := settings.mkVocabEntry ["Tesco"] ["groceries"] ]}
           (settings.mkVocabEntry ["Tesco"] ["groceries"])
           (random.seeded 42)).
  - reflexivity.
  - discriminate.
  - discriminate.
Defined.

Lemma synthesize_rows_for_category_edges_witness :
  ml_data.synthesize_rows_for_category "Travel" 5
    (settings.vocab settings.SETTINGS) (random.seeded 42)
  = (py.Raise (py.KeyError "Travel"), random.seeded 42).
Proof.
  apply (proj1 (synthesize_rows_for_category_edges (G:=Z) "Travel" 5
                  (settings.vocab settings.SETTINGS) (random.seeded 42))).
  reflexivity.
Defined.

Lemma block_labels (sz : string → nat) (cs : list string)
    (blocks : list (list ml_data.Row)) :
  Forall2 (λ c block, length block = sz c
                      ∧ Forall (λ r, ml_data.label r = c) block) cs blocks →
  ml_data.label <$> concat blocks = concat ((λ c, replicate (sz c) c) <$> cs).
Proof.
  induction 1 as [|c block cs blocks [Hlen Hlab] _ IH]; [done|].
  cbn [concat fmap list_fmap]. rewrite fmap_app. f_equal; [|exact IH].
  rewrite <- Hlen. clear Hlen.
  induction Hlab as [|r block Hr _ IHb]; [done|].
  cbn. by rewrite Hr, IHb.
Qed.

Lemma length_block_labels (sz : string → nat) (cs : list string) :
  length (concat ((λ c, replicate (sz c) c) <$> cs)) = sum_list (sz <$> cs).
Proof.
  induction cs as [|c cs IH]; [done|].
  cbn. by rewrite length_app, length_replicate, IH.
Qed.

Section dataset_layout.
Context {G : Type} `{src : !random.Source G}.

(** X10.  The dataset is laid out in catalog order: for every category of
    SETTINGS.categories in turn, [max(overrides.get(c, default), 0)] rows
    labelled with it, then the four hand-written rows with their fixed
    merchants, descriptions and amounts.  Its size is the sum of these
    block sizes plus four. *)
Theorem synthesize_dataset_layout (default_samples_per_category : Z)
    (per_category_overrides : option (gmap string Z)) (seed : option Z)
    (g : G) :
  let size := block_size default_samples_per_category
                per_category_overrides in
  ∃ rows g',
    ml_data.synthesize_dataset default_samples_per_category
      per_category_overrides seed g = (py.Ok rows, g')
    ∧ ml_data.label <$> rows
      = concat ((λ c, replicate (size c) c)
                  <$> settings.categories settings.SETTINGS)
        ++ ["Income"; "Entertainment"; "Transport"; "Other"]
    ∧ length rows
      = (sum_list (size <$> settings.categories settings.SETTINGS) + 4)%nat
    ∧ edge_rows (drop (length rows - 4) rows).
Proof.
  intros size.
  destruct (always_synthesize_dataset default_samples_per_category
              per_category_overrides seed g)
    as (rows & g' & Hrun & blocks & edge & -> & Hblocks & Hedge).
  exists (concat blocks ++ edge), g'. split; [done|].
  assert (ml_data.label <$> concat blocks
          = concat ((λ c, replicate (size c) c)
                      <$> settings.categories settings.SETTINGS)) as Hlab.
  { apply block_labels. eapply Forall2_impl; [exact Hblocks|].
    intros c block (Hlen & entry & _ & Hrows). split; [exact Hlen|].
    eapply Forall_impl; [exact Hrows|]. by intros r [Hr _]. }
  assert (length edge = 4%nat) as Hlen4.
  { destruct Hedge as [He _]. apply (f_equal length) in He.
    by rewrite length_fmap in He. }
  assert (length (concat blocks)
          = sum_list (size <$> settings.categories settings.SETTINGS)) as Hlen.
  { rewrite <- length_block_labels, <- Hlab. by rewrite length_fmap. }
  split; [|split].
  - rewrite fmap_app, Hlab. f_equal. apply Hedge.
  - rewrite length_app. lia.
  - rewrite length_app, Hlen4.
    replace (length (concat blocks) + 4 - 4)%nat
      with (length (concat blocks)) by lia.
    by rewrite drop_app_length.
Qed.

Lemma forM_ext {A B} (xs : list A) (f f' : A → random.M G B) :
  (∀ x, x ∈ xs → f x = f' x) → random.forM xs f = random.forM xs f'.
Proof.
  induction xs as [|x xs IH]; intros Hf; [done|].
  cbn [random.forM]. rewrite (Hf x) by left.
  rewrite IH; [done|]. intros y Hy. apply Hf. by right.
Qed.

(** X11.  Only overrides for catalog categories count: an override for a
    name outside SETTINGS.categories changes neither the dataset nor the
    final generator state, and no overrides at all is the same as an
    empty dict of them. *)
Theorem synthesize_dataset_ignores_foreign_overrides
    (default_samples_per_category : Z) (overrides : gmap string Z)
    (name : string) (count : Z) (seed : option Z) (g : G) :
  name ∉ settings.categories settings.SETTINGS →
  ml_data.synthesize_dataset default_samples_per_category
    (Some (<[name := count]> overrides)) seed g
  = ml_data.synthesize_dataset default_samples_per_category
      (Some overrides) seed g
  ∧ ml_data.synthesize_dataset default_samples_per_category None seed g
    = ml_data.synthesize_dataset default_samples_per_category (Some ∅) seed g.
Proof.
  intros Hname. split; [|reflexivity].
  unfold ml_data.synthesize_dataset. cbn [default from_option id].
  rewrite (forM_ext (settings.categories settings.SETTINGS) _
    (λ category,
       ml_data.synthesize_rows_for_category category
         (default default_samples_per_category (overrides !! category))
         (settings.vocab settings.SETTINGS))); [done|].
  intros c Hc. rewrite lookup_insert_ne; [done|]. by intros ->.
Qed.

End dataset_layout.

Lemma synthesize_dataset_ignores_foreign_overrides_witness :
  ml_data.synthesize_dataset 2 (Some (<["Travel" := 9%Z]> {[ "Other" := 1%Z ]}))
    (Some 42%Z) (random.seeded 7)
  = ml_data.synthesize_dataset 2 (Some {[ "Other" := 1%Z ]}) (Some 42%Z)
      (random.seeded 7)
  ∧ ml_data.synthesize_dataset 2 None (Some 42%Z) (random.seeded 7)
    = ml_data.synthesize_dataset 2 (Some ∅) (Some 42%Z) (random.seeded 7).
Proof.
  apply (synthesize_dataset_ignores_foreign_overrides (G:=Z) 2
           {[ "Other" := 1%Z ]} "Travel" 9 (Some 42%Z) (random.seeded 7)).
  apply (bool_decide_unpack _). vm_compute. exact I.
Defined.

Section dataset_features.
Context {G : Type} `{src : !random.Source G} `{casing : !py.Casing}.

Lemma always_rand_time_timed (category : string) :
  always (utils_date_and_time.rand_time category)
    (λ s, ∀ r, ml_data.date r = s → ml_data.label r = category →
               timed_row r).
Proof.
  unfold utils_date_and_time.rand_time.
  eapply (always_bind _ _ (λ h,
    (0 ≤ h ≤ 23)%Z
    ∧ (∀ hours,
         settings.hour_choices (settings.time settings.SETTINGS) !! category
           = Some hours → h ∈ hours)
    ∧ (settings.hour_choices (settings.time settings.SETTINGS) !! category
         = None → (8 ≤ h ≤ 21)%Z))).
  { intros g.
    destruct (always_rand_time_hour category g) as (h & g' & Hrun & Hh & Hl).
    destruct (always_rand_time_hour_default category g)
      as (h' & g'' & Hrun' & _ & Hd).
    rewrite Hrun in Hrun'. injection Hrun' as <- <-.
    by exists h, g'. }
  intros h (Hh & Hlist & Hdef).
  eapply always_bind; [apply (always_choose_random_day 0 13); lia|].
  intros d Hd. cbv beta in Hd.
  destruct (use_date_offset_window d h Hd Hh) as [Hoff Hread].
  eapply (always_bind _ _ (λ ts, ts = datetime.mk 2025 8 (15 + d) h 0 0)).
  { eapply always_lift; [exact Hoff|done]. }
  intros ? ->. apply always_ret. intros r Hdate Hlabel.
  exists d, h. rewrite Hlabel, Hdate.
  split; [exact Hd|]. split; [exact Hh|]. split; [exact Hlist|].
  split; [exact Hdef|]. split; [exact Hread|reflexivity].
Qed.

Lemma always_synthesize_dataset_timed (default_samples_per_category : Z)
    (per_category_overrides : option (gmap string Z)) (seed : option Z) :
  always (ml_data.synthesize_dataset default_samples_per_category
            per_category_overrides seed)
    (Forall timed_row).
Proof.
  unfold ml_data.synthesize_dataset.
  eapply (always_bind _ _ (λ _, True)).
  { destruct seed as [s|]; [|by apply always_ret].
    intros g. by exists tt, (random.seeded s). }
  intros _ _. eapply always_bind.
  { apply (always_forM _ _ (λ c block, Forall timed_row block)).
    intros c Hc.
    pose proof vocab_covers_categories as Hvocab.
    rewrite Forall_forall in Hvocab.
    destruct (Hvocab c Hc) as (entry & Hentry & Hm & Hd).
    unfold ml_data.synthesize_rows_for_category. rewrite Hentry.
    eapply (always_bind _ _ (λ e, e = entry)); [by eapply always_lift|].
    intros ? ->. eapply always_mono.
    - apply (always_repeatM _ _ timed_row).
      eapply always_bind; [by apply always_choice|]. intros m _.
      eapply always_bind; [by apply always_choice|]. intros d _.
      eapply always_bind; [apply always_rand_time_timed|]. intros s Hs.
      eapply always_bind; [apply always_rand_amount_total|]. intros v _.
      apply always_ret. by apply Hs.
    - by intros rows [_ Hrows]. }
  intros blocks Hblocks.
  eapply always_bind; [apply always_rand_time_timed|]. intros d1 H1.
  eapply always_bind; [apply always_rand_time_timed|]. intros d2 H2.
  eapply always_bind; [apply always_rand_time_timed|]. intros d3 H3.
  eapply always_bind; [apply always_rand_time_timed|]. intros d4 H4.
  apply always_ret. apply Forall_app. split.
  - clear -Hblocks. induction Hblocks as [|c block cs blocks Hb _ IH];
      [constructor|].
    cbn [concat]. apply Forall_app. by split.
  - repeat constructor; [by apply H1|by apply H2|by apply H3|by apply H4].
Qed.

(** X12.  Generator and training features fit together: for every count,
    overrides, seed and state, the feature step of train.py reads the
    whole synthesized dataset without raising and returns one feature
    record per row, in order and without NaN, with the labels beside them;
    each record's
    texts are the lowercased texts of its row, its amount is the row's,
    its hour lies in 0..23 and fits the time settings of the row's label
    (a listed hour, or 8..21 without a list), and its day of week is in
    0..6 with the weekend flag set exactly on 5 and 6. *)
Theorem synthesized_dataset_features (default_samples_per_category : Z)
    (per_category_overrides : option (gmap string Z)) (seed : option Z)
    (g : G) :
  ∃ rows g' X,
    ml_data.synthesize_dataset default_samples_per_category
      per_category_overrides seed g = (py.Ok rows, g')
    ∧ train.features (parser:=pandas.iso_parser) (ml_features.of_row <$> rows)
      = py.Ok (row_of_record <$> X, ml_data.label <$> rows)
    ∧ Forall2 (λ r x,
          ml_model.combined_text x
            = py.lower (ml_data.merchant r +:+ " " +:+ ml_data.description r)
          ∧ ml_model.merchant_text x = py.lower (ml_data.merchant r)
          ∧ ml_model.amount x = ml_data.amount r
          ∧ (0 ≤ ml_model.hour x ≤ 23)%Z
          ∧ (∀ hours,
               settings.hour_choices (settings.time settings.SETTINGS)
                 !! ml_data.label r = Some hours → ml_model.hour x ∈ hours)
          ∧ (settings.hour_choices (settings.time settings.SETTINGS)
               !! ml_data.label r = None → (8 ≤ ml_model.hour x ≤ 21)%Z)
          ∧ (0 ≤ ml_model.day_of_week x ≤ 6)%Z
          ∧ ml_model.is_weekend x
            = (if (5 <=? ml_model.day_of_week x)%Z then 1 else 0)%Z)
        rows X.
Proof.
  destruct (always_synthesize_dataset_timed default_samples_per_category
              per_category_overrides seed g) as (rows & g' & Hrun & Htimed).
  assert (∃ tss, Forall2 (λ r ts,
            (datetime.fromisoformat (ml_data.date r) = Some ts
             ∧ pandas.separator (ml_data.date r) = Some "T"%char)
            ∧ (0 ≤ datetime.hour ts ≤ 23)%Z
            ∧ (∀ hours,
                 settings.hour_choices (settings.time settings.SETTINGS)
                   !! ml_data.label r = Some hours → datetime.hour ts ∈ hours)
            ∧ (settings.hour_choices (settings.time settings.SETTINGS)
                 !! ml_data.label r = None → (8 ≤ datetime.hour ts ≤ 21)%Z))
            rows tss) as [tss Htss].
  { clear Hrun. induction Htimed as [|r rows Hr _ [tss IH]].
    - exists []. constructor.
    - destruct Hr as (d & h & _ & Hh & Hl & Hd & Hread & Hsep).
      exists (datetime.mk 2025 8 (15 + d) h 0 0 :: tss).
      constructor; [|exact IH].
      split; [by split|]. split; [exact Hh|]. split; [exact Hl|exact Hd]. }
  exists rows, g', (zip_with record_of rows tss).
  split; [done|]. split.
  - apply (train_features_readable (parser:=pandas.iso_parser)).
    apply iso_series_isoformat, Forall2_fmap_l.
    eapply Forall2_impl; [exact Htss|]. by intros r ts [Hr _].
  - clear Hrun Htimed.
    induction Htss as [|r ts rows tss (Hr & Hh & Hl & Hd) _ IH];
      [constructor|].
    cbn [zip_with]. constructor; [|exact IH].
    unfold record_of. cbn.
    split; [done|]. split; [done|]. split; [done|]. split; [done|].
    split; [done|]. split; [done|]. split; [|done].
    unfold datetime.dayofweek.
    pose proof (Z.mod_pos_bound
      (datetime.days_from_civil (datetime.year ts) (datetime.month ts)
         (datetime.day ts) + 3) 7). lia.
Qed.

End dataset_features.

(** ** ml/features.py and the feature helpers of the serving modules *)

Lemma lower_ascii_idemp (c : ascii) :
  py.lower_ascii (py.lower_ascii c) = py.lower_ascii c.
Proof. destruct c as [[] [] [] [] [] [] [] []]; reflexivity. Qed.

Lemma lower_ascii_text_idemp (s : string) :
  py.lower_ascii_text (py.lower_ascii_text s) = py.lower_ascii_text s.
Proof.
  induction s as [|c s IH]; [done|].
  cbn. by rewrite lower_ascii_idemp, IH.
Qed.

Lemma lower_ascii_text_app (s t : string) :
  py.lower_ascii_text (s +:+ t)
  = py.lower_ascii_text s +:+ py.lower_ascii_text t.
Proof.
  induction s as [|c s IH]; [done|].
  change (py.lower_ascii_text (String c (s +:+ t))
          = String (py.lower_ascii c)
              (py.lower_ascii_text s +:+ py.lower_ascii_text t)).
  cbn [py.lower_ascii_text]. by rewrite IH.
Qed.

Lemma is_ascii_app (s t : string) :
  py.is_ascii (s +:+ t) = py.is_ascii s && py.is_ascii t.
Proof.
  unfold py.is_ascii. induction s as [|c s IH]; [done|].
  change (list_ascii_of_string (String c s +:+ t))
    with (c :: list_ascii_of_string (s +:+ t)).
  cbn [list_ascii_of_string forallb]. by rewrite IH, andb_assoc.
Qed.

Lemma is_ascii_lower (s : string) :
  py.is_ascii s = true → py.is_ascii (py.lower_ascii_text s) = true.
Proof.
  unfold py.is_ascii. induction s as [|c s IH]; [done|].
  cbn [list_ascii_of_string py.lower_ascii_text forallb].
  intros [Hc Hs]%andb_prop. rewrite (IH Hs), andb_true_r. clear IH Hs.
  destruct c as [[] [] [] [] [] [] [] []]; done.
Qed.

Section text.
Context `{casing : !py.Casing}.

(** On ASCII text the space-joined pair is lowered part by part, and
    lowering a second time changes nothing. *)
Lemma lower_joined (m d : string) :
  py.is_ascii m = true → py.is_ascii d = true →
  py.lower (m +:+ " " +:+ d) = py.lower m +:+ " " +:+ py.lower d
  ∧ py.lower (py.lower m) = py.lower m
  ∧ py.lower (py.lower m +:+ " " +:+ py.lower d)
    = py.lower (m +:+ " " +:+ d).
Proof.
  intros Hm Hd.
  assert (py.is_ascii (m +:+ " " +:+ d) = true) as Hmd.
  { by rewrite !is_ascii_app, Hm, Hd. }
  pose proof (is_ascii_lower _ Hm) as Hlm.
  pose proof (is_ascii_lower _ Hd) as Hld.
  assert (py.is_ascii (py.lower_ascii_text m +:+ " "
                       +:+ py.lower_ascii_text d) = true) as Hlmd.
  { by rewrite !is_ascii_app, Hlm, Hld. }
  rewrite (py.lower_on_ascii m Hm), (py.lower_on_ascii d Hd),
    (py.lower_on_ascii _ Hmd), (py.lower_on_ascii _ Hlm),
    (py.lower_on_ascii _ Hlmd).
  rewrite !lower_ascii_text_app, !lower_ascii_text_idemp. done.
Qed.

(** X14.  [add_text_features] keeps every row and its columns and adds the
    two text views: merchant_text is the lowered merchant and
    combined_text the lowered join of merchant, one space and
    description, a missing merchant or description counting as the empty
    string.  Where merchant and description are ASCII text,
    combined_text is merchant_text, one space and the lowered
    description, and both views are already lowercase: lowering them
    again changes nothing. *)
Theorem add_text_features_views (df : list ml_features.WithTime) :
  Forall2 (λ r out,
      let merchant := default "" (ml_features.merchant (ml_features.raw r)) in
      let description :=
        default "" (ml_features.description (ml_features.raw r)) in
      ml_features.base out = r
      ∧ ml_features.w_merchant_text out = py.lower merchant
      ∧ ml_features.w_combined_text out
        = py.lower (merchant +:+ " " +:+ description)
      ∧ (py.is_ascii merchant = true → py.is_ascii description = true →
         ml_features.w_combined_text out
         = ml_features.w_merchant_text out +:+ " " +:+ py.lower description
         ∧ py.lower (ml_features.w_merchant_text out)
           = ml_features.w_merchant_text out
         ∧ py.lower (ml_features.w_combined_text out)
           = ml_features.w_combined_text out))
    df (ml_features.add_text_features df).
Proof.
  unfold ml_features.add_text_features. apply Forall2_fmap_r, Forall_Forall2_diag.
  apply Forall_forall. intros r _. cbv zeta.
  cbn [ml_features.base ml_features.w_merchant_text
       ml_features.w_combined_text].
  unfold pandas.fillna.
  split; [done|]. split; [done|]. split; [done|]. intros Hm Hd.
  destruct (lower_joined _ _ Hm Hd) as (Hjoin & Hidem & Hagain).
  cbn [ml_features.w_merchant_text ml_features.w_combined_text].
  split; [exact Hjoin|]. split; [exact Hidem|].
  rewrite Hjoin, Hagain. exact Hjoin.
Qed.

End text.

Section time_columns.
Context `{parser : !pandas.Parser}.

(** X13.  [extract_time_features] over any datetime reader.  It raises
    exactly when the one call that reads the column raises, with the
    same error.  Otherwise it returns one row of time columns per entry,
    in order: for an entry read to an instant, the hour and the day of
    week of that instant, a day of week in 0..6 and a weekend flag that
    is 1 on days 5 and 6 and 0 on the others; for an entry read as [NaT],
    NaN for hour and day of week and a weekend flag of 0. *)
Theorem extract_time_features_outcomes (datetime_series : list string) :
  match ml_features.extract_time_features datetime_series with
  | py.Ok out =>
      length out = length datetime_series
      ∧ ∃ dt,
          pandas.to_datetime_series datetime_series = py.Ok dt
          ∧ Forall2 (λ (ts : option datetime.t) t,
                match ts with
                | Some ts =>
                    ml_features.t_hour t = Some (datetime.hour ts)
                    ∧ ml_features.t_day_of_week t
                      = Some (datetime.dayofweek ts)
                    ∧ (0 ≤ datetime.dayofweek ts ≤ 6)%Z
                    ∧ (ml_features.t_is_weekend t = 1%Z
                       ∧ (datetime.dayofweek ts = 5
                          ∨ datetime.dayofweek ts = 6)%Z
                       ∨ ml_features.t_is_weekend t = 0%Z
                         ∧ (datetime.dayofweek ts < 5)%Z)
                | None => t = ml_features.mkTimeColumns None None 0
                end) dt out
  | py.Raise e => pandas.to_datetime_series datetime_series = py.Raise e
  end.
Proof.
  unfold ml_features.extract_time_features.
  destruct (pandas.to_datetime_series datetime_series) as [dt|e] eqn:Hrun;
    cbn [mbind mret py.result_bind py.result_ret py.rbind]; [|done].
  split.
  { rewrite length_fmap. by eapply pandas.to_datetime_series_length. }
  exists dt. split; [done|].
  apply Forall2_fmap_r, Forall_Forall2_diag, Forall_forall.
  intros [ts|] _; [|done]. cbn.
  split; [done|]. split; [done|].
  assert (0 ≤ datetime.dayofweek ts < 7)%Z as Hdow.
  { unfold datetime.dayofweek. apply Z.mod_pos_bound. lia. }
  split; [lia|].
  destruct (5 <=? datetime.dayofweek ts)%Z eqn:Hw.
  - left. split; [done|]. apply Z.leb_le in Hw. lia.
  - right. split; [done|]. apply Z.leb_gt in Hw. lia.
Qed.

End time_columns.

Section serving_text.
Context `{parser : !pandas.Parser} `{casing : !py.Casing}.

(** X15.  On ASCII text the serving feature rows depend on the texts
    only up to letter case: in predict.py and in app/main.py the row
    built from the lowered merchant and description is the row built
    from the originals, for every amount, timestamp and datetime
    reader. *)
Theorem build_feature_row_ignores_case (merchant description : string)
    (amount : Q) (iso_datetime : string) :
  py.is_ascii merchant = true → py.is_ascii description = true →
  predict.build_feature_row (py.lower merchant) (py.lower description)
    amount iso_datetime
  = predict.build_feature_row merchant description amount iso_datetime
  ∧ app_main._build_feature_row (py.lower merchant) (py.lower description)
      amount iso_datetime
    = app_main._build_feature_row merchant description amount iso_datetime.
Proof.
  intros Hm Hd. destruct (lower_joined _ _ Hm Hd) as (_ & Hidem & Hagain).
  rewrite !app_build_feature_row_eq. unfold predict.build_feature_row.
  rewrite Hagain, Hidem. done.
Qed.

End serving_text.

Lemma build_feature_row_ignores_case_witness :
  predict.build_feature_row (parser:=pandas.iso_parser)
    (casing:=py.ascii_casing) "tesco" "groceries" 43 "2025-08-24T09:00:00"
  = predict.build_feature_row (parser:=pandas.iso_parser)
      (casing:=py.ascii_casing) "Tesco" "GROCERIES" 43 "2025-08-24T09:00:00"
  ∧ app_main._build_feature_row (parser:=pandas.iso_parser)
      (casing:=py.ascii_casing) "tesco" "groceries" 43 "2025-08-24T09:00:00"
    = app_main._build_feature_row (parser:=pandas.iso_parser)
        (casing:=py.ascii_casing) "Tesco" "GROCERIES" 43
        "2025-08-24T09:00:00".
Proof.
  apply (build_feature_row_ignores_case (parser:=pandas.iso_parser)
           (casing:=py.ascii_casing) "Tesco" "GROCERIES" 43
           "2025-08-24T09:00:00"); reflexivity.
Defined.

(** ** predict.py and app/main.py: loading and answering *)

(** X17.  The two loaders agree on the model object and differ on class
    names in one case only.  Whenever predict.py loads an object,
    app/main.py caches the same object; its cached class names are those
    of [get_class_names] when the object has a step named "classifier",
    and the object's own [classes_] otherwise (where [get_class_names]
    gives None).  When predict.py fails to load, app/main.py fails with
    the same error. *)
Theorem loaders_agree (model_path : string) (fs : ml_model.files) :
  match predict.load_pipeline model_path fs with
  | py.Ok pipeline =>
      ∃ names,
        app_main.load_model model_path fs
        = py.Ok (app_main.mkGlobals (Some pipeline) names)
        ∧ (∀ classes, predict.get_class_names pipeline = Some classes →
                      names = Some classes)
        ∧ ((∃ steps, ml_model.getattr_named_steps pipeline = Some steps
                   ∧ is_Some (steps !! "classifier")) →
           names = predict.get_class_names pipeline)
        ∧ ((∀ steps, ml_model.getattr_named_steps pipeline = Some steps →
                     steps !! "classifier" = None) →
           predict.get_class_names pipeline = None
           ∧ names = ml_model.getattr_classes_ pipeline)
  | py.Raise e => app_main.load_model model_path fs = py.Raise e
  end.
Proof.
  unfold predict.load_pipeline, app_main.load_model.
  destruct (ml_model.unpickle model_path fs) as [payload|e]; [|done].
  cbn [mbind py.result_bind py.rbind].
  set (pipeline := match payload with
                   | ml_model.ObjDict d =>
                       match d !! "pipeline" with
                       | Some pipeline => pipeline
                       | None => payload
                       end
                   | _ => payload
                   end).
  assert (match payload with
          | ml_model.ObjDict d =>
              match d !! "pipeline" with
              | Some pipeline => py.Ok pipeline
              | None => py.Ok payload
              end
          | _ => py.Ok payload
          end = py.Ok pipeline) as ->.
  { subst pipeline. destruct payload as [p|l|d]; try done.
    by destruct (d !! "pipeline"). }
  eexists. split; [reflexivity|].
  unfold predict.get_class_names.
  destruct (ml_model.getattr_named_steps pipeline) as [steps|] eqn:Hs.
  - destruct (steps !! "classifier") as [clf|] eqn:Hc.
    + split; [by destruct (ml_model.classes_ clf)|].
      split; [by destruct (ml_model.classes_ clf)|].
      intros Hno. by rewrite (Hno steps eq_refl) in Hc.
    + split; [done|]. split; [|done].
      intros (steps' & [= <-] & [clf Hclf]). by rewrite Hc in Hclf.
  - split; [done|]. split; [|done]. by intros (steps' & [=] & _).
Qed.

Section answering.
Context `{parser : !pandas.Parser} `{casing : !py.Casing}
  `{sorter : !numpy.Argsort}.

(** The serving feature row fails only when the default literal itself
    is not read to an instant, with the reader's error or with the
    ValueError of [int] on NaN. *)
Lemma build_feature_row_error m d a s e :
  predict.build_feature_row m d a s = py.Raise e →
  (∃ text, e = py.DateParseError text) ∨ (∃ msg, e = py.ValueError msg).
Proof.
  unfold predict.build_feature_row, predict.add_time_features.
  destruct (pandas.to_datetime_coerce s); [done|].
  unfold pandas.to_datetime.
  destruct (pandas.to_datetime_series [predict.DEFAULT_ISO_DATETIME])
    as [dt|e'] eqn:Hdt; cbn [mbind py.result_bind py.rbind].
  - destruct (to_datetime_series_single _ _ Hdt) as [[ts|] ->];
      cbn [mbind py.result_bind py.rbind]; [done|].
    intros [= <-]. right. by eexists.
  - intros [= <-]. left. by eapply pandas.to_datetime_series_error.
Qed.

(** X18.  The fallback shape.  When the loaded object has no
    [predict_proba] and its [predict] returns a label, predict.py prints
    the input with that label alone, and app/main.py answers with the
    prediction field alone: no top-1 and no top-k list, for any requested
    k. *)
Theorem fallback_is_label_only (args : predict.Args) (fs : ml_model.files)
    (pipeline : ml_model.obj) (row : ml_model.FeatureRecord) (pred : string)
    (globals : app_main.Globals) (topk : Z) :
  predict.load_pipeline (predict.model_path args) fs = py.Ok pipeline →
  app_main._pipeline globals = Some pipeline →
  predict.build_feature_row (predict.merchant args) (predict.description args)
    (predict.amount args) (predict.iso_datetime args) = py.Ok row →
  ml_model.getattr_predict_proba pipeline = None →
  ml_model.call_predict pipeline row = py.Ok pred →
  predict.main args fs
  = py.Ok (predict.Label
             (predict.mkInput (predict.merchant args)
                (predict.description args) (predict.amount args)
                (predict.iso_datetime args)) pred)
  ∧ app_main.predict globals
      (app_main.mkPredictRequest (predict.merchant args)
         (predict.description args) (predict.amount args)
         (predict.iso_datetime args) topk)
    = py.Ok (app_main.mkPredictResponse
               (app_main.mkPredictRequest (predict.merchant args)
                  (predict.description args) (predict.amount args)
                  (predict.iso_datetime args) topk)
               None None (Some pred)).
Proof.
  intros Hload Hglob Hrow Hattr Hpred. split.
  - unfold predict.main. rewrite Hload.
    cbn [mbind py.result_bind py.rbind]. rewrite Hrow.
    cbn [mbind py.result_bind py.rbind]. by rewrite Hattr, Hpred.
  - unfold app_main.predict. rewrite Hglob. cbn.
    rewrite app_build_feature_row_eq, Hrow.
    cbn [mbind py.result_bind py.rbind]. by rewrite Hattr, Hpred.
Qed.

(** X19.  app/main.py answers as predict.py does.  When the API has
    loaded the artifact predict.py loads and holds the class names
    [get_class_names] gives, then for every merchant, description,
    amount, timestamp and k its answer is the outcome of predict.py on
    the same input: the same top-1 and top-k items or the same fallback
    label, the same error, except that NotFittedError becomes the 503
    response. *)
Theorem api_answers_as_cli (merchant description : string) (amount : Q)
    (iso_datetime : string) (topk : Z) (model_path : string)
    (fs : ml_model.files) (pipeline : ml_model.obj)
    (globals : app_main.Globals) :
  predict.load_pipeline model_path fs = py.Ok pipeline →
  app_main._pipeline globals = Some pipeline →
  app_main._class_names globals = predict.get_class_names pipeline →
  app_main.predict globals
    (app_main.mkPredictRequest merchant description amount iso_datetime topk)
  = api_outcome
      (app_main.mkPredictRequest merchant description amount iso_datetime topk)
      (predict.main
         (predict.mkArgs merchant description amount iso_datetime topk
            model_path) fs).
Proof.
  intros Hload Hglob Hnames.
  unfold app_main.predict, predict.main.
  cbn [app_main.merchant app_main.description
       app_main.amount app_main.iso_datetime app_main.topk predict.merchant
       predict.description predict.amount predict.iso_datetime predict.topk
       predict.model_path].
  rewrite Hglob, Hload. cbn [mbind py.result_bind py.rbind].
  rewrite app_build_feature_row_eq, Hnames.
  destruct (predict.build_feature_row merchant description amount
              iso_datetime) as [row|e] eqn:Hrow;
    cbn [mbind py.result_bind py.rbind].
  - destruct (ml_model.getattr_predict_proba pipeline) as [predict_proba|].
    + destruct (predict_proba row) as [proba|e];
        cbn [mbind py.result_bind py.rbind]; [|by destruct e].
      change (app_main.items (predict.get_class_names pipeline) proba topk)
        with (predict.topk_items (predict.get_class_names pipeline) proba topk).
      destruct (predict.topk_items _ proba topk) as [items|e];
        cbn [mbind py.result_bind py.rbind]; [|by destruct e].
      destruct (ml_model.getitem items 0) as [top1|e];
        cbn [mbind py.result_bind py.rbind]; [done|by destruct e].
    + destruct (ml_model.call_predict pipeline row) as [label|e];
        cbn [mbind py.result_bind py.rbind]; [done|by destruct e].
  - by apply build_feature_row_error in Hrow as [[text ->]|[msg ->]].
Qed.

(** X20.  How [predict] of app/main.py fails.  With no model loaded it
    raises the 500 "Model is not loaded" response for every request,
    before any feature is derived.  It never lets NotFittedError out:
    when the model's probability call, or without one its [predict],
    raises NotFittedError, the answer is the 503 response. *)
Theorem api_predict_failures (globals : app_main.Globals)
    (req : app_main.PredictRequest) :
  (app_main._pipeline globals = None →
   app_main.predict globals req
   = py.Raise (py.HTTPException 500 "Model is not loaded"))
  ∧ app_main.predict globals req ≠ py.Raise py.NotFittedError
  ∧ ∀ pipeline row,
      app_main._pipeline globals = Some pipeline →
      app_main._build_feature_row (app_main.merchant req)
        (app_main.description req) (app_main.amount req)
        (app_main.iso_datetime req) = py.Ok row →
      (∀ predict_proba,
         ml_model.getattr_predict_proba pipeline = Some predict_proba →
         predict_proba row = py.Raise py.NotFittedError →
         ∃ detail, app_main.predict globals req
                   = py.Raise (py.HTTPException 503 detail))
      ∧ (ml_model.getattr_predict_proba pipeline = None →
         ml_model.call_predict pipeline row = py.Raise py.NotFittedError →
         ∃ detail, app_main.predict globals req
                   = py.Raise (py.HTTPException 503 detail)).
Proof.
  split; [by unfold app_main.predict; intros ->|]. split.
  - unfold app_main.predict.
    destruct (app_main._pipeline globals) as [pipeline|]; [|done].
    rewrite app_build_feature_row_eq.
    destruct (predict.build_feature_row _ _ _ _) as [row|e] eqn:Hrow;
      cbn [mbind py.result_bind py.rbind].
    + match goal with
      | |- match ?r with _ => _ end ≠ _ => destruct r as [resp|[]]; done
      end.
    + by apply build_feature_row_error in Hrow as [[text ->]|[msg ->]].
  - intros pipeline row Hglob Hrow. unfold app_main.predict.
    rewrite Hglob, Hrow. cbn [mbind py.result_bind py.rbind].
    split.
    + intros predict_proba -> ->. by eexists.
    + intros -> ->. by eexists.
Qed.

End answering.

Lemma fallback_is_label_only_witness :
  predict.main (parser:=pandas.iso_parser) (casing:=py.ascii_casing)
    (sorter:=numpy.insertion) tesco_args
    {[ "model.pkl" := ml_model.Pickled (ml_model.ObjPipeline label_only_model) ]}
  = py.Ok (predict.Label
             (predict.mkInput "Tesco" "groceries" 43 "2025-08-24T09:00:00")
             "Groceries")
  ∧ app_main.predict (parser:=pandas.iso_parser) (casing:=py.ascii_casing)
      (sorter:=numpy.insertion)
      (app_main.mkGlobals (Some (ml_model.ObjPipeline label_only_model)) None)
      (app_main.mkPredictRequest "Tesco" "groceries" 43
         "2025-08-24T09:00:00" 5)
    = py.Ok (app_main.mkPredictResponse
               (app_main.mkPredictRequest "Tesco" "groceries" 43
                  "2025-08-24T09:00:00" 5)
               None None (Some "Groceries")).
Proof.
  apply (fallback_is_label_only (parser:=pandas.iso_parser)
           (casing:=py.ascii_casing) (sorter:=numpy.insertion) tesco_args
           {[ "model.pkl" :=
                ml_model.Pickled (ml_model.ObjPipeline label_only_model) ]}
           (ml_model.ObjPipeline label_only_model)
           (ml_model.mkFeatureRecord "tesco groceries" "tesco" 43 9 6 1)
           "Groceries"
           (app_main.mkGlobals (Some (ml_model.ObjPipeline label_only_model))
              None) 5); reflexivity.
Defined.

Lemma api_answers_as_cli_witness :
  app_main.predict (parser:=pandas.iso_parser) (casing:=py.ascii_casing)
    (sorter:=numpy.insertion)
    (app_main.mkGlobals (Some (ml_model.ObjPipeline fitted_pipeline))
       (predict.get_class_names (ml_model.ObjPipeline fitted_pipeline)))
    (app_main.mkPredictRequest "Tesco" "groceries" 43 "2025-08-24T09:00:00" 3)
  = api_outcome
      (app_main.mkPredictRequest "Tesco" "groceries" 43
         "2025-08-24T09:00:00" 3)
      (predict.main (parser:=pandas.iso_parser) (casing:=py.ascii_casing)
         (sorter:=numpy.insertion)
         (predict.mkArgs "Tesco" "groceries" 43 "2025-08-24T09:00:00" 3
            "model.pkl")
         (ml_io.save_artifacts fitted_pipeline
            (settings.categories settings.SETTINGS) "model.pkl" ∅)).
Proof.
  apply (api_answers_as_cli (parser:=pandas.iso_parser)
           (casing:=py.ascii_casing) (sorter:=numpy.insertion)
           "Tesco" "groceries" 43 "2025-08-24T09:00:00" 3 "model.pkl"
           (ml_io.save_artifacts fitted_pipeline
              (settings.categories settings.SETTINGS) "model.pkl" ∅)
           (ml_model.ObjPipeline fitted_pipeline)
           (app_main.mkGlobals (Some (ml_model.ObjPipeline fitted_pipeline))
              (predict.get_class_names
                 (ml_model.ObjPipeline fitted_pipeline)))); reflexivity.
Defined.

(** ** The ranking: what the top-k list holds *)

Section top_k.
Context `{sorter : !numpy.Argsort}.

(** X21.  What the top-k list holds.  The ranked class indices are all
    distinct, so no class is listed twice; every class left out has a
    probability no greater than that of every listed item; and when k is
    at least the number of classes, every class is listed exactly once. *)
Theorem topk_holds_the_largest (names : option (list string))
    (proba : list Q) (k : Z) (items : list ml_model.TopKItem) :
  predict.topk_items names proba k = py.Ok items →
  let order := py.slice_to (Z.min k (Z.of_nat (length proba)))
                 (reverse (numpy.argsort proba)) in
  NoDup order
  ∧ Forall2 (λ i it, proba !! i = Some (ml_model.probability it)) order items
  ∧ (∀ j p it, proba !! j = Some p → j ∉ order → it ∈ items →
               (p <= ml_model.probability it)%Q)
  ∧ ((Z.of_nat (length proba) ≤ k)%Z → order ≡ₚ seq 0 (length proba)).
Proof.
  intros Hitems order.
  pose proof (slice_to_prefix (Z.min k (Z.of_nat (length proba)))
                (ranked proba)) as [rest Hrest].
  set (top := py.slice_to (Z.min k (Z.of_nat (length proba))) (ranked proba))
    in *.
  assert (order = top.*1) as Horder
    by (subst order top; by rewrite order_ranked, slice_to_fmap).
  assert (NoDup (ranked proba).*1) as Hnd.
  { rewrite <- order_ranked, reverse_Permutation, numpy.argsort_indices.
    apply NoDup_seq. }
  apply topk_items_Ok in Hitems. fold top in Hitems.
  split; [|split; [|split]].
  - rewrite Horder. rewrite Hrest, fmap_app in Hnd.
    by apply NoDup_app in Hnd as [? _].
  - rewrite Horder. apply Forall2_fmap_l.
    assert (Forall (λ x, proba !! x.1 = Some x.2) top) as Hin
      by apply slice_ranked_lookup.
    clear -Hitems Hin.
    induction Hitems as [|x it l items [_ Hp] _ IH]; [constructor|].
    apply Forall_cons in Hin as [Hx Hin].
    constructor; [|by apply IH]. cbn. by rewrite Hp.
  - intros j p it Hj Hout Hit.
    apply list_elem_of_lookup in Hit as [n Hn].
    destruct (Forall2_lookup_r _ _ _ _ _ Hitems Hn) as (x & Hx & _ & Hp).
    rewrite Hp. apply elem_of_ranked in Hj. rewrite Hrest in Hj.
    apply elem_of_app in Hj as [Hj|Hj].
    + exfalso. apply Hout. rewrite Horder.
      by apply (list_elem_of_fmap_2 fst) in Hj.
    + pose proof (ranked_sorted proba) as Hs. rewrite Hrest in Hs.
      change (desc x (j, p)).
      eapply (StronglySorted_app_1_elem_of desc); [exact Hs| |exact Hj].
      by eapply list_elem_of_lookup_2.
  - intros Hk. rewrite Horder. subst top. unfold py.slice_to.
    rewrite (proj2 (Z.leb_le 0 _)) by lia.
    rewrite take_ge by (rewrite length_ranked; lia).
    by rewrite <- order_ranked, reverse_Permutation, numpy.argsort_indices.
Qed.

(** X22.  Asking for fewer keeps the front of the answer: for
    [0 <= k <= k'], when the ranking for k' succeeds, the ranking for k
    succeeds with the first min(k, n) items of it. *)
Theorem topk_items_prefix (names : option (list string)) (proba : list Q)
    (k k' : Z) (items' : list ml_model.TopKItem) :
  (0 ≤ k ≤ k')%Z →
  predict.topk_items names proba k' = py.Ok items' →
  predict.topk_items names proba k
  = py.Ok (take (Z.to_nat (Z.min k (Z.of_nat (length proba)))) items')
  ∧ app_main.items names proba k
    = py.Ok (take (Z.to_nat (Z.min k (Z.of_nat (length proba)))) items').
Proof.
  intros Hk Hitems.
  assert (predict.topk_items names proba k
          = py.Ok (take (Z.to_nat (Z.min k (Z.of_nat (length proba)))) items'))
    as Hgoal; [|by split].
  apply topk_items_Ok. apply topk_items_Ok in Hitems.
  replace (py.slice_to (Z.min k (Z.of_nat (length proba))) (ranked proba))
    with (take (Z.to_nat (Z.min k (Z.of_nat (length proba))))
            (py.slice_to (Z.min k' (Z.of_nat (length proba))) (ranked proba))).
  { by apply Forall2_take. }
  unfold py.slice_to.
  rewrite !(proj2 (Z.leb_le 0 _)) by lia.
  rewrite take_take. f_equal. lia.
Qed.

End top_k.

Lemma topk_holds_the_largest_witness :
  let order := py.slice_to (Z.min 2 (Z.of_nat (length [1 # 10; 1 # 2; 2 # 5]%Q)))
                 (reverse (numpy.argsort (Argsort:=numpy.insertion)
                             [1 # 10; 1 # 2; 2 # 5]%Q)) in
  NoDup order
  ∧ Forall2 (λ i it, [1 # 10; 1 # 2; 2 # 5]%Q !! i
                     = Some (ml_model.probability it)) order
      [ml_model.mkTopKItem "B" (1 # 2); ml_model.mkTopKItem "C" (2 # 5)]
  ∧ (∀ j p it, [1 # 10; 1 # 2; 2 # 5]%Q !! j = Some p → j ∉ order →
               it ∈ [ml_model.mkTopKItem "B" (1 # 2);
                     ml_model.mkTopKItem "C" (2 # 5)] →
               (p <= ml_model.probability it)%Q)
  ∧ ((Z.of_nat (length [1 # 10; 1 # 2; 2 # 5]%Q) ≤ 2)%Z →
     order ≡ₚ seq 0 (length [1 # 10; 1 # 2; 2 # 5]%Q)).
Proof.
  apply (topk_holds_the_largest (sorter:=numpy.insertion)
           (Some ["A"; "B"; "C"]) [1 # 10; 1 # 2; 2 # 5]%Q 2
           [ml_model.mkTopKItem "B" (1 # 2); ml_model.mkTopKItem "C" (2 # 5)]).
  reflexivity.
Defined.

Lemma topk_items_prefix_witness :
  predict.topk_items (sorter:=numpy.insertion) (Some ["A"; "B"; "C"])
    [1 # 10; 1 # 2; 2 # 5]%Q 1
  = py.Ok (take (Z.to_nat (Z.min 1 (Z.of_nat (length [1 # 10; 1 # 2; 2 # 5]%Q))))
             [ml_model.mkTopKItem "B" (1 # 2); ml_model.mkTopKItem "C" (2 # 5)])
  ∧ app_main.items (sorter:=numpy.insertion) (Some ["A"; "B"; "C"])
      [1 # 10; 1 # 2; 2 # 5]%Q 1
    = py.Ok (take (Z.to_nat (Z.min 1 (Z.of_nat (length [1 # 10; 1 # 2; 2 # 5]%Q))))
               [ml_model.mkTopKItem "B" (1 # 2); ml_model.mkTopKItem "C" (2 # 5)]).
Proof.
  apply (topk_items_prefix (sorter:=numpy.insertion)
           (Some ["A"; "B"; "C"]) [1 # 10; 1 # 2; 2 # 5]%Q
           1 2 [ml_model.mkTopKItem "B" (1 # 2); ml_model.mkTopKItem "C" (2 # 5)]).
  - lia.
  - reflexivity.
Defined.

(** ** train.py: the split check *)

Lemma foldr_min_ge (b c : Z) (cs : list Z) :
  (b ≤ foldr Z.min c cs)%Z ↔ Forall (λ n, (b ≤ n)%Z) (c :: cs).
Proof.
  induction cs as [|x cs IH]; cbn [foldr].
  - split; [intros ?; by repeat constructor|by intros [? _]%Forall_cons].
  - rewrite Z.min_glb_iff, IH, !Forall_cons. tauto.
Qed.

Lemma test_fraction_ok (n : Z) :
  Qle_bool 1 (inject_Z n * settings.test_size settings.SETTINGS_model) = true
  ↔ (5 ≤ n)%Z.
Proof. rewrite Qle_bool_iff. unfold Qle. cbn. lia. Qed.

Lemma train_fraction_ok (n : Z) :
  Qle_bool 1 (inject_Z n * (1 - settings.test_size settings.SETTINGS_model))
  = true ↔ (2 ≤ n)%Z.
Proof. rewrite Qle_bool_iff. unfold Qle. cbn. lia. Qed.

(** X23.  The stratification check of train.py, with the configured test
    fraction of 0.2, passes exactly when there is at least one label and
    every label that occurs, occurs at least five times. *)
Theorem can_stratify_iff (y : list string) :
  train.can_stratify y = true
  ↔ y ≠ [] ∧ ∀ l, l ∈ y → 5 ≤ length (filter (λ l', l' = l) y).
Proof.
  unfold train.can_stratify. cbv zeta.
  assert (Forall (λ n, (5 ≤ n)%Z) (train.value_counts y).*2
          ↔ ∀ l, l ∈ y → 5 ≤ length (filter (λ l', l' = l) y)) as Hall.
  { unfold train.value_counts. rewrite <- list_fmap_compose, Forall_fmap.
    rewrite Forall_forall. split.
    - intros H l Hl. rewrite <- elem_of_remove_dups in Hl.
      specialize (H l Hl). cbn in H. lia.
    - intros H l Hl. rewrite elem_of_remove_dups in Hl.
      specialize (H l Hl). cbn. lia. }
  assert ((train.value_counts y).*2 = [] ↔ y = []) as Hnil.
  { unfold train.value_counts. rewrite <- list_fmap_compose.
    split; [|by intros ->].
    intros Hr%fmap_nil_inv. destruct y as [|l y]; [done|].
    assert (l ∈ remove_dups (l :: y)) as Hin
      by (apply elem_of_remove_dups; left).
    rewrite Hr in Hin. by apply elem_of_nil in Hin. }
  destruct ((train.value_counts y).*2) as [|c cs] eqn:Hc.
  - split; [done|]. intros [Hne _]. exfalso. by apply Hne, Hnil.
  - rewrite !andb_true_iff, Z.leb_le, foldr_min_ge, !forallb_forall.
    rewrite <- Hall. split.
    + intros [[_ H5] _]. split.
      * intros Hy. by apply Hnil in Hy.
      * apply Forall_forall. intros n Hn. apply test_fraction_ok, H5.
        by apply list_elem_of_In.
    + intros [_ H5]. rewrite Forall_forall in H5. split; [split|].
      * apply Forall_forall. intros n Hn. specialize (H5 n Hn). lia.
      * intros n Hn. apply test_fraction_ok, H5. by apply list_elem_of_In.
      * intros n Hn. apply train_fraction_ok.
        apply list_elem_of_In in Hn. specialize (H5 n Hn). lia.
Qed.

(** The reader of the repository's timestamps reads a column of
    generated rows entry by entry. *)
Lemma timed_rows_read (rows : list ml_data.Row) :
  Forall timed_row rows →
  ∃ tss, pandas.iso_series (ml_data.date <$> rows) = py.Ok (Some <$> tss).
Proof.
  intros Htimed.
  assert (∃ tss, Forall2 (λ r ts,
            datetime.fromisoformat (ml_data.date r) = Some ts
            ∧ pandas.separator (ml_data.date r) = Some "T"%char) rows tss)
    as [tss Htss].
  { induction Htimed as [|r rows Hr _ [tss IH]].
    - exists []. constructor.
    - destruct Hr as (d & h & _ & _ & _ & _ & Hread & Hsep).
      exists (datetime.mk 2025 8 (15 + d) h 0 0 :: tss). by constructor. }
  exists tss. by apply iso_series_isoformat, Forall2_fmap_l.
Qed.

Section train_main.
Context {G : Type} `{src : !random.Source G} `{casing : !py.Casing}.

(** X24.  The run of train.py up to the split, from any generator state:
    it seeds with SETTINGS.seed, synthesizes 60 rows per category, 50 for
    "Other", plus the four hand-written rows, 534 in all; the feature step
    reads every one of them and returns 534 feature records with the
    labels in catalog-block order; and the stratification check passes,
    so the split is stratified and the warning is not printed. *)
Theorem train_main_prepares_stratified_split (g : G) :
  ∃ X y g',
    train.main_prepare (parser:=pandas.iso_parser) g
      = (py.Ok (X, y, true), g')
    ∧ length X = 534%nat
    ∧ y = concat ((λ c, replicate (if decide (c = "Other") then 50 else 60) c)
                    <$> settings.categories settings.SETTINGS)
          ++ ["Income"; "Entertainment"; "Transport"; "Other"].
Proof.
  unfold train.main_prepare.
  rewrite (bind_run _ _ g tt (random.seeded (settings.seed settings.SETTINGS)))
    by reflexivity.
  destruct (always_synthesize_dataset 60 (Some {[ "Other" := 50%Z ]})
              (Some (settings.seed settings.SETTINGS))
              (random.seeded (settings.seed settings.SETTINGS)))
    as (rows & g' & Hrun & blocks & edge & -> & Hblocks & Hedge).
  rewrite (bind_run _ _ _ _ _ Hrun).
  assert (ml_data.label <$> concat blocks ++ edge
          = concat ((λ c, replicate (if decide (c = "Other") then 50 else 60) c)
                      <$> settings.categories settings.SETTINGS)
            ++ ["Income"; "Entertainment"; "Transport"; "Other"]) as Hlab.
  { rewrite fmap_app. f_equal; [|apply Hedge].
    apply block_labels.
    assert (Forall (λ c, Z.to_nat (default 60%Z
                      (default ∅ (Some ({[ "Other" := 50%Z ]} : gmap string Z))
                         !! c))
                    = if decide (c = "Other") then 50 else 60)
              (settings.categories settings.SETTINGS)) as Hsz.
    { apply (bool_decide_unpack _). vm_compute. exact I. }
    clear Hrun. revert Hsz.
    induction Hblocks as [|c block cs blocks Hb _ IH]; [constructor|].
    intros [Hc Hcs]%Forall_cons. constructor; [|by apply IH].
    destruct Hb as (Hlen & entry & _ & Hrows). split; [by rewrite Hlen|].
    eapply Forall_impl; [exact Hrows|]. by intros r [Hr _]. }
  assert (Forall timed_row (concat blocks ++ edge)) as Htimed.
  { destruct (always_synthesize_dataset_timed 60
                (Some {[ "Other" := 50%Z ]})
                (Some (settings.seed settings.SETTINGS))
                (random.seeded (settings.seed settings.SETTINGS)))
      as (rows' & g'' & Hrun' & Htimed).
    rewrite Hrun in Hrun'. by injection Hrun' as <- <-. }
  destruct (timed_rows_read _ Htimed) as [tss Htss].
  pose proof (train_features_readable (parser:=pandas.iso_parser) _ _ Htss)
    as Hfeat.
  assert (length tss = length (concat blocks ++ edge)) as Hlen.
  { apply (pandas.to_datetime_series_length (Parser:=pandas.iso_parser))
      in Htss. by rewrite !length_fmap in Htss. }
  exists (row_of_record <$> zip_with record_of (concat blocks ++ edge) tss),
    (ml_data.label <$> concat blocks ++ edge), g'.
  split; [|split; [|exact Hlab]].
  - unfold random.lift, mbind, random.M_bind. rewrite Hfeat.
    cbn [fst snd mret random.M_ret]. rewrite Hlab. reflexivity.
  - rewrite length_fmap, length_zip_with_l_eq by done.
    rewrite <- (length_fmap ml_data.label), Hlab. reflexivity.
Qed.

End train_main.
